(** * notion_data.block: variant resolution, validation and serialization

    A shallow embedding of [src/notion_data/block.py].  The module declares
    the pydantic models of the Notion block objects: a common envelope
    [_BlockCommon], one subclass per block type, the tagged union
    [_BlockUnion] behind the [Block] adapter and the untagged union
    [_ChildBlockUnion] used for nested children.

    The classes are declarative, so each one is embedded as the table of its
    fields, and pydantic's treatment of such a table (field by field
    validation, defaults, unions, "before" validators, serialization) is
    written out as the functions [validate], [union_smart], [BlockUnion] and
    [dump].  The two functions the module defines itself, [insert_type] and
    [validate_time], are translated directly. *)

From Stdlib Require Import List String Ascii ZArith Lia Bool Arith PeanoNat.
From Stdlib Require Import Permutation.
Import ListNotations.
Local Open Scope string_scope.

(* ===================================================================== *)
(** * Raw data *)
(* ===================================================================== *)

(** Raw input as Python sees it after JSON decoding.  A [dict] keeps its
    insertion order, which [insert_type] observes through [list(values)[0]],
    so a mapping is an association list.  Floats do not occur in any field
    of the module and are left out. *)
Unset Elimination Schemes.
Inductive json : Type :=
| JNull
| JBool (b : bool)
| JInt (z : Z)
| JStr (s : string)
| JList (l : list json)
| JDict (d : list (string * json)).
Set Elimination Schemes.

Definition dict := list (string * json).

Section JsonInduction.
Variable P : json -> Prop.
Hypothesis Hnull : P JNull.
Hypothesis Hbool : forall b, P (JBool b).
Hypothesis Hint : forall z, P (JInt z).
Hypothesis Hstr : forall s, P (JStr s).
Hypothesis Hlist : forall l, Forall P l -> P (JList l).
Hypothesis Hdict : forall d, Forall (fun kv => P (snd kv)) d -> P (JDict d).

Fixpoint json_ind (j : json) : P j :=
    match j with
    | JNull => Hnull
    | JBool b => Hbool b
    | JInt z => Hint z
    | JStr s => Hstr s
    | JList l =>
        Hlist l ((fix items (l : list json) : Forall P l :=
                    match l with
                    | [] => Forall_nil _
                    | x :: l' => Forall_cons x (json_ind x) (items l')
                    end) l)
    | JDict d =>
        Hdict d ((fix entries (d : dict) : Forall (fun kv => P (snd kv)) d :=
                    match d with
                    | [] => Forall_nil _
                    | kv :: d' =>
                        Forall_cons (P := fun kv => P (snd kv)) kv
                          (json_ind (snd kv)) (entries d')
                    end) d)
    end.
End JsonInduction.

(** [d[k]], [k in d] and [d[k] = v] on an insertion-ordered dict: a new key
    goes to the end, an existing key keeps its place. *)
Fixpoint dict_get (k : string) (d : dict) : option json :=
  match d with
  | [] => None
  | (k', v) :: d' => if String.eqb k k' then Some v else dict_get k d'
  end.

Definition dict_has (k : string) (d : dict) : bool :=
  match dict_get k d with Some _ => true | None => false end.

Fixpoint dict_set (k : string) (v : json) (d : dict) : dict :=
  match d with
  | [] => [(k, v)]
  | (k', v') :: d' =>
      if String.eqb k k' then (k', v) :: d' else (k', v') :: dict_set k v d'
  end.

Definition dict_keys (d : dict) : list string := map fst d.

Definition mem (k : string) (ks : list string) : bool :=
  existsb (String.eqb k) ks.

(** Nesting depth of raw data; scalars have depth 0. *)
Fixpoint depth (j : json) : nat :=
  match j with
  | JList l => S (fold_right (fun x n => Nat.max (depth x) n) 0 l)
  | JDict d => S (fold_right (fun kv n => Nat.max (depth (snd kv)) n) 0 d)
  | _ => 0
  end.

(* ===================================================================== *)
(** * Outcomes of a conversion call *)
(* ===================================================================== *)

(** A call either returns, fails with pydantic's structured
    [ValidationError], or lets another Python exception escape.  pydantic
    turns only [ValueError] and [AssertionError] raised inside a validator
    into a [ValidationError]; [IndexError] and [TypeError] propagate to the
    caller unchanged.  [RecursionError] stands for exhausting the nesting
    bound of [ChildBlockUnion] below. *)
Inductive exn : Type := IndexError | TypeError | RecursionError.

Inductive outcome (A : Type) : Type :=
| Ok (a : A)
| ValidationError
| Raise (e : exn).
Arguments Ok {A} a.
Arguments ValidationError {A}.
Arguments Raise {A} e.

Definition is_ok {A} (r : outcome A) : bool :=
  match r with Ok _ => true | _ => false end.

Definition omap {A B} (f : A -> B) (r : outcome A) : outcome B :=
  match r with
  | Ok a => Ok (f a)
  | ValidationError => ValidationError
  | Raise e => Raise e
  end.

(* ===================================================================== *)
(** * The "before" validator of [_BlockCommon] *)
(* ===================================================================== *)

(** ["type" in s] for a Python string [s] is a substring test. *)
Fixpoint str_contains (needle s : string) : bool :=
  String.prefix needle s ||
  match s with
  | EmptyString => false
  | String _ s' => str_contains needle s'
  end.

Definition is_type_str (j : json) : bool :=
  match j with JStr s => String.eqb s "type" | _ => false end.

(** [_BlockCommon.insert_type]:
<<
    def insert_type(cls, values):
        if "type" not in values:
            values["type"] = list(values)[0]
        return values
>>
    The result is the object that was passed in, after the assignment: the
    function works in place, so the value returned here is also the state in
    which the caller's mapping is left.  When an exception escapes nothing
    has been assigned.  For inputs that are not mappings Python's own rules
    apply: [in] on a string is a substring test, on a list a membership
    test, and fails with [TypeError] on [None], booleans and integers;
    [list(values)[0]] is evaluated before the assignment and raises
    [IndexError] on an empty container; item assignment with a string key
    raises [TypeError] on strings and lists. *)
Definition insert_type (values : json) : outcome json :=
  match values with
  | JDict d =>
      if dict_has "type" d then Ok values
      else match dict_keys d with
           | [] => Raise IndexError
           | k :: _ => Ok (JDict (d ++ [("type", JStr k)]))
           end
  | JStr s =>
      if str_contains "type" s then Ok values
      else match s with
           | EmptyString => Raise IndexError
           | String _ _ => Raise TypeError
           end
  | JList l =>
      if existsb is_type_str l then Ok values
      else match l with
           | [] => Raise IndexError
           | _ :: _ => Raise TypeError
           end
  | JNull | JBool _ | JInt _ => Raise TypeError
  end.

(* ===================================================================== *)
(** * Identifiers *)
(* ===================================================================== *)

Definition between (lo hi : nat) (c : ascii) : bool :=
  let n := nat_of_ascii c in (lo <=? n)%nat && (n <=? hi)%nat.

Definition is_hex (c : ascii) : bool :=
  between 48 57 c || between 97 102 c || between 65 70 c.

Fixpoint take_hex (n : nat) (s : string) : option string :=
  match n with
  | O => Some s
  | S n' =>
      match s with
      | String c s' => if is_hex c then take_hex n' s' else None
      | EmptyString => None
      end
  end.

Definition take_hyphen (s : string) : option string :=
  match s with
  | String "-"%char s' => Some s'
  | _ => None
  end.

Definition bind {A B} (o : option A) (f : A -> option B) : option B :=
  match o with Some a => f a | None => None end.

Notation "x <- o ;; k" := (bind o (fun x => k))
  (at level 61, o at next level, right associativity).
Notation "' p <- o ;; k" := (bind o (fun x => let 'p := x in k))
  (at level 61, p pattern, o at next level, right associativity).

Definition at_end (o : option string) : bool :=
  match o with Some EmptyString => true | _ => false end.

(** Modelled from the spec: the constant [UUIDv4] of [regex.py], which is
    not part of this development's sources.  The spec gives the fixed ID
    pattern as 32 hex characters, optionally hyphenated per the standard
    8-4-4-4-12 grouping; [UUIDv4 s] tells whether [s] matches it. *)
Definition UUIDv4 (s : string) : bool :=
  at_end (take_hex 32 s) ||
  at_end (s1 <- take_hex 8 s ;; s2 <- take_hyphen s1 ;;
          s3 <- take_hex 4 s2 ;; s4 <- take_hyphen s3 ;;
          s5 <- take_hex 4 s4 ;; s6 <- take_hyphen s5 ;;
          s7 <- take_hex 4 s6 ;; s8 <- take_hyphen s7 ;;
          take_hex 12 s8).

(* ===================================================================== *)
(** * Timestamps *)
(* ===================================================================== *)

(** A Python [datetime]: calendar fields, microseconds, and the UTC offset
    in minutes when the value is timezone-aware. *)
Record datetime : Type := mk_datetime {
  year : nat; month : nat; day : nat;
  hour : nat; minute : nat; second : nat;
  microsecond : N;
  utcoffset : option Z
}.

Definition digit (n : nat) : ascii := ascii_of_nat (48 + n).

Definition digit_val (c : ascii) : option nat :=
  if between 48 57 c then Some (nat_of_ascii c - 48)%nat else None.

Definition pad2 (n : nat) : string :=
  String (digit ((n / 10) mod 10)) (String (digit (n mod 10)) EmptyString).

Definition pad4 (n : nat) : string :=
  String (digit ((n / 1000) mod 10))
    (String (digit ((n / 100) mod 10)) (pad2 n)).

Definition offset_suffix (o : option Z) : string :=
  match o with
  | None => ""
  | Some z =>
      if (z =? 0)%Z then "Z"
      else let m := Z.to_nat (Z.abs z) in
           (if (z <? 0)%Z then "-" else "+")
             ++ pad2 (m / 60) ++ ":" ++ pad2 (m mod 60)
  end.

(** Modelled from the spec: [format_datetime] of [root.py], which is not
    part of this development's sources.  The spec's temporal normalization
    renders a timestamp as an ISO-8601 string at second precision, with a
    literal [Z] when the offset is zero and the explicit numeric offset
    otherwise; a value without offset gets no suffix. *)
Definition format_datetime (t : datetime) : string :=
  pad4 (year t) ++ "-" ++ pad2 (month t) ++ "-" ++ pad2 (day t) ++ "T"
    ++ pad2 (hour t) ++ ":" ++ pad2 (minute t) ++ ":" ++ pad2 (second t)
    ++ offset_suffix (utcoffset t).

(** Reading timestamps is pydantic's work.  The part of its ISO-8601
    reader that the API's timestamps exercise is modelled:
    [YYYY-MM-DDTHH:MM:SS], an optional fraction of one to six digits, and an
    optional zone ([Z] or [+HH:MM] / [-HH:MM]). *)
Fixpoint read_digits (k acc : nat) (s : string) : option (nat * string) :=
  match k with
  | O => Some (acc, s)
  | S k' =>
      match s with
      | String c s' =>
          match digit_val c with
          | Some d => read_digits k' (10 * acc + d) s'
          | None => None
          end
      | EmptyString => None
      end
  end.

Definition expect (c : ascii) (s : string) : option string :=
  match s with
  | String c' s' => if Ascii.eqb c c' then Some s' else None
  | EmptyString => None
  end.

Fixpoint read_fraction (k : nat) (weight : N) (s : string) : N * string :=
  match k with
  | O => (0%N, s)
  | S k' =>
      match s with
      | String c s' =>
          match digit_val c with
          | Some d =>
              let '(us, rest) := read_fraction k' (weight / 10)%N s' in
              ((N.of_nat d * weight + us)%N, rest)
          | None => (0%N, s)
          end
      | EmptyString => (0%N, s)
      end
  end.

Definition read_micros (s : string) : option (N * string) :=
  match s with
  | String "."%char (String c s') =>
      match digit_val c with
      | Some _ => Some (read_fraction 6 100000%N (String c s'))
      | None => None
      end
  | _ => Some (0%N, s)
  end.

Definition read_offset (s : string) : option (option Z) :=
  match s with
  | EmptyString => Some None
  | String c rest =>
      if Ascii.eqb c "Z" && String.eqb rest "" then Some (Some 0%Z)
      else if Ascii.eqb c "+" || Ascii.eqb c "-" then
        '(hh, s1) <- read_digits 2 0 rest ;;
        s2 <- expect ":" s1 ;;
        '(mm, s3) <- read_digits 2 0 s2 ;;
        if String.eqb s3 "" && (hh <? 24)%nat && (mm <? 60)%nat then
          let m := Z.of_nat (hh * 60 + mm) in
          Some (Some (if Ascii.eqb c "-" then (- m)%Z else m))
        else None
      else None
  end.

Definition leap_year (y : nat) : bool :=
  ((y mod 4 =? 0) && negb (y mod 100 =? 0) || (y mod 400 =? 0))%nat.

Definition days_in_month (y m : nat) : nat :=
  match m with
  | 2 => if leap_year y then 29 else 28
  | 4 | 6 | 9 | 11 => 30
  | _ => 31
  end.

Definition valid_datetime (t : datetime) : bool :=
  ((1 <=? year t) && (year t <? 100 * 100)
   && (1 <=? month t) && (month t <=? 12)
   && (1 <=? day t) && (day t <=? days_in_month (year t) (month t))
   && (hour t <? 24) && (minute t <? 60) && (second t <? 60))%nat
  && (microsecond t <? 1000000)%N
  && match utcoffset t with
     | None => true
     | Some z => (-1440 <? z)%Z && (z <? 1440)%Z
     end.

Definition parse_datetime (s : string) : option datetime :=
  '(y, s) <- read_digits 4 0 s ;;
  s <- expect "-" s ;;
  '(mo, s) <- read_digits 2 0 s ;;
  s <- expect "-" s ;;
  '(d, s) <- read_digits 2 0 s ;;
  s <- expect "T" s ;;
  '(h, s) <- read_digits 2 0 s ;;
  s <- expect ":" s ;;
  '(mi, s) <- read_digits 2 0 s ;;
  s <- expect ":" s ;;
  '(se, s) <- read_digits 2 0 s ;;
  '(us, s) <- read_micros s ;;
  o <- read_offset s ;;
  let t := mk_datetime y mo d h mi se us o in
  if valid_datetime t then Some t else None.

(* ===================================================================== *)
(** * Collaborator schemas *)
(* ===================================================================== *)

(** The types imported from the sibling modules [rich_text], [file],
    [parent], [identify] and [enums].  Their internals are outside this
    module; each is used only through validation and serialization. *)
Inductive collab : Type :=
| RichText | Url | FileUnion | ParentUnion | NotionUser | Color | Language.

(** What the module takes from its siblings: the values of the collaborator
    schemas with their validators and serializers, the member
    [Color.DEFAULT], and the [extra] setting that the base class [Root] (in
    [root.py]) fixes for every model ([true] when unknown keys are
    rejected, [false] when they are ignored).  A collaborator neither
    raises nor writes to its input. *)
Class Schemas : Type := {
  ext : Type;
  ext_validate : collab -> json -> option ext;
  ext_dump : collab -> ext -> json;
  Color_DEFAULT : ext;
  forbid_extra : bool
}.

Section Blocks.
Context `{Sch : Schemas}.

  (* ------------------------------------------------------------------- *)
  (** ** Typed values and field types *)
  (* ------------------------------------------------------------------- *)

  (** Validated Python values.  [VModel cls fs] is an instance of the model
      class [cls] with its fields in declaration order. *)
Unset Elimination Schemes.
Inductive value : Type :=
  | VNone
  | VBool (b : bool)
  | VInt (z : Z)
  | VStr (s : string)
  | VDatetime (t : datetime)
  | VDict (d : dict)
  | VExt (c : collab) (x : ext)
  | VList (l : list value)
  | VModel (cls : string) (fs : list (string * value)).

  (** Field annotations as they occur in the module.  A model's field is a
      name, an annotation and a default ([None] for a required field). *)
Inductive ftype : Type :=
  | TStr
  | TPattern (pattern : string -> bool)
  | TBool
  | TInt
  | TDict
  | TDatetime
  | TLiteral (lit : string)
  | TExt (c : collab)
  | TOptional (t : ftype)
  | TList (t : ftype)
  | TModel (cls : string) (fs : list (string * ftype * option value))
  | TChildBlockUnion.
Set Elimination Schemes.

Definition field : Type := string * ftype * option value.
Definition fname (f : field) : string := fst (fst f).
Definition fty (f : field) : ftype := snd (fst f).
Definition fdefault (f : field) : option value := snd f.

Definition required (name : string) (t : ftype) : field := (name, t, None).
Definition defaulted (name : string) (t : ftype) (v : value) : field :=
    (name, t, Some v).

  (** A subclass of [_BlockCommon]: its name and the fields it adds. *)
Record model : Type := { cls_name : string; own_fields : list field }.

  (* ------------------------------------------------------------------- *)
  (** ** The classes of the module *)
  (* ------------------------------------------------------------------- *)

Definition _BlockCommon : list field :=
    [ defaulted "object" (TOptional (TLiteral "block")) VNone;
      defaulted "id" (TOptional (TPattern UUIDv4)) VNone;
      defaulted "parent" (TOptional (TExt ParentUnion)) VNone;
      defaulted "created_time" (TOptional TDatetime) VNone;
      defaulted "last_edited_time" (TOptional TDatetime) VNone;
      defaulted "created_by" (TOptional (TExt NotionUser)) VNone;
      defaulted "last_edited_by" (TOptional (TExt NotionUser)) VNone;
      defaulted "has_children" TBool (VBool false);
      defaulted "archived" TBool (VBool false);
      defaulted "in_trash" TBool (VBool false);
      defaulted "request_id" (TOptional (TPattern UUIDv4)) VNone ].

Definition color_field : field :=
    defaulted "color" (TExt Color) (VExt Color Color_DEFAULT).
Definition children_field : field :=
    defaulted "children" (TOptional (TList TChildBlockUnion)) VNone.

Definition Bookmark : model :=
    {| cls_name := "Bookmark";
       own_fields :=
         [ required "type" (TLiteral "bookmark");
           required "bookmark"
             (TModel "_BookmarkData"
                [ required "url" TStr; required "caption" (TExt RichText) ]) ] |}.

Definition BreadCrumb : model :=
    {| cls_name := "BreadCrumb";
       own_fields :=
         [ required "type" (TLiteral "breadcrumb");
           defaulted "breadcrumb" TDict (VDict []) ] |}.

  (** The class also declares [_BulletedData] (rich_text, color, children),
      but the payload field is annotated [RichText]. *)
Definition BulletedListItem : model :=
    {| cls_name := "BulletedListItem";
       own_fields :=
         [ required "type" (TLiteral "bulleted_list_item");
           required "bulleted_list_item" (TExt RichText) ] |}.

Definition Callout : model :=
    {| cls_name := "Callout";
       own_fields :=
         [ required "type" (TLiteral "callout");
           required "callout"
             (TModel "_CalloutData"
                [ required "rich_text" (TExt RichText);
                  defaulted "icon" (TOptional TStr) VNone;
                  color_field ]) ] |}.

Definition ChildDatabase : model :=
    {| cls_name := "ChildDatabase";
       own_fields :=
         [ required "type" (TLiteral "child_database");
           required "child_database"
             (TModel "_ChildDatabaseData" [ required "title" TStr ]) ] |}.

Definition ChildPage : model :=
    {| cls_name := "ChildPage";
       own_fields :=
         [ required "type" (TLiteral "child_page");
           required "child_page"
             (TModel "_ChildPageData" [ required "title" TStr ]) ] |}.

Definition Code : model :=
    {| cls_name := "Code";
       own_fields :=
         [ required "type" (TLiteral "code");
           required "code"
             (TModel "_CodeData"
                [ required "caption" (TExt RichText);
                  required "rich_text" (TExt RichText);
                  required "language" (TExt Language) ]) ] |}.

Definition ColumnList : model :=
    {| cls_name := "ColumnList";
       own_fields :=
         [ required "type" (TLiteral "column_list");
           defaulted "column_list" TDict (VDict []) ] |}.

Definition Column : model :=
    {| cls_name := "Column";
       own_fields :=
         [ required "type" (TLiteral "column");
           defaulted "column" TDict (VDict []) ] |}.

Definition _HeadingData : ftype :=
    TModel "_HeadingData"
      [ required "rich_text" (TExt RichText);
        color_field;
        defaulted "is_toggleable" TBool (VBool false) ].

Definition Heading1 : model :=
    {| cls_name := "Heading1";
       own_fields :=
         [ required "type" (TLiteral "heading_1");
           required "heading_1" _HeadingData ] |}.

Definition Divider : model :=
    {| cls_name := "Divider";
       own_fields :=
         [ required "type" (TLiteral "divider");
           defaulted "divider" TDict (VDict []) ] |}.

Definition Embed : model :=
    {| cls_name := "Embed";
       own_fields :=
         [ required "type" (TLiteral "embed");
           required "embed" (TExt Url) ] |}.

Definition Equation : model :=
    {| cls_name := "Equation";
       own_fields :=
         [ required "type" (TLiteral "equation");
           required "equation"
             (TModel "_EquationData" [ required "expression" TStr ]) ] |}.

Definition File : model :=
    {| cls_name := "File";
       own_fields :=
         [ required "type" (TLiteral "file");
           required "file" (TExt FileUnion) ] |}.

Definition Heading2 : model :=
    {| cls_name := "Heading2";
       own_fields :=
         [ required "type" (TLiteral "heading_2");
           required "heading_2" _HeadingData ] |}.

Definition Heading3 : model :=
    {| cls_name := "Heading3";
       own_fields :=
         [ required "type" (TLiteral "heading_3");
           required "heading_3" _HeadingData ] |}.

Definition Image : model :=
    {| cls_name := "Image";
       own_fields :=
         [ required "type" (TLiteral "image");
           required "image"
             (TModel "_ImageData" [ required "file" (TExt FileUnion) ]) ] |}.

Definition LinkPreview : model :=
    {| cls_name := "LinkPreview";
       own_fields :=
         [ required "type" (TLiteral "link_preview");
           required "link_to" (TExt Url) ] |}.

Definition NumberedListItem : model :=
    {| cls_name := "NumberedListItem";
       own_fields :=
         [ required "type" (TLiteral "numbered_list_item");
           required "numbered_list_item"
             (TModel "_NumberedListItemData"
                [ required "rich_text" (TExt RichText);
                  color_field; children_field ]) ] |}.

Definition Paragraph : model :=
    {| cls_name := "Paragraph";
       own_fields :=
         [ required "type" (TLiteral "paragraph");
           required "paragraph"
             (TModel "_ParagraphData"
                [ required "rich_text" (TExt RichText);
                  color_field; children_field ]) ] |}.

Definition Quote : model :=
    {| cls_name := "Quote";
       own_fields :=
         [ required "type" (TLiteral "quote");
           required "quote"
             (TModel "_QuoteData"
                [ required "rich_text" (TExt RichText);
                  color_field; children_field ]) ] |}.

Definition SyncedBlock : model :=
    {| cls_name := "SyncedBlock";
       own_fields :=
         [ required "type" (TLiteral "synced_block");
           required "synced_block"
             (TModel "_SyncedBlockData"
                [ required "synced_from"
                    (TOptional
                       (TModel "_SyncedFrom"
                          [ required "block_id" (TPattern UUIDv4) ]));
                  children_field ]) ] |}.

Definition Table : model :=
    {| cls_name := "Table";
       own_fields :=
         [ required "type" (TLiteral "table");
           required "table"
             (TModel "_TableData"
                [ required "table_width" TInt;
                  required "has_column_header" TBool;
                  required "has_row_header" TBool ]) ] |}.

Definition TableRow : model :=
    {| cls_name := "TableRow";
       own_fields :=
         [ required "type" (TLiteral "table_row");
           required "table_row"
             (TModel "_TableRowData"
                [ required "cells" (TList (TExt RichText)) ]) ] |}.

Definition Todo : model :=
    {| cls_name := "Todo";
       own_fields :=
         [ required "type" (TLiteral "to_do");
           required "to_do"
             (TModel "TodoData"
                [ required "rich_text" (TExt RichText);
                  defaulted "checked" TBool (VBool false);
                  color_field; children_field ]) ] |}.

Definition Toggle : model :=
    {| cls_name := "Toggle";
       own_fields :=
         [ required "type" (TLiteral "toggle");
           required "toggle"
             (TModel "_ToggleData"
                [ required "rich_text" (TExt RichText);
                  color_field; children_field ]) ] |}.

Definition Video : model :=
    {| cls_name := "Video";
       own_fields :=
         [ required "type" (TLiteral "video");
           required "video"
             (TModel "_VideoData" [ required "file" (TExt FileUnion) ]) ] |}.

  (** [_BlockCommon.__subclasses__()]: the direct subclasses in the order
      of their definition.  Both unions are built from it. *)
Definition subclasses : list model :=
    [ Bookmark; BreadCrumb; BulletedListItem; Callout; ChildDatabase;
      ChildPage; Code; ColumnList; Column; Heading1; Divider; Embed;
      Equation; File; Heading2; Heading3; Image; LinkPreview;
      NumberedListItem; Paragraph; Quote; SyncedBlock; Table; TableRow;
      Todo; Toggle; Video ].

  (** Inherited fields come first. *)
Definition model_fields (m : model) : list field :=
    _BlockCommon ++ own_fields m.

  (** The discriminator value of a class: the literal of its [type] field. *)
Fixpoint literal_of (name : string) (fs : list field) : option string :=
    match fs with
    | [] => None
    | (n, t, _) :: fs' =>
        if String.eqb n name
        then match t with TLiteral s => Some s | _ => None end
        else literal_of name fs'
    end.

Definition tag_of (m : model) : option string :=
    literal_of "type" (model_fields m).

  (** The fields a class adds besides [type]. *)
Definition payload_fields (m : model) : list field :=
    filter (fun f => negb (String.eqb (fname f) "type")) (own_fields m).

  (* ------------------------------------------------------------------- *)
  (** ** Validation *)
  (* ------------------------------------------------------------------- *)

  (** Every validator returns a pair: the state in which it leaves the raw
      object it was given (validators receive the caller's objects, and
      [insert_type] writes to them), and the outcome.  A validator that
      only reads returns its input as it is.

      pydantic collects the errors of all fields of a model and of all
      items of a list before it reports them, so validation goes on after a
      [ValidationError]; any other exception ends the call at once. *)
Definition also {A} (r : outcome A) (rs : outcome (list A))
    : outcome (list A) :=
    match rs with
    | Raise e => Raise e
    | Ok vs => match r with Ok v => Ok (v :: vs) | _ => ValidationError end
    | ValidationError => ValidationError
    end.

Section Loops.
Variable val : ftype -> json -> json * outcome value.

Fixpoint validate_items (t : ftype) (l : list json)
      : list json * outcome (list value) :=
      match l with
      | [] => ([], Ok [])
      | x :: l' =>
          let '(x', r) := val t x in
          match r with
          | Raise e => (x' :: l', Raise e)
          | _ =>
              let '(l'', rs) := validate_items t l' in
              (x' :: l'', also r rs)
          end
      end.

    (** A field present in the mapping is validated against its
        annotation; an absent field takes its default, unvalidated, or is
        reported missing. *)
Fixpoint validate_fields (fs : list field) (d : dict)
      : dict * outcome (list (string * value)) :=
      match fs with
      | [] => (d, Ok [])
      | (name, t, dflt) :: fs' =>
          let '(d1, r) :=
            match dict_get name d with
            | Some x =>
                let '(x', r) := val t x in
                (dict_set name x' d, omap (pair name) r)
            | None =>
                (d, match dflt with
                    | Some v => Ok (name, v)
                    | None => ValidationError
                    end)
            end in
          match r with
          | Raise e => (d1, Raise e)
          | _ =>
              let '(d2, rs) := validate_fields fs' d1 in
              (d2, also r rs)
          end
      end.
End Loops.

Definition has_extra (fs : list field) (d : dict) : bool :=
    existsb (fun k => negb (mem k (map fname fs))) (dict_keys d).

  (** Construction of the instance once the fields are through. *)
Definition construct (cls : string) (fs : list field) (d : dict)
      (r : outcome (list (string * value))) : outcome value :=
    match r with
    | Raise e => Raise e
    | _ =>
        if forbid_extra && has_extra fs d then ValidationError
        else omap (VModel cls) r
    end.

Section Validate.
    (** The validator of [_ChildBlockUnion] for the next nesting level. *)
Variable child : json -> json * outcome value.

    (** Scalars are accepted in their own JSON type; pydantic's coercions
        between scalar types are not modelled. *)
Fixpoint validate (t : ftype) (j : json) {struct t}
      : json * outcome value :=
      match t with
      | TStr =>
          (j, match j with JStr s => Ok (VStr s) | _ => ValidationError end)
      | TPattern pattern =>
          (j, match j with
              | JStr s => if pattern s then Ok (VStr s) else ValidationError
              | _ => ValidationError
              end)
      | TBool =>
          (j, match j with JBool b => Ok (VBool b) | _ => ValidationError end)
      | TInt =>
          (j, match j with JInt z => Ok (VInt z) | _ => ValidationError end)
      | TDict =>
          (j, match j with JDict d => Ok (VDict d) | _ => ValidationError end)
      | TDatetime =>
          (j, match j with
              | JStr s =>
                  match parse_datetime s with
                  | Some t => Ok (VDatetime t)
                  | None => ValidationError
                  end
              | _ => ValidationError
              end)
      | TLiteral lit =>
          (j, match j with
              | JStr s => if String.eqb s lit then Ok (VStr s)
                          else ValidationError
              | _ => ValidationError
              end)
      | TExt c =>
          (j, match ext_validate c j with
              | Some x => Ok (VExt c x)
              | None => ValidationError
              end)
      | TOptional t' =>
          match j with
          | JNull => (j, Ok VNone)
          | _ => validate t' j
          end
      | TList t' =>
          match j with
          | JList l =>
              let '(l', r) := validate_items validate t' l in
              (JList l', omap VList r)
          | _ => (j, ValidationError)
          end
      | TModel cls fs =>
          match j with
          | JDict d =>
              let '(d', r) := validate_fields validate fs d in
              (JDict d', construct cls fs d' r)
          | _ => (j, ValidationError)
          end
      | TChildBlockUnion => child j
      end.

    (** A subclass of [_BlockCommon] as a union member: the "before"
        validator [insert_type] runs on the raw object, then the fields
        are validated on what it returns. *)
Definition validate_model (m : model) (j : json) : json * outcome value :=
      match insert_type j with
      | Ok j1 => validate (TModel (cls_name m) (model_fields m)) j1
      | ValidationError => (j, ValidationError)
      | Raise e => (j, Raise e)
      end.

    (** A union without discriminator (pydantic's smart mode): every member
        is tried on the same raw object, in order; the call succeeds when a
        member does.  At most one member of [subclasses] can accept a given
        object (lemma [one_member] below), so the rule by which pydantic
        ranks several successes does not come into play. *)
Fixpoint union_smart (ms : list model) (j : json) (best : option value)
      : json * outcome value :=
      match ms with
      | [] => (j, match best with Some v => Ok v | None => ValidationError end)
      | m :: ms' =>
          let '(j1, r) := validate_model m j in
          match r with
          | Raise e => (j1, Raise e)
          | Ok v =>
              union_smart ms' j1 (match best with Some _ => best | None => Some v end)
          | ValidationError => union_smart ms' j1 best
          end
      end.

Fixpoint find_model (tag : string) (ms : list model) : option model :=
      match ms with
      | [] => None
      | m :: ms' =>
          match tag_of m with
          | Some s => if String.eqb s tag then Some m else find_model tag ms'
          | None => find_model tag ms'
          end
      end.

    (** A union with [discriminator="type"]: the tag is read from the raw
        object before any validator of a member runs, and selects the
        member. *)
Definition union_tagged (ms : list model) (j : json)
      : json * outcome value :=
      match j with
      | JDict d =>
          match dict_get "type" d with
          | Some (JStr tag) =>
              match find_model tag ms with
              | Some m => validate_model m j
              | None => (j, ValidationError)
              end
          | _ => (j, ValidationError)
          end
      | _ => (j, ValidationError)
      end.
End Validate.

  (** [_ChildBlockUnion], with a bound on the nesting of children. *)
Fixpoint ChildBlockUnion (fuel : nat) (j : json) : json * outcome value :=
    match fuel with
    | O => (j, Raise RecursionError)
    | S n => union_smart (ChildBlockUnion n) subclasses j None
    end.

  (** [_BlockUnion]. *)
Definition BlockUnion (fuel : nat) (j : json) : json * outcome value :=
    union_tagged (ChildBlockUnion fuel) subclasses j.

  (** [Block.validate_python(raw)]: the state in which [raw] is left, and
      the outcome.  Children sit strictly below [raw], so [depth raw] bounds
      their nesting. *)
Definition Block_validate_python (raw : json) : json * outcome value :=
    BlockUnion (depth raw) raw.

  (** A children-list entry validated on its own. *)
Definition ChildBlock_validate_python (raw : json) : json * outcome value :=
    ChildBlockUnion (S (depth raw)) raw.

  (* ------------------------------------------------------------------- *)
  (** ** Serialization *)
  (* ------------------------------------------------------------------- *)

  (** [_BlockCommon.validate_time], the [field_serializer] of
      [last_edited_time] and [created_time]. *)
Definition validate_time (time : datetime) : string := format_datetime time.

  (** Modelled from the spec: the serialization call, which is made outside
      this module.  The spec's output contract omits the fields that are
      null and emits the others under their names; this is pydantic's dump
      with [exclude_none].  [created_time] and [last_edited_time] are the
      only timestamp fields, so every timestamp goes through
      [validate_time]. *)
Fixpoint dump (v : value) : json :=
    match v with
    | VNone => JNull
    | VBool b => JBool b
    | VInt z => JInt z
    | VStr s => JStr s
    | VDatetime t => JStr (validate_time t)
    | VDict d => JDict d
    | VExt c x => ext_dump c x
    | VList l => JList (map dump l)
    | VModel _ fs =>
        JDict ((fix fields (fs : list (string * value)) : dict :=
                  match fs with
                  | [] => []
                  | (name, VNone) :: fs' => fields fs'
                  | (name, v) :: fs' => (name, dump v) :: fields fs'
                  end) fs)
    end.

Definition Block_dump_python (node : value) : json := dump node.

  (** The class and the discriminator of a node. *)
Definition class_of (node : value) : option string :=
    match node with VModel cls _ => Some cls | _ => None end.

Fixpoint field_of (name : string) (fs : list (string * value))
    : option value :=
    match fs with
    | [] => None
    | (n, v) :: fs' => if String.eqb n name then Some v else field_of name fs'
    end.

Definition attr (name : string) (node : value) : option value :=
    match node with VModel _ fs => field_of name fs | _ => None end.

End Blocks.

Section FtypeInduction.
Context `{Sch : Schemas}.
Variable P : ftype -> Prop.
Hypothesis Hstr : P TStr.
Hypothesis Hpattern : forall p, P (TPattern p).
Hypothesis Hbool : P TBool.
Hypothesis Hint : P TInt.
Hypothesis Hdict : P TDict.
Hypothesis Hdatetime : P TDatetime.
Hypothesis Hliteral : forall s, P (TLiteral s).
Hypothesis Hext : forall c, P (TExt c).
Hypothesis Hoptional : forall t, P t -> P (TOptional t).
Hypothesis Hlist : forall t, P t -> P (TList t).
Hypothesis Hmodel :
    forall cls fs, Forall (fun f => P (fty f)) fs -> P (TModel cls fs).
Hypothesis Hchild : P TChildBlockUnion.

Fixpoint ftype_ind (t : ftype) : P t :=
    match t with
    | TStr => Hstr
    | TPattern p => Hpattern p
    | TBool => Hbool
    | TInt => Hint
    | TDict => Hdict
    | TDatetime => Hdatetime
    | TLiteral s => Hliteral s
    | TExt c => Hext c
    | TOptional t' => Hoptional t' (ftype_ind t')
    | TList t' => Hlist t' (ftype_ind t')
    | TModel cls fs =>
        Hmodel cls fs
          ((fix all (fs : list field) : Forall (fun f => P (fty f)) fs :=
              match fs with
              | [] => Forall_nil _
              | f :: fs' =>
                  Forall_cons (P := fun f => P (fty f)) f
                    (ftype_ind (fty f)) (all fs')
              end) fs)
    | TChildBlockUnion => Hchild
    end.
End FtypeInduction.

(* ===================================================================== *)
(** * What a conversion call may write *)
(* ===================================================================== *)

(** [type_added j j'] : [j'] is [j] except that mappings of [j] without a
    ["type"] key may have gained one, placed last and holding the mapping's
    first key.  This is the footprint of [insert_type]. *)
Unset Elimination Schemes.
Inductive type_added : json -> json -> Prop :=
| ta_null : type_added JNull JNull
| ta_bool b : type_added (JBool b) (JBool b)
| ta_int z : type_added (JInt z) (JInt z)
| ta_str s : type_added (JStr s) (JStr s)
| ta_list l l' :
    Forall2 type_added l l' -> type_added (JList l) (JList l')
| ta_dict d d' :
    Forall2 (fun kv kv' => fst kv = fst kv' /\ type_added (snd kv) (snd kv'))
      d d' ->
    type_added (JDict d) (JDict d')
| ta_dict_type d d' k :
    Forall2 (fun kv kv' => fst kv = fst kv' /\ type_added (snd kv) (snd kv'))
      d d' ->
    dict_has "type" d = false ->
    hd_error (dict_keys d) = Some k ->
    type_added (JDict d) (JDict (d' ++ [("type", JStr k)])).
Set Elimination Schemes.

Definition same_keys (kv kv' : string * json) : Prop :=
  fst kv = fst kv' /\ type_added (snd kv) (snd kv').

Arguments subclasses : simpl never.
Arguments model_fields : simpl never.
Arguments _BlockCommon : simpl never.

(** An outcome other than reaching the nesting bound. *)
Definition within_bound {A} (r : outcome A) : Prop := r <> Raise RecursionError.

(** Distinctness of a list of names, as a test. *)
Fixpoint distinct (ks : list string) : bool :=
  match ks with
  | [] => true
  | k :: ks' => negb (mem k ks') && distinct ks'
  end.

(** The field names of the Common Envelope. *)
Definition envelope_names : list string :=
  [ "object"; "id"; "parent"; "created_time"; "last_edited_time";
    "created_by"; "last_edited_by"; "has_children"; "archived"; "in_trash";
    "request_id" ].

(** A small instance of the collaborator schemas, used to evaluate the
    validators on concrete input.  Rich text is any list, a url or file
    object is recognised by one key, colors and languages by name. *)
Module Sample.
Definition validate (c : collab) (j : json) : option json :=
    match c, j with
    | RichText, JList _ => Some j
    | Url, JDict d =>
        match dict_get "url" d with Some (JStr _) => Some j | _ => None end
    | FileUnion, JDict d =>
        if dict_has "external" d || dict_has "file" d then Some j else None
    | ParentUnion, JDict d => if dict_has "type" d then Some j else None
    | NotionUser, JDict d => if dict_has "id" d then Some j else None
    | Color, JStr s =>
        if mem s ["default"; "gray"; "blue"; "red"] then Some j else None
    | Language, JStr s =>
        if mem s ["python"; "ocaml"; "plain text"] then Some j else None
    | _, _ => None
    end.

Definition schemas (forbid : bool) : Schemas :=
    {| ext := json;
       ext_validate := validate;
       ext_dump := fun _ x => x;
       Color_DEFAULT := JStr "default";
       forbid_extra := forbid |}.
End Sample.

Section Childless.
Context `{Sch : Schemas}.

  (** Annotations under which no child block can occur. *)
Fixpoint childless (t : ftype) : bool :=
    match t with
    | TOptional t' | TList t' => childless t'
    | TModel _ fs =>
        (fix all (fs : list field) : bool :=
           match fs with
           | [] => true
           | f :: fs' => childless (fty f) && all fs'
           end) fs
    | TChildBlockUnion => false
    | _ => true
    end.

  (** A field that is either free of children or is not an envelope or
      [type] field. *)
Definition tame (fl : field) : bool :=
    childless (fty fl) || negb (mem (fname fl) ("type" :: envelope_names)).
End Childless.

(** An outcome without an escaping exception. *)
Definition returns {A} (r : outcome A) : Prop := forall e, r <> Raise e.

(** A string of exactly [n] hex characters. *)
Fixpoint hex_string (n : nat) (s : string) : bool :=
  match n, s with
  | O, EmptyString => true
  | S n', String c s' => is_hex c && hex_string n' s'
  | _, _ => false
  end.

(** A timestamp with another microsecond field. *)
Definition with_microsecond (us : N) (t : datetime) : datetime :=
  mk_datetime (year t) (month t) (day t) (hour t) (minute t) (second t)
    us (utcoffset t).

(** [j[k]] when [j] is a mapping. *)
Definition json_get (k : string) (j : json) : option json :=
  match j with JDict d => dict_get k d | _ => None end.

(** The discriminator values of the classes, in the order of [subclasses]. *)
Definition registry_tags : list string :=
  [ "bookmark"; "breadcrumb"; "bulleted_list_item"; "callout";
    "child_database"; "child_page"; "code"; "column_list"; "column";
    "heading_1"; "divider"; "embed"; "equation"; "file"; "heading_2";
    "heading_3"; "image"; "link_preview"; "numbered_list_item";
    "paragraph"; "quote"; "synced_block"; "table"; "table_row"; "to_do";
    "toggle"; "video" ].

(** The tags of the classes whose payload declares [children]. *)
Definition children_tags : list string :=
  [ "numbered_list_item"; "paragraph"; "quote"; "synced_block"; "to_do";
    "toggle" ].

(** For each tag, the payload entries of a smallest raw object that the
    class accepts, given raw values [rich], [url], [file] and [lang] that
    the collaborator schemas accept.  A payload with a default is left
    out. *)
Definition minimal_payloads (rich url file lang : json)
  : list (string * dict) :=
  [ ("bookmark",
     [("bookmark", JDict [("url", JStr "https://example.com");
                          ("caption", rich)])]);
    ("breadcrumb", []);
    ("bulleted_list_item", [("bulleted_list_item", rich)]);
    ("callout", [("callout", JDict [("rich_text", rich)])]);
    ("child_database", [("child_database", JDict [("title", JStr "t")])]);
    ("child_page", [("child_page", JDict [("title", JStr "t")])]);
    ("code", [("code", JDict [("caption", rich); ("rich_text", rich);
                              ("language", lang)])]);
    ("column_list", []);
    ("column", []);
    ("heading_1", [("heading_1", JDict [("rich_text", rich)])]);
    ("divider", []);
    ("embed", [("embed", url)]);
    ("equation", [("equation", JDict [("expression", JStr "e")])]);
    ("file", [("file", file)]);
    ("heading_2", [("heading_2", JDict [("rich_text", rich)])]);
    ("heading_3", [("heading_3", JDict [("rich_text", rich)])]);
    ("image", [("image", JDict [("file", file)])]);
    ("link_preview", [("link_to", url)]);
    ("numbered_list_item",
     [("numbered_list_item", JDict [("rich_text", rich)])]);
    ("paragraph", [("paragraph", JDict [("rich_text", rich)])]);
    ("quote", [("quote", JDict [("rich_text", rich)])]);
    ("synced_block", [("synced_block", JDict [("synced_from", JNull)])]);
    ("table",
     [("table", JDict [("table_width", JInt 1);
                       ("has_column_header", JBool false);
                       ("has_row_header", JBool false)])]);
    ("table_row", [("table_row", JDict [("cells", JList [])])]);
    ("to_do", [("to_do", JDict [("rich_text", rich)])]);
    ("toggle", [("toggle", JDict [("rich_text", rich)])]);
    ("video", [("video", JDict [("file", file)])]) ].

Fixpoint assoc {A} (k : string) (l : list (string * A)) : option A :=
  match l with
  | [] => None
  | (k', a) :: l' => if String.eqb k k' then Some a else assoc k l'
  end.

Definition minimal_raw (rich url file lang : json) (tag : string) : json :=
  JDict (("type", JStr tag)
           :: match assoc tag (minimal_payloads rich url file lang) with
              | Some payload => payload
              | None => []
              end).

(** The classes of a tree of nodes, in order: a node's children are the
    nodes in the [children] list of its payload. *)
Unset Elimination Schemes.
Inductive outline : Type := Node (cls : string) (children : list outline).
Set Elimination Schemes.

Fixpoint outline_of `{Sch : Schemas} (v : value) : outline :=
  match v with
  | VModel cls fs =>
      Node cls
        ((fix fields (fs : list (string * value)) : list outline :=
            match fs with
            | [] => []
            | (_, VModel _ pfs) :: fs' =>
                ((fix payload (pfs : list (string * value)) : list outline :=
                    match pfs with
                    | [] => []
                    | (name, VList l) :: pfs' =>
                        if String.eqb name "children" then
                          (fix items (l : list value) : list outline :=
                             match l with
                             | [] => []
                             | x :: l' => outline_of x :: items l'
                             end) l
                        else payload pfs'
                    | _ :: pfs' => payload pfs'
                    end) pfs ++ fields fs')%list
            | _ :: fs' => fields fs'
            end) fs)
  | _ => Node "" []
  end.

(** The raw tree of the recursive-children example: a paragraph with two
    children, the first of which holds a bulleted list item. *)
Definition three_levels (rich : json) : json :=
  JDict
    [("type", JStr "paragraph");
     ("paragraph",
      JDict
        [("rich_text", rich);
         ("children",
          JList
            [JDict [("paragraph",
                     JDict [("rich_text", rich);
                            ("children",
                             JList [JDict [("bulleted_list_item", rich)]])])];
             JDict [("divider", JDict [])]])])].

Arguments ChildBlockUnion : simpl never.

(** A class none of whose fields that may hold children is present in the
    mapping [d]: validating [d] against it neither writes nor raises. *)
Definition inertb `{Sch : Schemas} (m : model) (d : dict) : bool :=
  forallb (fun fl => childless (fty fl) || negb (dict_has (fname fl) d))
    (model_fields m).

Definition has_tag `{Sch : Schemas} (k : string) (m : model) : bool :=
  match tag_of m with Some s => String.eqb s k | None => false end.

(* ===================================================================== *)
(** * Round trip: what serialization keeps *)
(* ===================================================================== *)

Section RoundTripDefs.
Context `{Sch : Schemas}.

(** The entries that [dump] emits for the fields of a model. *)
Fixpoint dump_fields (fs : list (string * value)) : dict :=
  match fs with
  | [] => []
  | (name, VNone) :: fs' => dump_fields fs'
  | (name, v) :: fs' => (name, dump v) :: dump_fields fs'
  end.

Definition is_none (v : value) : bool :=
  match v with VNone => true | _ => false end.

(** Nodes that serialization keeps whole: timestamps without fraction of a
    second, and no [synced_from] that is null. *)
Fixpoint lossless (v : value) : bool :=
  match v with
  | VDatetime t => N.eqb (microsecond t) 0
  | VList l => forallb lossless l
  | VModel _ fs =>
      (fix all (fs : list (string * value)) : bool :=
         match fs with
         | [] => true
         | (name, x) :: fs' =>
             lossless x
             && negb (is_none x && String.eqb name "synced_from")
             && all fs'
         end) fs
  | _ => true
  end.

(** Annotations that admit [None]. *)
Definition nullable (t : ftype) : bool :=
  match t with TOptional _ | TChildBlockUnion => true | _ => false end.

(** A default that validates to itself once serialized. *)
Definition default_fits (t : ftype) (dv : value) : Prop :=
  forall g, validate g t (dump dv) = (dump dv, Ok dv).

(** A field whose absence on output is read back as what it was: its
    default is [None], or the field cannot be [None] and its default fits;
    the required nullable field [synced_from] is the exception. *)
Definition wf_default (fl : field) : Prop :=
  match fdefault fl with
  | Some VNone => True
  | Some dv =>
      nullable (fty fl) = false /\ lossless dv = true /\
      default_fits (fty fl) dv
  | None => nullable (fty fl) = false \/ fname fl = "synced_from"
  end.

Fixpoint wf (t : ftype) : Prop :=
  match t with
  | TOptional t' => nullable t' = false /\ wf t'
  | TList t' => wf t'
  | TModel _ fs =>
      NoDup (map fname fs) /\
      (fix all (fs : list field) : Prop :=
         match fs with
         | [] => True
         | fl :: fs' => (wf (fty fl) /\ wf_default fl) /\ all fs'
         end) fs
  | _ => True
  end.

Definition same_tag (m m' : model) : bool :=
  match tag_of m, tag_of m' with
  | Some a, Some b => String.eqb a b
  | _, _ => false
  end.

(** The statement that a field type round-trips below depth [D]: what [f]
    accepted, [g] accepts again from the serialized value, as the same
    value and without writing. *)
Definition rt_at (f g : json -> json * outcome value) (D : nat) (t : ftype)
    : Prop :=
  forall j st v,
    validate f t j = (st, Ok v) -> lossless v = true ->
    depth (dump v) <= D ->
    validate g t (dump v) = (dump v, Ok v).

(** Parse, serialize, parse again. *)
Definition round_trip (raw : json) : outcome value :=
  match snd (Block_validate_python raw) with
  | Ok node => snd (Block_validate_python (Block_dump_python node))
  | r => r
  end.
End RoundTripDefs.

(** A paragraph with one child and a creation time written as [s]. *)
Definition stamped (s : string) : json :=
  JDict
    [("type", JStr "paragraph");
     ("created_time", JStr s);
     ("paragraph",
      JDict [("rich_text", JList []);
             ("children", JList [JDict [("divider", JDict [])]])])].

(** A synced block that is an original: [synced_from] is null. *)
Definition synced_original : json :=
  JDict
    [("type", JStr "synced_block");
     ("synced_block", JDict [("synced_from", JNull)])].

(* ===================================================================== *)
(** * Validating again what validation left behind *)
(* ===================================================================== *)

Section SettledDefs.
Context `{Sch : Schemas}.

(** The field names of a model, and of the models below it, are
    distinct. *)
Fixpoint distinct_names (t : ftype) : bool :=
  match t with
  | TOptional t' | TList t' => distinct_names t'
  | TModel _ fs =>
      distinct (map fname fs) &&
      (fix all (fs : list field) : bool :=
         match fs with
         | [] => true
         | f :: fs' => distinct_names (fty f) && all fs'
         end) fs
  | _ => true
  end.

(** A validator that has nothing left to write on the state it leaves:
    run again on that state, it gives the same outcome and writes
    nothing. *)
Definition settles (f : json -> json * outcome value) : Prop :=
  forall j s r, f j = (s, r) -> returns r -> f s = (s, r).

(** Two states of a mapping with the same keys in the same order and the
    same values under [names]; other values are equal. *)
Definition agree (names : list string) (s s' : json) : Prop :=
  match s, s' with
  | JDict d, JDict e =>
      dict_keys e = dict_keys d /\
      forall n, In n names -> dict_get n e = dict_get n d
  | _, _ => s' = s
  end.
End SettledDefs.

(* ===================================================================== *)
(** * Properties of mappings *)
(* ===================================================================== *)

Lemma dict_get_app (k : string) (d1 d2 : dict) :
  dict_get k (d1 ++ d2)%list =
  match dict_get k d1 with Some v => Some v | None => dict_get k d2 end.
Proof.
  induction d1 as [|[k' v] d1 IH]; simpl; [reflexivity|].
  destruct (String.eqb k k'); auto.
Qed.

Lemma dict_has_app (k : string) (d1 d2 : dict) :
  dict_has k (d1 ++ d2)%list = dict_has k d1 || dict_has k d2.
Proof.
  unfold dict_has. rewrite dict_get_app.
  destruct (dict_get k d1); reflexivity.
Qed.

Lemma dict_get_set_same (k : string) (v : json) (d : dict) :
  dict_get k (dict_set k v d) = Some v.
Proof.
  induction d as [|[k' v'] d IH]; simpl.
  - now rewrite String.eqb_refl.
  - destruct (String.eqb k k') eqn:E; simpl; rewrite E; auto.
Qed.

Lemma dict_get_set_other (k k' : string) (v : json) (d : dict) :
  k <> k' -> dict_get k (dict_set k' v d) = dict_get k d.
Proof.
  intros Hne. induction d as [|[k0 v0] d IH]; simpl.
  - apply String.eqb_neq in Hne. now rewrite Hne.
  - destruct (String.eqb k' k0) eqn:E; simpl.
    + apply String.eqb_eq in E. subst k0.
      apply String.eqb_neq in Hne. now rewrite Hne.
    + now rewrite IH.
Qed.

Lemma dict_set_id (k : string) (v : json) (d : dict) :
  dict_get k d = Some v -> dict_set k v d = d.
Proof.
  induction d as [|[k' v'] d IH]; simpl; [discriminate|].
  destruct (String.eqb k k') eqn:E.
  - intros [= ->]. reflexivity.
  - intros H. now rewrite IH.
Qed.

(* ===================================================================== *)
(** * The footprint relation *)
(* ===================================================================== *)

Lemma type_added_refl (j : json) : type_added j j.
Proof.
  induction j using json_ind; try constructor.
  - induction H; constructor; auto.
  - induction H; constructor; auto.
Qed.

Lemma same_keys_refl (d : dict) :
  Forall2 (fun kv kv' => fst kv = fst kv' /\ type_added (snd kv) (snd kv')) d d.
Proof.
  induction d; constructor; auto using type_added_refl.
Qed.

Lemma same_keys_keys (d d' : dict) :
  Forall2 (fun kv kv' => fst kv = fst kv' /\ type_added (snd kv) (snd kv')) d d' ->
  dict_keys d' = dict_keys d.
Proof.
  unfold dict_keys. induction 1 as [|? ? ? ? [E _] ? IH]; simpl; congruence.
Qed.

Lemma same_keys_get (k : string) (d d' : dict) :
  Forall2 (fun kv kv' => fst kv = fst kv' /\ type_added (snd kv) (snd kv')) d d' ->
  match dict_get k d with
  | Some x => exists x', dict_get k d' = Some x' /\ type_added x x'
  | None => dict_get k d' = None
  end.
Proof.
  induction 1 as [|[k1 v1] [k2 v2] ? ? [E T] ? IH]; simpl in *; [reflexivity|].
  subst k2. destruct (String.eqb k k1); eauto.
Qed.

Lemma same_keys_has (k : string) (d d' : dict) :
  Forall2 (fun kv kv' => fst kv = fst kv' /\ type_added (snd kv) (snd kv')) d d' ->
  dict_has k d' = dict_has k d.
Proof.
  intros H. unfold dict_has. pose proof (same_keys_get k _ _ H) as G.
  destruct (dict_get k d).
  - destruct G as (x' & -> & _). reflexivity.
  - now rewrite G.
Qed.

Lemma type_added_trans (j1 : json) :
  forall j2 j3, type_added j1 j2 -> type_added j2 j3 -> type_added j1 j3.
Proof.
  induction j1 using json_ind; intros j2 j3 H12 H23.
  - inversion H12; subst; inversion H23; subst; constructor.
  - inversion H12; subst; inversion H23; subst; constructor.
  - inversion H12; subst; inversion H23; subst; constructor.
  - inversion H12; subst; inversion H23; subst; constructor.
  - inversion H12 as [| | | |? l2 F12| |]; subst.
    inversion H23 as [| | | |? l3 F23| |]; subst.
    constructor. clear H12 H23.
    revert l3 F23. induction F12; intros l3 F23; inversion F23; subst.
    + constructor.
    + inversion H; subst. constructor; eauto.
  - assert (Tr : forall d2 d3,
               Forall2 (fun kv kv' => fst kv = fst kv' /\ type_added (snd kv) (snd kv')) d d2 ->
               Forall2 (fun kv kv' => fst kv = fst kv' /\ type_added (snd kv) (snd kv')) d2 d3 ->
               Forall2 (fun kv kv' => fst kv = fst kv' /\ type_added (snd kv) (snd kv')) d d3).
    { clear H12 H23. induction H; intros d2 d3 F12 F23.
      - inversion F12; subst. inversion F23; subst. constructor.
      - inversion F12 as [|? y ? l2 [E1 T1] F12']; subst.
        inversion F23 as [|? z ? l3 [E2 T2] F23']; subst.
        constructor; [split; [congruence|eauto]|eauto]. }
    inversion H12 as [| | | | |? d2 F12|? d2 k F12 Hno Hhd]; subst.
    + inversion H23 as [| | | | |? d3 F23|? d3 k F23 Hno Hhd]; subst.
      * constructor. eauto.
      * apply ta_dict_type; eauto.
        -- now rewrite (same_keys_has "type" _ _ F12) in Hno.
        -- now rewrite (same_keys_keys _ _ F12) in Hhd.
    + inversion H23 as [| | | | |? d3 F23|? d3 k' F23 Hno' Hhd']; subst.
      * apply Forall2_app_inv_l in F23.
        destruct F23 as (d3a & d3b & Fa & Fb & ->).
        inversion Fb as [|? [k3 v3] ? ? [E T] Fnil]; subst.
        inversion Fnil; subst. simpl in E, T. subst k3.
        inversion T; subst.
        apply ta_dict_type; eauto.
      * rewrite dict_has_app in Hno'. simpl in Hno'.
        now rewrite orb_true_r in Hno'.
Qed.

Lemma same_keys_trans (d1 d2 d3 : dict) :
  Forall2 (fun kv kv' => fst kv = fst kv' /\ type_added (snd kv) (snd kv')) d1 d2 ->
  Forall2 (fun kv kv' => fst kv = fst kv' /\ type_added (snd kv) (snd kv')) d2 d3 ->
  Forall2 (fun kv kv' => fst kv = fst kv' /\ type_added (snd kv) (snd kv')) d1 d3.
Proof.
  intros F12. revert d3. induction F12 as [|? ? ? ? [E T]]; intros d3 F23;
    inversion F23 as [|? ? ? ? [E' T']]; subst; constructor.
  - split; [congruence | eapply type_added_trans; eauto].
  - auto.
Qed.

Lemma same_keys_set (k : string) (x x' : json) (d : dict) :
  dict_get k d = Some x -> type_added x x' ->
  Forall2 (fun kv kv' => fst kv = fst kv' /\ type_added (snd kv) (snd kv'))
    d (dict_set k x' d).
Proof.
  induction d as [|[k0 v0] d IH]; simpl; [discriminate|].
  destruct (String.eqb k k0) eqn:E.
  - intros [= ->] T. constructor; [split; auto | apply same_keys_refl].
  - intros G T. constructor; [split; auto using type_added_refl | auto].
Qed.

Lemma insert_type_frame (j j1 : json) :
  insert_type j = Ok j1 -> type_added j j1.
Proof.
  destruct j; simpl; try discriminate.
  - destruct (str_contains "type" s); [|destruct s; discriminate].
    intros [= <-]. constructor.
  - destruct (existsb is_type_str l); [|destruct l; discriminate].
    intros [= <-]. apply type_added_refl.
  - destruct (dict_has "type" d) eqn:E.
    + intros [= <-]. apply type_added_refl.
    + destruct (dict_keys d) as [|k ks] eqn:K; [discriminate|].
      intros [= <-]. apply ta_dict_type; auto using same_keys_refl.
      now rewrite K.
Qed.

Lemma depth_entries_app (d1 d2 : dict) :
  fold_right (fun kv n => Nat.max (depth (snd kv)) n) 0 (d1 ++ d2)%list =
  Nat.max (fold_right (fun kv n => Nat.max (depth (snd kv)) n) 0 d1)
          (fold_right (fun kv n => Nat.max (depth (snd kv)) n) 0 d2).
Proof.
  induction d1; simpl; [reflexivity|]. rewrite IHd1. lia.
Qed.

Lemma depth_entries_same (d : dict) :
  Forall (fun kv => forall j', type_added (snd kv) j' -> depth j' = depth (snd kv)) d ->
  forall d',
  Forall2 (fun kv kv' => fst kv = fst kv' /\ type_added (snd kv) (snd kv')) d d' ->
  fold_right (fun kv n => Nat.max (depth (snd kv)) n) 0 d' =
  fold_right (fun kv n => Nat.max (depth (snd kv)) n) 0 d.
Proof.
  induction 1 as [|kv d Hkv HF IH]; intros d' F;
    inversion F as [|? kv' ? d0 [E T] F']; subst; simpl; [reflexivity|].
  f_equal; auto.
Qed.

Lemma type_added_depth (j : json) :
  forall j', type_added j j' -> depth j' = depth j.
Proof.
  induction j using json_ind; intros j' T;
    inversion T as [| | | |? l' F|? d' F|? d' k F Hno Hhd]; subst;
    try reflexivity.
  - simpl. f_equal. clear T. revert l' F.
    induction H as [|x l Hx HF IH]; intros l' F;
      inversion F; subst; simpl; [reflexivity|].
    f_equal; auto.
  - simpl. f_equal. now apply depth_entries_same.
  - simpl. f_equal. rewrite depth_entries_app. simpl.
    rewrite Nat.max_0_r. now apply depth_entries_same.
Qed.

(* ===================================================================== *)
(** * Validation writes nothing but ["type"] entries *)
(* ===================================================================== *)

Lemma validate_TModel `{Sch : Schemas} (f : json -> json * outcome value)
    (cls : string) (fs : list field) (d : dict) :
  validate f (TModel cls fs) (JDict d) =
  let '(d', r) := validate_fields (validate f) fs d in
  (JDict d', construct cls fs d' r).
Proof. reflexivity. Qed.

Lemma ChildBlockUnion_S `{Sch : Schemas} (n : nat) (j : json) :
  ChildBlockUnion (S n) j = union_smart (ChildBlockUnion n) subclasses j None.
Proof. reflexivity. Qed.

Section Frame.
Context `{Sch : Schemas}.
Variable child : json -> json * outcome value.
Hypothesis child_frame : forall x, type_added x (fst (child x)).

Lemma validate_items_frame (t : ftype) :
    (forall x, type_added x (fst (validate child t x))) ->
    forall l, Forall2 type_added l (fst (validate_items (validate child) t l)).
Proof.
    intros Ht. induction l as [|x l IH]; simpl; [constructor|].
    specialize (Ht x). destruct (validate child t x) as [x' r].
    destruct (validate_items (validate child) t l) as [l'' rs].
    simpl in *. destruct r; simpl; constructor; auto.
    clear. induction l; constructor; auto using type_added_refl.
Qed.

Lemma validate_fields_frame (fs : list field) :
    Forall (fun f => forall x, type_added x (fst (validate child (fty f) x))) fs ->
    forall d,
      Forall2 (fun kv kv' => fst kv = fst kv' /\ type_added (snd kv) (snd kv'))
        d (fst (validate_fields (validate child) fs d)).
Proof.
    induction 1 as [|[[name t] dflt] fs Hf HF IH]; intros d; simpl.
    - apply same_keys_refl.
    - unfold fty in Hf. simpl in Hf.
      destruct (dict_get name d) as [x|] eqn:G.
      + specialize (Hf x). destruct (validate child t x) as [x' r].
        simpl in Hf.
        pose proof (same_keys_set name x x' d G Hf) as S1.
        specialize (IH (dict_set name x' d)).
        destruct (validate_fields (validate child) fs (dict_set name x' d))
          as [d2 rs].
        simpl in IH.
        destruct r; simpl; eauto using same_keys_trans.
      + specialize (IH d).
        destruct (validate_fields (validate child) fs d) as [d2 rs].
        destruct dflt; simpl; auto.
Qed.

Lemma validate_frame (t : ftype) :
    forall j, type_added j (fst (validate child t j)).
Proof.
    induction t using ftype_ind; intros j; simpl;
      try apply type_added_refl; auto.
    - destruct j; simpl; auto using type_added_refl.
    - destruct j; simpl; try apply type_added_refl.
      pose proof (validate_items_frame t IHt l) as F.
      destruct (validate_items (validate child) t l). simpl in *.
      now constructor.
    - destruct j; simpl; try apply type_added_refl.
      pose proof (validate_fields_frame fs H d) as F.
      destruct (validate_fields (validate child) fs d). simpl in *.
      now constructor.
Qed.

Lemma validate_model_frame (m : model) (j : json) :
    type_added j (fst (validate_model child m j)).
Proof.
    unfold validate_model.
    destruct (insert_type j) as [j1| |e] eqn:I; try apply type_added_refl.
    eapply type_added_trans; [apply insert_type_frame; eassumption|].
    apply validate_frame.
Qed.

Lemma union_smart_frame (ms : list model) :
    forall j best, type_added j (fst (union_smart child ms j best)).
Proof.
    induction ms as [|m ms IH]; intros j best; simpl.
    - apply type_added_refl.
    - pose proof (validate_model_frame m j) as F.
      destruct (validate_model child m j) as [j1 r]. simpl in F.
      destruct r; simpl; auto; eapply type_added_trans; eauto.
Qed.

Lemma union_tagged_frame (ms : list model) (j : json) :
    type_added j (fst (union_tagged child ms j)).
Proof.
    unfold union_tagged.
    destruct j; simpl; try apply type_added_refl.
    destruct (dict_get "type" d) as [[]|]; simpl; try apply type_added_refl.
    destruct (find_model s ms); simpl; try apply type_added_refl.
    apply validate_model_frame.
Qed.
End Frame.

Section FrameTop.
Context `{Sch : Schemas}.

Lemma ChildBlockUnion_frame (fuel : nat) :
    forall j, type_added j (fst (ChildBlockUnion fuel j)).
Proof.
    induction fuel as [|n IH]; intros j.
    - apply type_added_refl.
    - change (ChildBlockUnion (S n) j)
        with (union_smart (ChildBlockUnion n) subclasses j None).
      now apply union_smart_frame.
Qed.

Lemma BlockUnion_frame (fuel : nat) (j : json) :
    type_added j (fst (BlockUnion fuel j)).
Proof.
    apply union_tagged_frame. apply ChildBlockUnion_frame.
Qed.
End FrameTop.

(* ===================================================================== *)
(** * The nesting bound is never reached *)
(* ===================================================================== *)

Lemma depth_entries_bound (d : dict) (D : nat) :
  depth (JDict d) <= S D -> Forall (fun kv => depth (snd kv) <= D) d.
Proof.
  simpl. intros H. apply le_S_n in H.
  induction d as [|kv d IH]; constructor; simpl in H; [lia|].
  apply IH. lia.
Qed.

Lemma depth_items_bound (l : list json) (D : nat) :
  depth (JList l) <= S D -> Forall (fun x => depth x <= D) l.
Proof.
  simpl. intros H. apply le_S_n in H.
  induction l as [|x l IH]; constructor; simpl in H; [lia|].
  apply IH. lia.
Qed.

Lemma depth_entries_le (d : dict) (D : nat) :
  depth (JDict d) <= D -> Forall (fun kv => depth (snd kv) <= D) d.
Proof.
  intros H. eapply Forall_impl; [|apply (depth_entries_bound d D); lia].
  simpl. intros. lia.
Qed.

Lemma depth_items_le (l : list json) (D : nat) :
  depth (JList l) <= D -> Forall (fun x => depth x <= D) l.
Proof.
  intros H. eapply Forall_impl; [|apply (depth_items_bound l D); lia].
  simpl. intros. lia.
Qed.

Lemma dict_get_bound (k : string) (d : dict) (x : json) (D : nat) :
  Forall (fun kv => depth (snd kv) <= D) d ->
  dict_get k d = Some x -> depth x <= D.
Proof.
  induction 1 as [|[k' v] d Hkv HF IH]; simpl; [discriminate|].
  destruct (String.eqb k k'); [intros [= <-]; exact Hkv | exact IH].
Qed.

Lemma dict_set_bound (k : string) (d : dict) (x : json) (D : nat) :
  Forall (fun kv => depth (snd kv) <= D) d -> depth x <= D ->
  Forall (fun kv => depth (snd kv) <= D) (dict_set k x d).
Proof.
  induction 1 as [|[k' v] d Hkv HF IH]; simpl; intros Hx.
  - constructor; auto.
  - destruct (String.eqb k k'); constructor; auto.
Qed.

Section Fuel.
Context `{Sch : Schemas}.
Variables f g : json -> json * outcome value.
Variable D : nat.
Hypothesis f_frame : forall x, type_added x (fst (f x)).
Hypothesis fg : forall x, depth x <= D -> f x = g x.

Lemma validate_items_ext (t : ftype) :
    (forall x, depth x <= D -> validate f t x = validate g t x) ->
    forall l, Forall (fun x => depth x <= D) l ->
      validate_items (validate f) t l = validate_items (validate g) t l.
Proof.
    intros Ht. induction 1 as [|x l Hx HF IH]; simpl; [reflexivity|].
    rewrite (Ht x Hx), IH. reflexivity.
Qed.

Lemma validate_fields_ext (fs : list field) :
    Forall (fun fl => forall x, depth x <= D ->
                       validate f (fty fl) x = validate g (fty fl) x) fs ->
    forall d, Forall (fun kv => depth (snd kv) <= D) d ->
      validate_fields (validate f) fs d = validate_fields (validate g) fs d.
Proof.
    induction 1 as [|[[name t] dflt] fs Hf HF IH]; intros d Hd; simpl;
      [reflexivity|].
    unfold fty in Hf; simpl in Hf.
    destruct (dict_get name d) as [x|] eqn:G.
    - pose proof (dict_get_bound _ _ _ _ Hd G) as Hx.
      rewrite <- (Hf x Hx).
      pose proof (validate_frame f f_frame t x) as T.
      destruct (validate f t x) as [x' r]. simpl in T.
      apply type_added_depth in T.
      rewrite IH; [reflexivity|].
      apply dict_set_bound; auto. lia.
    - rewrite IH; auto.
Qed.

Lemma validate_ext (t : ftype) :
    forall j, depth j <= D -> validate f t j = validate g t j.
Proof.
    induction t using ftype_ind; intros j Hj; simpl; auto.
    - destruct j; auto.
    - destruct j; auto.
      rewrite (validate_items_ext t IHt l); [reflexivity|].
      now apply depth_items_le.
    - destruct j; auto.
      rewrite (validate_fields_ext fs H d); [reflexivity|].
      now apply depth_entries_le.
Qed.
End Fuel.

Section FuelUnion.
Context `{Sch : Schemas}.
Variables f g : json -> json * outcome value.
Hypothesis f_frame : forall x, type_added x (fst (f x)).

Lemma validate_model_ext (m : model) (j : json) :
    (forall x, depth x < depth j -> f x = g x) ->
    validate_model f m j = validate_model g m j.
Proof.
    intros fg. unfold validate_model.
    destruct (insert_type j) as [j1| |e] eqn:I; auto.
    apply insert_type_frame, type_added_depth in I.
    destruct j1; try reflexivity.
    rewrite !validate_TModel.
    assert (E : validate_fields (validate f) (model_fields m) d =
                validate_fields (validate g) (model_fields m) d).
    { assert (fg' : forall x, depth x <= pred (depth (JDict d)) -> f x = g x).
      { intros x Hx. apply fg. rewrite <- I. simpl in *. lia. }
      apply (validate_fields_ext f g (pred (depth (JDict d))) f_frame).
      - apply Forall_forall. intros fl _ x Hx.
        now apply (validate_ext f g (pred (depth (JDict d))) f_frame fg').
      - apply depth_entries_bound. simpl. lia. }
    now rewrite E.
Qed.

Lemma union_smart_ext (ms : list model) :
    forall j best,
      (forall x, depth x < depth j -> f x = g x) ->
      union_smart f ms j best = union_smart g ms j best.
Proof.
    induction ms as [|m ms IH]; intros j best fg; simpl; [reflexivity|].
    rewrite <- (validate_model_ext m j fg).
    pose proof (validate_model_frame f f_frame m j) as T.
    destruct (validate_model f m j) as [j1 r]. simpl in T.
    apply type_added_depth in T.
    destruct r; auto; apply IH; intros x Hx; apply fg; lia.
Qed.

Lemma union_tagged_ext (ms : list model) (j : json) :
    (forall x, depth x < depth j -> f x = g x) ->
    union_tagged f ms j = union_tagged g ms j.
Proof.
    intros fg. unfold union_tagged.
    destruct j; auto.
    destruct (dict_get "type" d) as [[]|]; auto.
    destruct (find_model s ms); auto.
    now apply validate_model_ext.
Qed.
End FuelUnion.

Section FuelTop.
Context `{Sch : Schemas}.

Lemma ChildBlockUnion_fuel (n : nat) :
    forall m j, depth j < n -> depth j < m ->
      ChildBlockUnion n j = ChildBlockUnion m j.
Proof.
    induction n as [|n IH]; intros m j Hn Hm; [lia|].
    destruct m as [|m]; [lia|].
    change (union_smart (ChildBlockUnion n) subclasses j None =
            union_smart (ChildBlockUnion m) subclasses j None).
    apply union_smart_ext; [apply ChildBlockUnion_frame|].
    intros x Hx. apply IH; lia.
Qed.

Lemma BlockUnion_fuel (n m : nat) (j : json) :
    depth j <= n -> depth j <= m -> BlockUnion n j = BlockUnion m j.
Proof.
    intros Hn Hm. apply union_tagged_ext; [apply ChildBlockUnion_frame|].
    intros x Hx. apply ChildBlockUnion_fuel; lia.
Qed.
End FuelTop.

Lemma also_within {A} (r : outcome A) (rs : outcome (list A)) :
  within_bound rs -> within_bound (also r rs).
Proof.
  unfold within_bound. destruct rs, r; simpl; congruence.
Qed.

Lemma omap_within {A B} (h : A -> B) (r : outcome A) :
  within_bound r -> within_bound (omap h r).
Proof.
  unfold within_bound. destruct r; simpl; congruence.
Qed.

Section Bound.
Context `{Sch : Schemas}.
Variable f : json -> json * outcome value.
Variable D : nat.
Hypothesis f_frame : forall x, type_added x (fst (f x)).
Hypothesis f_within : forall x, depth x <= D -> within_bound (snd (f x)).

Lemma validate_items_within (t : ftype) :
    (forall x, depth x <= D -> within_bound (snd (validate f t x))) ->
    forall l, Forall (fun x => depth x <= D) l ->
      within_bound (snd (validate_items (validate f) t l)).
Proof.
    intros Ht. induction 1 as [|x l Hx HF IH]; simpl; [discriminate|].
    specialize (Ht x Hx). destruct (validate f t x) as [x' r].
    destruct (validate_items (validate f) t l) as [l'' rs]. simpl in *.
    destruct r; simpl; auto using also_within;
      unfold within_bound in *; congruence.
Qed.

Lemma validate_fields_within (fs : list field) :
    Forall (fun fl => forall x, depth x <= D ->
                       within_bound (snd (validate f (fty fl) x))) fs ->
    forall d, Forall (fun kv => depth (snd kv) <= D) d ->
      within_bound (snd (validate_fields (validate f) fs d)).
Proof.
    induction 1 as [|[[name t] dflt] fs Hf HF IH]; intros d Hd; simpl;
      [discriminate|].
    unfold fty in Hf; simpl in Hf.
    destruct (dict_get name d) as [x|] eqn:G.
    - pose proof (dict_get_bound _ _ _ _ Hd G) as Hx.
      specialize (Hf x Hx).
      pose proof (validate_frame f f_frame t x) as T.
      destruct (validate f t x) as [x' r]. simpl in T, Hf.
      apply type_added_depth in T.
      assert (Hd' : Forall (fun kv => depth (snd kv) <= D) (dict_set name x' d))
        by (apply dict_set_bound; auto; lia).
      specialize (IH _ Hd').
      destruct (validate_fields (validate f) fs (dict_set name x' d)) as [d2 rs].
      simpl in IH.
      destruct r; simpl; auto using also_within;
      unfold within_bound in *; congruence.
    - specialize (IH _ Hd).
      destruct (validate_fields (validate f) fs d) as [d2 rs]. simpl in IH.
      destruct dflt; simpl; auto using also_within.
Qed.

Lemma construct_within (cls : string) (fs : list field) (d : dict)
      (r : outcome (list (string * value))) :
    within_bound r -> within_bound (construct cls fs d r).
Proof.
    unfold construct, within_bound.
    destruct r; simpl; try congruence;
      destruct (forbid_extra && has_extra fs d); simpl; congruence.
Qed.

Lemma validate_within (t : ftype) :
    forall j, depth j <= D -> within_bound (snd (validate f t j)).
Proof.
    induction t using ftype_ind; intros j Hj; simpl; auto;
      try (unfold within_bound;
           repeat (match goal with
                   | |- context [match ?x with _ => _ end] => destruct x
                   end; simpl);
           discriminate).
    - destruct j; simpl; auto; discriminate.
    - destruct j; simpl; try discriminate.
      assert (W : within_bound (snd (validate_items (validate f) t l))).
      { apply validate_items_within; auto. now apply depth_items_le. }
      destruct (validate_items (validate f) t l). simpl in *.
      now apply omap_within.
    - destruct j; simpl; try discriminate.
      assert (W : within_bound (snd (validate_fields (validate f) fs d))).
      { apply validate_fields_within; auto. now apply depth_entries_le. }
      destruct (validate_fields (validate f) fs d). simpl in *.
      now apply construct_within.
Qed.
End Bound.

Lemma insert_type_within (j : json) : within_bound (insert_type j).
Proof.
  unfold within_bound.
  destruct j; simpl; try discriminate.
  - destruct (str_contains "type" s); [|destruct s]; discriminate.
  - destruct (existsb is_type_str l); [|destruct l]; discriminate.
  - destruct (dict_has "type" d); [|destruct (dict_keys d)]; discriminate.
Qed.

Section BoundUnion.
Context `{Sch : Schemas}.
Variable f : json -> json * outcome value.
Hypothesis f_frame : forall x, type_added x (fst (f x)).

Lemma validate_model_within (m : model) (j : json) :
    (forall x, depth x < depth j -> within_bound (snd (f x))) ->
    within_bound (snd (validate_model f m j)).
Proof.
    intros fq. unfold validate_model.
    pose proof (insert_type_within j) as W.
    destruct (insert_type j) as [j1| |e] eqn:I;
      [|simpl; discriminate|simpl; unfold within_bound in *; congruence].
    apply insert_type_frame, type_added_depth in I.
    destruct j1; try (simpl; discriminate).
    rewrite validate_TModel.
    assert (Q : within_bound
                  (snd (validate_fields (validate f) (model_fields m) d))).
    { assert (fq' : forall x, depth x <= pred (depth (JDict d)) ->
                                within_bound (snd (f x))).
      { intros x Hx. apply fq. rewrite <- I. simpl in *. lia. }
      apply (validate_fields_within f (pred (depth (JDict d))) f_frame).
      - apply Forall_forall. intros fl _ x Hx.
        now apply (validate_within f (pred (depth (JDict d))) f_frame fq').
      - apply depth_entries_bound. simpl. lia. }
    destruct (validate_fields (validate f) (model_fields m) d). simpl in *.
    now apply construct_within.
Qed.

Lemma union_smart_within (ms : list model) :
    forall j best,
      (forall x, depth x < depth j -> within_bound (snd (f x))) ->
      within_bound (snd (union_smart f ms j best)).
Proof.
    induction ms as [|m ms IH]; intros j best fq; simpl.
    - destruct best; discriminate.
    - pose proof (validate_model_within m j fq) as W.
      pose proof (validate_model_frame f f_frame m j) as T.
      destruct (validate_model f m j) as [j1 r]. simpl in T, W.
      apply type_added_depth in T.
      destruct r; simpl; auto; apply IH; intros x Hx; apply fq; lia.
Qed.

Lemma union_tagged_within (ms : list model) (j : json) :
    (forall x, depth x < depth j -> within_bound (snd (f x))) ->
    within_bound (snd (union_tagged f ms j)).
Proof.
    intros fq. unfold union_tagged.
    destruct j; simpl; try discriminate.
    destruct (dict_get "type" d) as [[]|]; simpl; try discriminate.
    destruct (find_model s ms); simpl; try discriminate.
    now apply validate_model_within.
Qed.
End BoundUnion.

Section BoundTop.
Context `{Sch : Schemas}.

Lemma ChildBlockUnion_within (n : nat) :
    forall j, depth j < n -> within_bound (snd (ChildBlockUnion n j)).
Proof.
    induction n as [|n IH]; intros j Hn; [lia|].
    change (ChildBlockUnion (S n) j)
      with (union_smart (ChildBlockUnion n) subclasses j None).
    apply union_smart_within; [apply ChildBlockUnion_frame|].
    intros x Hx. apply IH. lia.
Qed.

  (** [Block.validate_python] never stops at the nesting bound. *)
Lemma Block_validate_python_within (raw : json) :
    within_bound (snd (Block_validate_python raw)).
Proof.
    apply union_tagged_within; [apply ChildBlockUnion_frame|].
    intros x Hx. now apply ChildBlockUnion_within.
Qed.

Lemma ChildBlock_validate_python_within (raw : json) :
    within_bound (snd (ChildBlock_validate_python raw)).
Proof.
    apply ChildBlockUnion_within. lia.
Qed.
End BoundTop.

(* ===================================================================== *)
(** * What a successful validation says about each field *)
(* ===================================================================== *)

Lemma also_ok {A} (r : outcome A) (rs : outcome (list A)) (l : list A) :
  also r rs = Ok l -> exists v vs, r = Ok v /\ rs = Ok vs /\ l = v :: vs.
Proof.
  destruct rs, r; simpl; try discriminate. intros [= <-]. eauto.
Qed.

Lemma omap_ok {A B} (h : A -> B) (r : outcome A) (b : B) :
  omap h r = Ok b -> exists a, r = Ok a /\ b = h a.
Proof.
  destruct r; simpl; try discriminate. intros [= <-]. eauto.
Qed.

Lemma Forall2_weaken {A B} (P Q : A -> B -> Prop) (l : list A) (l' : list B) :
  (forall a b, In a l -> P a b -> Q a b) -> Forall2 P l l' -> Forall2 Q l l'.
Proof.
  intros HPQ F. induction F; constructor.
  - apply HPQ; simpl; auto.
  - apply IHF. intros a b Ha. apply HPQ. simpl; auto.
Qed.

Section Fields.
Context `{Sch : Schemas}.
Variable val : ftype -> json -> json * outcome value.

  (** Field names of a model are distinct, so each field is looked up in
      the mapping as the caller passed it. *)
Lemma validate_fields_ok (fs : list field) :
    NoDup (map fname fs) ->
    forall d d' vs,
      validate_fields val fs d = (d', Ok vs) ->
      Forall2
        (fun fl nv =>
           fst nv = fname fl /\
           match dict_get (fname fl) d with
           | Some x => snd (val (fty fl) x) = Ok (snd nv)
           | None => fdefault fl = Some (snd nv)
           end) fs vs.
Proof.
    induction fs as [|[[name t] dflt] fs IH]; intros ND d d' vs; simpl.
    - intros [= <- <-]. constructor.
    - inversion ND as [|? ? Hnot ND']; subst.
      destruct (dict_get name d) as [x|] eqn:G.
      + destruct (val t x) as [x' r] eqn:V.
        destruct (validate_fields val fs (dict_set name x' d)) as [d2 rs] eqn:R.
        destruct r as [v| |e]; simpl; try discriminate;
          intros [= <- Hal]; apply also_ok in Hal;
          destruct Hal as (nv & vs' & [= <-] & -> & ->).
        constructor.
        * unfold fname, fty; simpl. rewrite G, V. auto.
        * specialize (IH ND' _ _ _ R).
          eapply Forall2_weaken; [|exact IH].
          intros fl nv' Hin [E Hget]. split; [exact E|].
          rewrite dict_get_set_other in Hget; auto.
          intros E'. apply Hnot. change (In name (map fname fs)).
          rewrite <- E'. now apply in_map.
      + destruct (validate_fields val fs d) as [d2 rs] eqn:R.
        destruct dflt as [dv|]; simpl; try discriminate;
          intros [= <- Hal]; apply also_ok in Hal;
          destruct Hal as (nv & vs' & [= <-] & -> & ->).
        constructor.
        * unfold fname, fty, fdefault; simpl. rewrite G. auto.
        * exact (IH ND' _ _ _ R).
Qed.
End Fields.

(* ===================================================================== *)
(** * Facts about the declared classes *)
(* ===================================================================== *)

Lemma mem_In (k : string) (ks : list string) : mem k ks = true <-> In k ks.
Proof.
  unfold mem. rewrite existsb_exists. split.
  - intros (x & Hx & E). apply String.eqb_eq in E. now subst.
  - intros H. exists k. split; auto. apply String.eqb_refl.
Qed.

Lemma distinct_NoDup (ks : list string) : distinct ks = true -> NoDup ks.
Proof.
  induction ks as [|k ks IH]; simpl; [constructor|].
  intros H. apply andb_prop in H. destruct H as [H1 H2].
  constructor; auto.
  intros Hin. apply mem_In in Hin. now rewrite Hin in H1.
Qed.

Section Classes.
Context `{Sch : Schemas}.

Lemma subclasses_tags :
    map tag_of subclasses =
    map Some
      [ "bookmark"; "breadcrumb"; "bulleted_list_item"; "callout";
        "child_database"; "child_page"; "code"; "column_list"; "column";
        "heading_1"; "divider"; "embed"; "equation"; "file"; "heading_2";
        "heading_3"; "image"; "link_preview"; "numbered_list_item";
        "paragraph"; "quote"; "synced_block"; "table"; "table_row"; "to_do";
        "toggle"; "video" ].
Proof. reflexivity. Qed.

Lemma subclasses_distinct_fields (m : model) :
    In m subclasses -> NoDup (map fname (model_fields m)).
Proof.
    intros H. apply distinct_NoDup.
    assert (A : forallb (fun m => distinct (map fname (model_fields m)))
                  subclasses = true) by reflexivity.
    rewrite forallb_forall in A. now apply A.
Qed.

Lemma subclasses_tagged (m : model) :
    In m subclasses ->
    exists tag, tag_of m = Some tag /\ mem tag envelope_names = false
                /\ find_model tag subclasses = Some m.
Proof.
    unfold subclasses. simpl.
    intros H.
    repeat (destruct H as [<-|H];
            [eexists; split; [reflexivity|split; reflexivity]|]).
    contradiction.
Qed.

Lemma literal_of_In (name s : string) (fs : list field) :
    literal_of name fs = Some s ->
    exists dflt, In (name, TLiteral s, dflt) fs.
Proof.
    induction fs as [|[[n t] dflt] fs IH]; simpl; [discriminate|].
    destruct (String.eqb n name) eqn:E.
    - apply String.eqb_eq in E. subst n.
      destruct t; try discriminate. intros [= ->]. eauto.
    - intros H. destruct (IH H) as (dflt' & Hin). eauto.
Qed.
End Classes.

(* ===================================================================== *)
(** * Reading a successful validation backwards *)
(* ===================================================================== *)

Lemma Forall2_In_l {A B} (P : A -> B -> Prop) (l : list A) (l' : list B) (a : A) :
  Forall2 P l l' -> In a l -> exists b, In b l' /\ P a b.
Proof.
  induction 1 as [|x y l l' Hxy F IH]; simpl; [contradiction|].
  intros [<-|Hin]; [eauto|].
  destruct (IH Hin) as (b & Hb & Pb). eauto.
Qed.

Section Attr.
Context `{Sch : Schemas}.

Lemma field_of_In (name : string) (v : value) (vs : list (string * value)) :
    NoDup (map fst vs) -> In (name, v) vs -> field_of name vs = Some v.
Proof.
    induction vs as [|[n w] vs IH]; simpl; [contradiction|].
    intros ND [E|Hin]; inversion ND as [|? ? Hnot ND']; subst.
    - injection E as -> ->. now rewrite String.eqb_refl.
    - destruct (String.eqb n name) eqn:E.
      + apply String.eqb_eq in E. subst n. exfalso. apply Hnot.
        change name with (fst (name, v)). now apply in_map.
      + auto.
Qed.

Variable val : ftype -> json -> json * outcome value.

Lemma validate_fields_names (fs : list field) :
    forall d d' vs, validate_fields val fs d = (d', Ok vs) ->
                    map fst vs = map fname fs.
Proof.
    induction fs as [|[[name t] dflt] fs IH]; intros d d' vs; simpl.
    - intros [= <- <-]. reflexivity.
    - destruct (dict_get name d) as [x|].
      + destruct (val t x) as [x' r].
        destruct (validate_fields val fs (dict_set name x' d)) as [d2 rs] eqn:R.
        destruct r as [v| |e]; simpl; try discriminate;
          intros [= <- Hal]; apply also_ok in Hal;
          destruct Hal as (nv & vs' & [= <-] & -> & ->).
        simpl. f_equal. eapply IH; eauto.
      + destruct (validate_fields val fs d) as [d2 rs] eqn:R.
        destruct dflt as [dv|]; simpl; try discriminate;
          intros [= <- Hal]; apply also_ok in Hal;
          destruct Hal as (nv & vs' & [= <-] & -> & ->).
        simpl. f_equal. eapply IH; eauto.
Qed.

  (** The value a declared field ends up with. *)
Lemma validate_fields_attr (fs : list field) (d d' : dict)
      (vs : list (string * value)) (fl : field) :
    NoDup (map fname fs) ->
    validate_fields val fs d = (d', Ok vs) ->
    In fl fs ->
    exists v,
      field_of (fname fl) vs = Some v /\
      match dict_get (fname fl) d with
      | Some x => snd (val (fty fl) x) = Ok v
      | None => fdefault fl = Some v
      end.
Proof.
    intros ND V Hin.
    pose proof (validate_fields_ok val fs ND _ _ _ V) as F.
    destruct (Forall2_In_l _ _ _ _ F Hin) as ([n v] & Hnv & E & Hv).
    simpl in E, Hv. subst n. exists v. split; auto.
    apply field_of_In; auto.
    rewrite (validate_fields_names _ _ _ _ V). exact ND.
Qed.

  (** A field that is present and does not validate makes the model fail. *)
Lemma validate_fields_reject (fs : list field) (d : dict) (fl : field)
      (x : json) :
    NoDup (map fname fs) -> In fl fs ->
    dict_get (fname fl) d = Some x ->
    is_ok (snd (val (fty fl) x)) = false ->
    is_ok (snd (validate_fields val fs d)) = false.
Proof.
    intros ND Hin G Hbad.
    destruct (validate_fields val fs d) as [d' r] eqn:V.
    destruct r as [vs| |e]; try reflexivity.
    destruct (validate_fields_attr fs d d' vs fl ND V Hin) as (v & _ & Hv).
    rewrite G in Hv. rewrite Hv in Hbad. discriminate.
Qed.
End Attr.

Section Members.
Context `{Sch : Schemas}.
Variable f : json -> json * outcome value.
Hypothesis f_frame : forall x, type_added x (fst (f x)).

Lemma construct_ok (cls : string) (fs : list field) (d : dict)
      (r : outcome (list (string * value))) (v : value) :
    construct cls fs d r = Ok v ->
    exists vs, r = Ok vs /\ v = VModel cls vs /\
               forbid_extra && has_extra fs d = false.
Proof.
    unfold construct. destruct r as [vs| |e]; try discriminate;
      destruct (forbid_extra && has_extra fs d); simpl; try discriminate.
    intros [= <-]. eauto.
Qed.

Lemma validate_model_ok (m : model) (j st : json) (v : value) :
    validate_model f m j = (st, Ok v) ->
    exists d1 d2 vs,
      insert_type j = Ok (JDict d1) /\
      validate_fields (validate f) (model_fields m) d1 = (d2, Ok vs) /\
      st = JDict d2 /\ v = VModel (cls_name m) vs /\
      forbid_extra && has_extra (model_fields m) d2 = false.
Proof.
    unfold validate_model.
    destruct (insert_type j) as [j1| |e]; try discriminate.
    destruct j1; try (intros [= _ ?]; discriminate).
    rewrite validate_TModel.
    destruct (validate_fields (validate f) (model_fields m) d) as [d2 r] eqn:V.
    intros [= <- C]. apply construct_ok in C.
    destruct C as (vs & -> & -> & X). exists d, d2, vs. repeat split; auto.
Qed.

  (** A successful untagged union is the success of one member, run on the
      raw object as the members before it left it. *)
Lemma union_smart_ok (ms : list model) :
    forall j best st v,
      union_smart f ms j best = (st, Ok v) ->
      best = Some v \/
      (best = None /\
       exists m jm stm, In m ms /\ type_added j jm /\
                        validate_model f m jm = (stm, Ok v)).
Proof.
    induction ms as [|m ms IH]; intros j best st v; simpl.
    - destruct best; [intros [= _ <-]; auto | discriminate].
    - pose proof (validate_model_frame f f_frame m j) as T.
      destruct (validate_model f m j) as [j1 r] eqn:V. simpl in T.
      destruct r as [v1| |e]; try discriminate; intros U;
        apply IH in U.
      + destruct best as [b|]; [destruct U as [U|[U _]]; [auto|discriminate]|].
        destruct U as [[= ->]|[U _]]; [|discriminate].
        right. split; auto. exists m, j, j1.
        auto using type_added_refl.
      + destruct U as [U|(-> & m' & jm & stm & Hin & Tm & Vm)]; auto.
        right. split; auto. exists m', jm, stm.
        split; [auto|]. split; [eapply type_added_trans; eauto|auto].
Qed.

Lemma insert_type_has_type (j : json) (d1 : dict) :
    insert_type j = Ok (JDict d1) -> dict_has "type" d1 = true.
Proof.
    destruct j; simpl; try discriminate.
    - destruct (str_contains "type" s); [|destruct s]; discriminate.
    - destruct (existsb is_type_str l); [|destruct l]; discriminate.
    - destruct (dict_has "type" d) eqn:E.
      + intros [= <-]. exact E.
      + destruct (dict_keys d); [discriminate|].
        intros [= <-]. rewrite dict_has_app. simpl. apply orb_true_r.
Qed.

  (** Once a mapping without ["type"] has gained one, it holds the first
      key. *)
Lemma first_key_type (d d1 : dict) (k : string) :
    type_added (JDict d) (JDict d1) ->
    dict_has "type" d = false -> hd_error (dict_keys d) = Some k ->
    dict_has "type" d1 = true ->
    dict_get "type" d1 = Some (JStr k).
Proof.
    intros T Hno Hhd Hhas.
    inversion T as [| | | | |? d' F|? d' k' F Hno' Hhd']; subst.
    - rewrite (same_keys_has "type" _ _ F) in Hhas. congruence.
    - rewrite Hhd in Hhd'. injection Hhd' as <-.
      rewrite dict_get_app.
      assert (N : dict_get "type" d' = None).
      { pose proof (same_keys_get "type" _ _ F) as G.
        unfold dict_has in Hno. destruct (dict_get "type" d); [discriminate|].
        exact G. }
      rewrite N. simpl. reflexivity.
Qed.
End Members.

(* ===================================================================== *)
(** * Fields that cannot raise *)
(* ===================================================================== *)

Lemma omap_returns {A B} (h : A -> B) (r : outcome A) :
  returns r -> returns (omap h r).
Proof.
  unfold returns. intros H. destruct r; simpl; try congruence.
  exfalso. now apply (H e).
Qed.

Lemma also_returns {A} (r : outcome A) (rs : outcome (list A)) :
  returns rs -> returns (also r rs).
Proof.
  unfold returns. destruct rs, r; simpl; congruence.
Qed.

Section Quiet.
Context `{Sch : Schemas}.
Variable f : json -> json * outcome value.

Lemma validate_items_childless (t : ftype) :
    (forall x, fst (validate f t x) = x /\ returns (snd (validate f t x))) ->
    forall l, fst (validate_items (validate f) t l) = l /\
              returns (snd (validate_items (validate f) t l)).
Proof.
    intros Ht. induction l as [|x l [IH1 IH2]]; simpl.
    - split; [reflexivity|intros e; discriminate].
    - destruct (Ht x) as [H1 H2].
      destruct (validate f t x) as [x' r]. simpl in H1, H2. subst x'.
      destruct (validate_items (validate f) t l) as [l'' rs].
      simpl in IH1, IH2. subst l''.
      destruct r; simpl; split; auto using also_returns.
      exfalso. now apply (H2 e).
Qed.

Lemma validate_fields_childless (fs : list field) :
    Forall (fun fl => forall x, fst (validate f (fty fl) x) = x /\
                                returns (snd (validate f (fty fl) x))) fs ->
    forall d, fst (validate_fields (validate f) fs d) = d /\
              returns (snd (validate_fields (validate f) fs d)).
Proof.
    induction 1 as [|[[name t] dflt] fs Hf HF IH]; intros d; simpl.
    - split; [reflexivity|intros e; discriminate].
    - unfold fty in Hf; simpl in Hf.
      destruct (dict_get name d) as [x|] eqn:G.
      + destruct (Hf x) as [H1 H2].
        destruct (validate f t x) as [x' r]. simpl in H1, H2. subst x'.
        rewrite (dict_set_id _ _ _ G).
        destruct (IH d) as [I1 I2].
        destruct (validate_fields (validate f) fs d) as [d2 rs].
        simpl in I1, I2. subst d2.
        destruct r; simpl; split; auto using also_returns.
        exfalso. now apply (H2 e).
      + destruct (IH d) as [I1 I2].
        destruct (validate_fields (validate f) fs d) as [d2 rs].
        simpl in I1, I2. subst d2.
        destruct dflt; simpl; split; auto using also_returns.
Qed.

Lemma construct_returns (cls : string) (fs : list field) (d : dict)
      (r : outcome (list (string * value))) :
    returns r -> returns (construct cls fs d r).
Proof.
    unfold construct, returns. intros H.
    destruct r; simpl; try (exfalso; now apply (H e));
      destruct (forbid_extra && has_extra fs d); simpl; congruence.
Qed.

Lemma childless_fields (fs : list field) :
    (fix all (fs : list field) : bool :=
       match fs with
       | [] => true
       | f :: fs' => childless (fty f) && all fs'
       end) fs = true ->
    Forall (fun fl => childless (fty fl) = true) fs.
Proof.
    induction fs as [|fl fs IH]; [constructor|].
    intros H. apply andb_prop in H. destruct H. constructor; auto.
Qed.

  (** Without children below it, a validator only reads, and returns. *)
Lemma validate_childless (t : ftype) :
    childless t = true ->
    forall x, fst (validate f t x) = x /\ returns (snd (validate f t x)).
Proof.
    induction t using ftype_ind; intros C x; simpl;
      try (split; [reflexivity|];
           unfold returns;
           repeat (match goal with
                   | |- context [match ?y with _ => _ end] => destruct y
                   end; simpl);
           intros; discriminate).
    - destruct x; simpl; auto; split; auto; intros e; discriminate.
    - destruct x; simpl; try (split; [reflexivity|intros e; discriminate]).
      destruct (validate_items_childless t (IHt C) l) as [I1 I2].
      destruct (validate_items (validate f) t l) as [l' r].
      simpl in *. subst l'. split; auto. now apply omap_returns.
    - destruct x; simpl; try (split; [reflexivity|intros e; discriminate]).
      simpl in C. apply childless_fields in C.
      assert (A : Forall (fun fl => forall x, fst (validate f (fty fl) x) = x /\
                                returns (snd (validate f (fty fl) x))) fs).
      { rewrite Forall_forall in *. intros fl Hin. apply H; auto. }
      destruct (validate_fields_childless fs A d) as [I1 I2].
      destruct (validate_fields (validate f) fs d) as [d' r].
      simpl in *. subst d'. split; auto. now apply construct_returns.
    - discriminate.
Qed.

  (** Fields that are absent are not validated at all, so only the fields
      present in the mapping need to be free of children. *)
Lemma validate_fields_returns (fs : list field) :
    forall d,
      Forall (fun fl => childless (fty fl) = true \/
                        dict_get (fname fl) d = None) fs ->
      fst (validate_fields (validate f) fs d) = d /\
      returns (snd (validate_fields (validate f) fs d)).
Proof.
    induction fs as [|[[name t] dflt] fs IH]; intros d HF; simpl.
    - split; [reflexivity|intros e; discriminate].
    - inversion HF as [|? ? Hfl HF']; subst.
      unfold fty, fname in Hfl; simpl in Hfl.
      destruct (IH d HF') as [I1 I2].
      destruct (dict_get name d) as [x|] eqn:G.
      + destruct Hfl as [C|C]; [|discriminate].
        destruct (validate_childless t C x) as [H1 H2].
        destruct (validate f t x) as [x' r]. simpl in H1, H2. subst x'.
        rewrite (dict_set_id _ _ _ G).
        destruct (validate_fields (validate f) fs d) as [d2 rs].
        simpl in I1, I2. subst d2.
        destruct r; simpl; split; auto using also_returns.
        exfalso. now apply (H2 e).
      + destruct (validate_fields (validate f) fs d) as [d2 rs].
        simpl in I1, I2. subst d2.
        destruct dflt; simpl; split; auto using also_returns.
Qed.
End Quiet.

(* ===================================================================== *)
(** * Tag inference in the untagged union *)
(* ===================================================================== *)

Lemma dict_get_absent (k : string) (d : dict) :
  ~ In k (dict_keys d) -> dict_get k d = None.
Proof.
  induction d as [|[k' v] d IH]; simpl; [reflexivity|].
  intros H. destruct (String.eqb k k') eqn:E.
  - apply String.eqb_eq in E. subst. exfalso. auto.
  - apply IH. auto.
Qed.

Section Inference.
Context `{Sch : Schemas}.
Variable f : json -> json * outcome value.
Hypothesis f_frame : forall x, type_added x (fst (f x)).

Lemma subclasses_tame (m : model) :
    In m subclasses -> Forall (fun fl => tame fl = true) (model_fields m).
Proof.
    intros H. apply Forall_forall.
    assert (A : forallb (fun m => forallb tame (model_fields m)) subclasses
                = true) by reflexivity.
    rewrite forallb_forall in A. specialize (A m H).
    rewrite forallb_forall in A. exact A.
Qed.

  (** The [type] field of a member that accepts a mapping. *)
Lemma member_ok_type (m : model) (j st : json) (node : value)
      (d1 : dict) (k : string) :
    In m subclasses ->
    insert_type j = Ok (JDict d1) ->
    dict_get "type" d1 = Some (JStr k) ->
    validate_model f m j = (st, Ok node) ->
    tag_of m = Some k /\ attr "type" node = Some (VStr k) /\
    class_of node = Some (cls_name m).
Proof.
    intros Hin I G V.
    apply validate_model_ok in V.
    destruct V as (d1' & d2 & vs & I' & VF & -> & -> & _).
    rewrite I in I'. injection I' as <-.
    destruct (subclasses_tagged m Hin) as (tag & Htag & _ & _).
    destruct (literal_of_In _ _ _ Htag) as (dflt & Hfl).
    destruct (validate_fields_attr (validate f) _ _ _ _ _
                (subclasses_distinct_fields m Hin) VF Hfl) as (v & Hv & Hx).
    unfold fname, fty in *. simpl in Hv, Hx. rewrite G in Hx. simpl in Hx.
    destruct (String.eqb k tag) eqn:E; [|discriminate].
    apply String.eqb_eq in E. subst tag. injection Hx as <-.
    simpl. auto.
Qed.

  (** A mapping without ["type"] can only be accepted as the variant that
      its first key names. *)
Lemma union_first_key (d : dict) (k : string) (st : json) (node : value) :
    dict_has "type" d = false -> hd_error (dict_keys d) = Some k ->
    union_smart f subclasses (JDict d) None = (st, Ok node) ->
    attr "type" node = Some (VStr k) /\
    exists m, In m subclasses /\ tag_of m = Some k /\
              class_of node = Some (cls_name m).
Proof.
    intros Hno Hhd U.
    apply (union_smart_ok f f_frame) in U.
    destruct U as [U|(_ & m & jm & stm & Hin & T & V)]; [discriminate|].
    pose proof V as V'. apply validate_model_ok in V'.
    destruct V' as (d1 & d2 & vs & I & _).
    assert (G : dict_get "type" d1 = Some (JStr k)).
    { apply (first_key_type d); auto.
      - eapply type_added_trans; [exact T|]. now apply insert_type_frame.
      - eapply insert_type_has_type; eauto. }
    destruct (member_ok_type m jm stm node d1 k Hin I G V) as (A & B & C).
    eauto.
Qed.

  (** A member run on a mapping whose keys are envelope fields and
      ["type"], the latter holding an envelope field's name. *)
Lemma member_rejects (m : model) (j : json) (d1 : dict) (k : string) :
    In m subclasses ->
    insert_type j = Ok (JDict d1) ->
    dict_get "type" d1 = Some (JStr k) ->
    mem k envelope_names = true ->
    (forall key, In key (dict_keys d1) ->
                 mem key ("type" :: envelope_names) = true) ->
    validate_model f m j = (JDict d1, ValidationError).
Proof.
    intros Hin I G Hk Hkeys.
    unfold validate_model. rewrite I, validate_TModel.
    assert (Q : Forall (fun fl => childless (fty fl) = true \/
                                  dict_get (fname fl) d1 = None)
                  (model_fields m)).
    { eapply Forall_impl; [|apply (subclasses_tame m Hin)].
      intros fl Ht. unfold tame in Ht. apply orb_prop in Ht.
      destruct Ht as [Ht|Ht]; [auto|right].
      apply dict_get_absent. intros Hkey. apply Hkeys in Hkey.
      now rewrite Hkey in Ht. }
    destruct (validate_fields_returns f _ _ Q) as [S1 S2].
    destruct (subclasses_tagged m Hin) as (tag & Htag & Henv & _).
    destruct (literal_of_In _ _ _ Htag) as (dflt & Hfl).
    assert (B : is_ok (snd (validate_fields (validate f) (model_fields m) d1))
                = false).
    { apply (validate_fields_reject (validate f) _ _ _ (JStr k)
               (subclasses_distinct_fields m Hin) Hfl G).
      unfold fty. simpl.
      destruct (String.eqb k tag) eqn:E; [|reflexivity].
      apply String.eqb_eq in E. subst tag. congruence. }
    destruct (validate_fields (validate f) (model_fields m) d1) as [d2 r].
    simpl in S1, S2, B. subst d2.
    destruct r as [vs| |e]; [discriminate| |exfalso; now apply (S2 e)].
    unfold construct.
    destruct (forbid_extra && has_extra (model_fields m) d1); reflexivity.
Qed.

Lemma union_rejects (d1 : dict) (k : string) :
    dict_get "type" d1 = Some (JStr k) ->
    mem k envelope_names = true ->
    (forall key, In key (dict_keys d1) ->
                 mem key ("type" :: envelope_names) = true) ->
    forall ms, incl ms subclasses ->
    forall j, insert_type j = Ok (JDict d1) ->
      snd (union_smart f ms j None) = ValidationError.
Proof.
    intros G Hk Hkeys. induction ms as [|m ms IH]; intros Hincl j I; simpl.
    - reflexivity.
    - rewrite (member_rejects m j d1 k); auto.
      + apply IH.
        * intros x Hx. apply Hincl. now right.
        * simpl. unfold dict_has. now rewrite G.
      + apply Hincl. now left.
Qed.
End Inference.


Lemma ChildBlock_validate_python_eq `{Sch : Schemas} (j : json) :
  ChildBlock_validate_python j
  = union_smart (ChildBlockUnion (depth j)) subclasses j None.
Proof. reflexivity. Qed.

Lemma Block_validate_python_eq `{Sch : Schemas} (j : json) :
  Block_validate_python j
  = union_tagged (ChildBlockUnion (depth j)) subclasses j.
Proof. reflexivity. Qed.

(* ===================================================================== *)
(** * Claims about the discriminator *)
(* ===================================================================== *)

(** C1 (amended).  For a raw node mapping without a ["type"] field,
    [insert_type] takes the first key of the mapping as the discriminator
    (it is the single non-envelope key only when no envelope field comes
    before it), and whenever the mapping is accepted as a child the
    resulting node is the variant named by that key. *)
Theorem C1_first_key_is_the_discriminator `{Sch : Schemas}
    (k : string) (x : json) (rest : dict) :
  dict_has "type" ((k, x) :: rest) = false ->
  insert_type (JDict ((k, x) :: rest))
  = Ok (JDict (((k, x) :: rest) ++ [("type", JStr k)])) /\
  forall st node,
    ChildBlock_validate_python (JDict ((k, x) :: rest)) = (st, Ok node) ->
    attr "type" node = Some (VStr k) /\
    exists m, In m subclasses /\ tag_of m = Some k /\
              class_of node = Some (cls_name m).
Proof.
  intros Hno. split.
  - unfold insert_type. now rewrite Hno.
  - intros st node V. rewrite ChildBlock_validate_python_eq in V.
    eapply union_first_key;
      [apply ChildBlockUnion_frame|exact Hno|reflexivity|exact V].
Qed.

Lemma C1_witness :
  dict_has "type" [("divider", JDict [])] = false /\
  attr (Sch := Sample.schemas true) "type"
    (VModel "Divider"
       [("object", VNone); ("id", VNone); ("parent", VNone);
        ("created_time", VNone); ("last_edited_time", VNone);
        ("created_by", VNone); ("last_edited_by", VNone);
        ("has_children", VBool false); ("archived", VBool false);
        ("in_trash", VBool false); ("request_id", VNone);
        ("type", VStr "divider"); ("divider", VDict [])])
  = Some (VStr "divider").
Proof.
  split; [reflexivity|].
  refine (proj1 (proj2 (C1_first_key_is_the_discriminator
                          (Sch := Sample.schemas true)
                          "divider" (JDict []) [] eq_refl)
                   (JDict [("divider", JDict []); ("type", JStr "divider")])
                   _ _)).
  vm_compute. reflexivity.
Defined.

(** C1, as stated, fails when an envelope field precedes the payload key:
    the single non-envelope key is [divider], the tag inferred is [id], and
    the mapping is rejected. *)
Lemma C1_counterexample :
  insert_type
    (JDict [("id", JStr "0123456789abcdef0123456789abcdef");
            ("divider", JDict [])])
  = Ok (JDict [("id", JStr "0123456789abcdef0123456789abcdef");
               ("divider", JDict []); ("type", JStr "id")]) /\
  snd (ChildBlock_validate_python (Sch := Sample.schemas true)
         (JDict [("id", JStr "0123456789abcdef0123456789abcdef");
                 ("divider", JDict [])]))
  = ValidationError.
Proof. split; vm_compute; reflexivity. Qed.

(** C3 (amended).  A non-empty raw node mapping without ["type"] whose keys
    are all envelope field names (zero extra keys) is rejected as a child
    with pydantic's [ValidationError]: the first key is taken as the tag
    and names no variant. *)
Theorem C3_zero_extra_keys_rejected `{Sch : Schemas}
    (k : string) (x : json) (rest : dict) :
  forallb (fun key => mem key envelope_names) (dict_keys ((k, x) :: rest))
  = true ->
  snd (ChildBlock_validate_python (JDict ((k, x) :: rest))) = ValidationError.
Proof.
  intros Hall. set (d := (k, x) :: rest) in *.
  rewrite forallb_forall in Hall.
  assert (Hno : dict_has "type" d = false).
  { unfold dict_has. rewrite dict_get_absent; [reflexivity|].
    intros Hin. apply Hall in Hin. discriminate. }
  rewrite ChildBlock_validate_python_eq.
  apply (union_rejects _ (d ++ [("type", JStr k)])%list k).
  - rewrite dict_get_app.
    unfold dict_has in Hno. destruct (dict_get "type" d); [discriminate|].
    reflexivity.
  - apply Hall. now left.
  - intros key Hin. unfold dict_keys in Hin. rewrite map_app in Hin.
    apply in_app_or in Hin. destruct Hin as [Hin|[<-|[]]].
    + apply Hall in Hin.
      change (String.eqb key "type" || mem key envelope_names = true).
      rewrite Hin. apply orb_true_r.
    + reflexivity.
  - apply incl_refl.
  - unfold insert_type. now rewrite Hno.
Qed.

Lemma C3_witness :
  forallb (fun key => mem key envelope_names)
    (dict_keys [("archived", JBool true); ("in_trash", JBool false)]) = true /\
  snd (ChildBlock_validate_python (Sch := Sample.schemas false)
         (JDict [("archived", JBool true); ("in_trash", JBool false)]))
  = ValidationError.
Proof.
  split; [reflexivity|].
  exact (C3_zero_extra_keys_rejected (Sch := Sample.schemas false)
           "archived" (JBool true) [("in_trash", JBool false)] eq_refl).
Defined.

(** C3, as stated, fails: the empty mapping (zero extra keys) ends in an
    escaping [IndexError], and with two extra keys and a [Root] that
    ignores unknown keys the first key is picked without any error. *)
Lemma C3_counterexample :
  snd (ChildBlock_validate_python (Sch := Sample.schemas true) (JDict []))
  = Raise IndexError /\
  omap class_of
    (snd (ChildBlock_validate_python (Sch := Sample.schemas false)
            (JDict [("divider", JDict []); ("breadcrumb", JDict [])])))
  = Ok (Some "Divider").
Proof. split; vm_compute; reflexivity. Qed.

(** C10.  Through the [Block] adapter every mapping without an explicit
    ["type"] key is rejected, and is left as it was: the discriminator is
    looked up before [insert_type] runs.  The same one-key mapping is
    accepted as an element of a children list. *)
Theorem C10_top_level_requires_type `{Sch : Schemas} (d : dict) :
  dict_get "type" d = None ->
  Block_validate_python (JDict d) = (JDict d, ValidationError) /\
  omap class_of (snd (ChildBlock_validate_python (JDict [("divider", JDict [])])))
  = Ok (Some "Divider").
Proof.
  intros G. split.
  - rewrite Block_validate_python_eq. unfold union_tagged. now rewrite G.
  - clear. destruct Sch as [e ev ed cd fe]. destruct fe; vm_compute; reflexivity.
Qed.

Lemma C10_witness :
  dict_get "type" [("divider", JDict [])] = None /\
  Block_validate_python (Sch := Sample.schemas true)
    (JDict [("divider", JDict [])])
  = (JDict [("divider", JDict [])], ValidationError).
Proof.
  split; [reflexivity|].
  exact (proj1 (C10_top_level_requires_type (Sch := Sample.schemas true)
                  [("divider", JDict [])] eq_refl)).
Defined.

(* ===================================================================== *)
(** * Claims about the classes and about side effects *)
(* ===================================================================== *)

(** C5 (the code departs from the claim at [LinkPreview]).  Every class
    adds to the envelope its [type] literal and exactly one payload field;
    the payload field is named like the tag for every class but
    [LinkPreview], whose payload field is [link_to] under the tag
    [link_preview].  A raw [link_preview] object that carries its payload
    under the tag is therefore rejected. *)
Theorem C5_payload_field_names `{Sch : Schemas} :
  map (fun m => (tag_of m, map fname (payload_fields m))) subclasses
  = [ (Some "bookmark", ["bookmark"]);
      (Some "breadcrumb", ["breadcrumb"]);
      (Some "bulleted_list_item", ["bulleted_list_item"]);
      (Some "callout", ["callout"]);
      (Some "child_database", ["child_database"]);
      (Some "child_page", ["child_page"]);
      (Some "code", ["code"]);
      (Some "column_list", ["column_list"]);
      (Some "column", ["column"]);
      (Some "heading_1", ["heading_1"]);
      (Some "divider", ["divider"]);
      (Some "embed", ["embed"]);
      (Some "equation", ["equation"]);
      (Some "file", ["file"]);
      (Some "heading_2", ["heading_2"]);
      (Some "heading_3", ["heading_3"]);
      (Some "image", ["image"]);
      (Some "link_preview", ["link_to"]);
      (Some "numbered_list_item", ["numbered_list_item"]);
      (Some "paragraph", ["paragraph"]);
      (Some "quote", ["quote"]);
      (Some "synced_block", ["synced_block"]);
      (Some "table", ["table"]);
      (Some "table_row", ["table_row"]);
      (Some "to_do", ["to_do"]);
      (Some "toggle", ["toggle"]);
      (Some "video", ["video"]) ] /\
  snd (Block_validate_python
         (JDict [("type", JStr "link_preview");
                 ("link_preview",
                  JDict [("url", JStr "https://example.com")])]))
  = ValidationError.
Proof.
  split; [reflexivity|].
  destruct Sch as [e ev ed cd fe]. destruct fe; vm_compute; reflexivity.
Qed.

(** C7 (amended).  Validation changes the caller's raw object at most by
    giving mappings that lack a ["type"] key such a key, placed last and
    holding the mapping's first key; no other key or value is added,
    removed or modified. *)
Theorem C7_only_type_keys_are_written `{Sch : Schemas} (raw : json) :
  type_added raw (fst (Block_validate_python raw)) /\
  type_added raw (fst (ChildBlock_validate_python raw)).
Proof.
  split.
  - apply BlockUnion_frame.
  - apply ChildBlockUnion_frame.
Qed.

(** C7, as stated, fails: validating a block whose child carries no
    ["type"] leaves the caller's mapping with that key added to the
    child. *)
Lemma C7_counterexample :
  fst (Block_validate_python (Sch := Sample.schemas true)
         (JDict [("type", JStr "synced_block");
                 ("synced_block",
                  JDict [("synced_from", JNull);
                         ("children", JList [JDict [("divider", JDict [])]])])]))
  = JDict [("type", JStr "synced_block");
           ("synced_block",
            JDict [("synced_from", JNull);
                   ("children",
                    JList [JDict [("divider", JDict []);
                                  ("type", JStr "divider")]])])] /\
  is_ok (snd (Block_validate_python (Sch := Sample.schemas true)
         (JDict [("type", JStr "synced_block");
                 ("synced_block",
                  JDict [("synced_from", JNull);
                         ("children", JList [JDict [("divider", JDict [])]])])])))
  = true.
Proof. split; vm_compute; reflexivity. Qed.

(* ===================================================================== *)
(** * Identifiers *)
(* ===================================================================== *)

Lemma take_hex_app (n : nat) :
  forall a rest, hex_string n a = true -> take_hex n (a ++ rest) = Some rest.
Proof.
  induction n as [|n IH]; intros [|c a] rest; simpl; try discriminate.
  - reflexivity.
  - intros H. apply andb_prop in H. destruct H as [Hc Ha].
    rewrite Hc. now apply IH.
Qed.

Lemma take_hex_add (n m : nat) :
  forall s, take_hex (n + m) s = bind (take_hex n s) (take_hex m).
Proof.
  induction n as [|n IH]; intros s; simpl; [reflexivity|].
  destruct s as [|c s]; [reflexivity|].
  destruct (is_hex c); [apply IH | reflexivity].
Qed.

Lemma take_hex_end (n : nat) (a : string) :
  hex_string n a = true -> take_hex n a = Some "".
Proof.
  intros H. rewrite <- (take_hex_app n a "" H). f_equal.
  clear. induction a; simpl; congruence.
Qed.

(** Both spellings of a 32-hex identifier match the pattern. *)
Lemma UUIDv4_accepts (a b c d e : string) :
  hex_string 8 a = true -> hex_string 4 b = true -> hex_string 4 c = true ->
  hex_string 4 d = true -> hex_string 12 e = true ->
  UUIDv4 (a ++ b ++ c ++ d ++ e) = true /\
  UUIDv4 (a ++ "-" ++ b ++ "-" ++ c ++ "-" ++ d ++ "-" ++ e) = true.
Proof.
  intros Ha Hb Hc Hd He. unfold UUIDv4. split.
  - change 32 with (8 + (4 + (4 + (4 + 12)))).
    rewrite take_hex_add, (take_hex_app 8 a _ Ha). cbn [bind].
    rewrite take_hex_add, (take_hex_app 4 b _ Hb). cbn [bind].
    rewrite take_hex_add, (take_hex_app 4 c _ Hc). cbn [bind].
    rewrite take_hex_add, (take_hex_app 4 d _ Hd). cbn [bind].
    rewrite (take_hex_end 12 e He). reflexivity.
  - apply orb_true_iff. right.
    rewrite (take_hex_app 8 a _ Ha). cbn [bind append take_hyphen].
    rewrite (take_hex_app 4 b _ Hb). cbn [bind append take_hyphen].
    rewrite (take_hex_app 4 c _ Hc). cbn [bind append take_hyphen].
    rewrite (take_hex_app 4 d _ Hd). cbn [bind append take_hyphen].
    rewrite (take_hex_end 12 e He). reflexivity.
Qed.

Lemma find_model_In `{Sch : Schemas} (tag : string) (ms : list model) (m : model) :
  find_model tag ms = Some m -> In m ms /\ tag_of m = Some tag.
Proof.
  induction ms as [|m0 ms IH]; simpl; [discriminate|].
  destruct (tag_of m0) as [s|] eqn:T.
  - destruct (String.eqb s tag) eqn:E.
    + intros [= <-]. apply String.eqb_eq in E. subst. auto.
    + intros H. destruct (IH H). auto.
  - intros H. destruct (IH H). auto.
Qed.

Lemma construct_not_ok `{Sch : Schemas} (cls : string) (fs : list field)
    (d : dict) (r : outcome (list (string * value))) :
  is_ok r = false -> is_ok (construct cls fs d r) = false.
Proof.
  unfold construct. destruct r; simpl; try discriminate; intros _;
    try reflexivity.
  destruct (forbid_extra && has_extra fs d); reflexivity.
Qed.

Lemma type_added_get (d d1 : dict) (k : string) (x : json) :
  type_added (JDict d) (JDict d1) -> dict_get k d = Some x ->
  exists x', dict_get k d1 = Some x' /\ type_added x x'.
Proof.
  intros T G.
  inversion T as [| | | | |? d' F|? d' k' F Hno Hhd]; subst.
  - pose proof (same_keys_get k _ _ F) as S. now rewrite G in S.
  - pose proof (same_keys_get k _ _ F) as S. rewrite G in S.
    destruct S as (x' & G' & Tx). exists x'. split; auto.
    rewrite dict_get_app, G'. reflexivity.
Qed.

Section BadId.
Context `{Sch : Schemas}.

Lemma id_fields (name : string) (m : model) :
  In name ["id"; "request_id"] ->
  In (name, TOptional (TPattern UUIDv4), Some VNone) (model_fields m).
Proof.
  intros H. unfold model_fields. apply in_or_app. left.
  unfold _BlockCommon, defaulted. simpl in *.
  destruct H as [<-|[<-|[]]]; auto 12.
Qed.

(** A member given a mapping whose [id] (or [request_id]) does not match
    the pattern. *)
Lemma member_bad_id (f : json -> json * outcome value) (m : model)
    (name : string) (j : json) (d1 : dict) :
  In m subclasses -> In name ["id"; "request_id"] ->
  insert_type j = Ok (JDict d1) ->
  dict_get name d1 = Some (JStr "not-a-uuid") ->
  is_ok (snd (validate_model f m j)) = false.
Proof.
  intros Hm Hn I G. unfold validate_model. rewrite I, validate_TModel.
  assert (B : is_ok (snd (validate_fields (validate f) (model_fields m) d1))
              = false).
  { apply (validate_fields_reject (validate f) _ _ _ (JStr "not-a-uuid")
             (subclasses_distinct_fields m Hm) (id_fields name m Hn) G).
    reflexivity. }
  destruct (validate_fields (validate f) (model_fields m) d1) as [d2 r].
  simpl in *. now apply construct_not_ok.
Qed.

Lemma bad_id_top (name : string) (d : dict) :
  In name ["id"; "request_id"] ->
  dict_get name d = Some (JStr "not-a-uuid") ->
  is_ok (snd (Block_validate_python (JDict d))) = false.
Proof.
  intros Hn G. rewrite Block_validate_python_eq. unfold union_tagged.
  destruct (dict_get "type" d) as [[| | |tag| |]|] eqn:T; try reflexivity.
  destruct (find_model tag subclasses) as [m|] eqn:Fm; [|reflexivity].
  apply find_model_In in Fm. destruct Fm as [Hm _].
  apply (member_bad_id _ m name (JDict d) d); auto.
  unfold insert_type, dict_has. now rewrite T.
Qed.

Lemma bad_id_child (name : string) (d : dict) :
  In name ["id"; "request_id"] ->
  dict_get name d = Some (JStr "not-a-uuid") ->
  is_ok (snd (ChildBlock_validate_python (JDict d))) = false.
Proof.
  intros Hn G. rewrite ChildBlock_validate_python_eq.
  destruct (union_smart (ChildBlockUnion (depth (JDict d))) subclasses
              (JDict d) None) as [st r] eqn:U.
  destruct r as [node| |e]; try reflexivity. exfalso.
  apply (union_smart_ok _ (ChildBlockUnion_frame _)) in U.
  destruct U as [U|(_ & m & jm & stm & Hm & T & V)]; [discriminate|].
  pose proof V as V'. apply validate_model_ok in V'.
  destruct V' as (d1 & d2 & vs & I & _).
  assert (T1 : type_added (JDict d) (JDict d1)).
  { eapply type_added_trans; [exact T|]. now apply insert_type_frame. }
  destruct (type_added_get _ _ _ _ T1 G) as (x' & G' & Tx).
  inversion Tx; subst.
  pose proof (member_bad_id (ChildBlockUnion (depth (JDict d))) m name jm d1
                Hm Hn I G') as B.
  rewrite V in B. discriminate.
Qed.
End BadId.



(* ===================================================================== *)
(** * Timestamps on output *)
(* ===================================================================== *)



(* ===================================================================== *)
(** * Coverage of the registry *)
(* ===================================================================== *)

Ltac accept_sample H :=
  match type of H with
  | ?e <> None => let x := fresh "x" in
                  let E := fresh "E" in
                  destruct e as [x|] eqn:E; [clear H|exfalso; now apply H]
  end.




(* ===================================================================== *)
(** * Children *)
(* ===================================================================== *)

Lemma dict_get_depth (k : string) (d : dict) (x : json) :
  dict_get k d = Some x -> depth x < depth (JDict d).
Proof.
  intros G.
  pose proof (dict_get_bound k d x (pred (depth (JDict d)))) as B.
  assert (depth x <= pred (depth (JDict d))).
  { apply B; auto. apply depth_entries_bound. simpl. lia. }
  simpl in *. lia.
Qed.

Lemma In_depth (x : json) (l : list json) :
  In x l -> depth x < depth (JList l).
Proof.
  intros Hin.
  pose proof (depth_items_bound l (pred (depth (JList l)))) as B.
  assert (F : Forall (fun x => depth x <= pred (depth (JList l))) l).
  { apply B. simpl. lia. }
  rewrite Forall_forall in F. specialize (F x Hin). simpl in *. lia.
Qed.

Section Children.
Context `{Sch : Schemas}.
Variable val : ftype -> json -> json * outcome value.

(** The items of a list are validated one by one and kept in order. *)
Lemma validate_items_ok (t : ftype) :
  forall l l' vs,
    validate_items val t l = (l', Ok vs) ->
    Forall2 (fun x v => snd (val t x) = Ok v) l vs.
Proof.
  induction l as [|x l IH]; intros l' vs; simpl.
  - intros [= <- <-]. constructor.
  - destruct (val t x) as [x' r] eqn:V.
    destruct (validate_items val t l) as [l'' rs] eqn:R.
    destruct r as [v| |e]; simpl; try discriminate;
      intros [= <- Hal]; apply also_ok in Hal;
      destruct Hal as (v' & vs' & [= <-] & -> & ->).
    constructor; [now rewrite V | eapply IH; eauto].
Qed.

Lemma validate_items_all (t : ftype) :
  forall l vs,
    Forall2 (fun x v => snd (val t x) = Ok v) l vs ->
    snd (validate_items val t l) = Ok vs.
Proof.
  induction 1 as [|x v l vs Hx F IH]; simpl; [reflexivity|].
  destruct (val t x) as [x' r]. simpl in Hx. subst r.
  destruct (validate_items val t l) as [l'' rs]. simpl in IH. subst rs.
  reflexivity.
Qed.
End Children.

Lemma ChildBlock_validate_python_fuel `{Sch : Schemas} (n : nat) (x : json) :
  depth x < n -> ChildBlockUnion n x = ChildBlock_validate_python x.
Proof.
  intros H. rewrite ChildBlock_validate_python_eq, <- ChildBlockUnion_S.
  apply ChildBlockUnion_fuel; lia.
Qed.

Section ChildrenOfNode.
Context `{Sch : Schemas}.

Lemma children_variant (tag : string) :
  In tag children_tags ->
  exists m pcls pfs,
    find_model tag subclasses = Some m /\
    In (tag, TModel pcls pfs, None) (model_fields m) /\
    NoDup (map fname pfs) /\ In children_field pfs.
Proof.
  unfold children_tags. simpl. intros H.
  repeat (destruct H as [<-|H];
          [eexists; eexists; eexists;
           split; [reflexivity|];
           split; [unfold model_fields, _BlockCommon; simpl;
                   repeat (first [left; reflexivity | right])|];
           split; [apply distinct_NoDup; reflexivity|];
           simpl; repeat (first [left; reflexivity | right])|]).
  contradiction.
Qed.

(** The children of a node accepted by a tagged union over [subclasses],
    whatever validates the children. *)
Lemma tagged_children (f : json -> json * outcome value)
    (tag : string) (raw pd : dict) (items : list json)
    (st : json) (node : value) :
  In tag children_tags ->
  dict_get "type" raw = Some (JStr tag) ->
  dict_get tag raw = Some (JDict pd) ->
  dict_get "children" pd = Some (JList items) ->
  union_tagged f subclasses (JDict raw) = (st, Ok node) ->
  exists payload vs,
    attr tag node = Some payload /\
    attr "children" payload = Some (VList vs) /\
    Forall2 (fun x v => snd (f x) = Ok v) items vs.
Proof.
  intros Ht Gt Gp Gc V.
  destruct (children_variant tag Ht) as (m & pcls & pfs & Fm & Hp & ND & Hc).
  unfold union_tagged in V. rewrite Gt, Fm in V.
  destruct (find_model_In _ _ _ Fm) as [Hm _].
  apply validate_model_ok in V.
  destruct V as (d1 & d2 & vs & I & VF & _ & -> & _).
  assert (d1 = raw).
  { unfold insert_type, dict_has in I. rewrite Gt in I. congruence. }
  subst d1.
  destruct (validate_fields_attr _ _ _ _ _ _
              (subclasses_distinct_fields m Hm) VF Hp) as (payload & Ap & Vp).
  unfold fname, fty in Ap, Vp. cbn [fst snd] in Ap, Vp. rewrite Gp in Vp.
  rewrite validate_TModel in Vp.
  destruct (validate_fields (validate f) pfs pd) as [pd' r] eqn:VP.
  cbn [snd] in Vp. apply construct_ok in Vp.
  destruct Vp as (pvs & -> & -> & _).
  destruct (validate_fields_attr _ _ _ _ _ _ ND VP Hc) as (cv & Ac & Vc).
  unfold fname, fty, children_field, defaulted in Ac, Vc. simpl in Ac, Vc.
  rewrite Gc in Vc.
  destruct (validate_items (validate f) TChildBlockUnion items)
    as [items' ri] eqn:VI.
  simpl in Vc. apply omap_ok in Vc. destruct Vc as (cvs & -> & ->).
  exists (VModel pcls pvs), cvs. split; [exact Ap|]. split; [exact Ac|].
  apply validate_items_ok in VI. exact VI.
Qed.

(** The children of a node accepted by the [Block] adapter are the nodes
    that the entries of its raw [children] list validate to, in order. *)
Lemma node_children (tag : string) (raw pd : dict) (items : list json)
    (st : json) (node : value) :
  In tag children_tags ->
  dict_get "type" raw = Some (JStr tag) ->
  dict_get tag raw = Some (JDict pd) ->
  dict_get "children" pd = Some (JList items) ->
  Block_validate_python (JDict raw) = (st, Ok node) ->
  exists payload vs,
    attr tag node = Some payload /\
    attr "children" payload = Some (VList vs) /\
    Forall2 (fun x v => snd (ChildBlock_validate_python x) = Ok v) items vs.
Proof.
  intros Ht Gt Gp Gc V.
  rewrite Block_validate_python_eq in V.
  destruct (tagged_children _ tag raw pd items st node Ht Gt Gp Gc V)
    as (payload & vs & Ap & Ac & F).
  exists payload, vs. split; [exact Ap|]. split; [exact Ac|].
  eapply Forall2_weaken; [|exact F].
  intros x v Hx Hv.
  rewrite <- (ChildBlock_validate_python_fuel (depth (JDict raw))); auto.
  apply In_depth in Hx. apply dict_get_depth in Gc. apply dict_get_depth in Gp.
  lia.
Qed.
End ChildrenOfNode.


(* ===================================================================== *)
(** * Which member of the untagged union answers *)
(* ===================================================================== *)

Section Select.
Context `{Sch : Schemas}.
Variable f : json -> json * outcome value.

Lemma inertb_fields (m : model) (d : dict) :
  inertb m d = true ->
  Forall (fun fl => childless (fty fl) = true \/
                    dict_get (fname fl) d = None) (model_fields m).
Proof.
  unfold inertb. rewrite forallb_forall. intros H.
  apply Forall_forall. intros fl Hin. specialize (H fl Hin).
  apply orb_prop in H. destruct H as [H|H]; [auto|right].
  unfold dict_has in H. destruct (dict_get (fname fl) d); [discriminate|auto].
Qed.

(** A member with another tag, inert on the mapping, rejects it and
    leaves it as it is. *)
Lemma member_inert (m : model) (j : json) (d1 : dict) (k : string) :
  In m subclasses ->
  insert_type j = Ok (JDict d1) ->
  dict_get "type" d1 = Some (JStr k) ->
  has_tag k m = false ->
  inertb m d1 = true ->
  validate_model f m j = (JDict d1, ValidationError).
Proof.
  intros Hin I G Hk Hinert.
  unfold validate_model. rewrite I, validate_TModel.
  destruct (validate_fields_returns f _ _ (inertb_fields m d1 Hinert))
    as [S1 S2].
  destruct (subclasses_tagged m Hin) as (tag & Htag & _ & _).
  destruct (literal_of_In _ _ _ Htag) as (dflt & Hfl).
  assert (B : is_ok (snd (validate_fields (validate f) (model_fields m) d1))
              = false).
  { apply (validate_fields_reject (validate f) _ _ _ (JStr k)
             (subclasses_distinct_fields m Hin) Hfl G).
    unfold fty. simpl. unfold has_tag in Hk. rewrite Htag in Hk.
    rewrite String.eqb_sym, Hk. reflexivity. }
  destruct (validate_fields (validate f) (model_fields m) d1) as [d2 r].
  simpl in S1, S2, B. subst d2.
  destruct r as [vs| |e]; [discriminate| |exfalso; now apply (S2 e)].
  unfold construct.
  destruct (forbid_extra && has_extra (model_fields m) d1); reflexivity.
Qed.

Lemma insert_type_again (j : json) (d1 : dict) :
  insert_type j = Ok (JDict d1) -> insert_type (JDict d1) = Ok (JDict d1).
Proof.
  intros I. apply insert_type_has_type in I. unfold insert_type. now rewrite I.
Qed.

Lemma validate_model_again (m : model) (j : json) (d1 : dict) :
  insert_type j = Ok (JDict d1) ->
  validate_model f m j = validate_model f m (JDict d1).
Proof.
  intros I. unfold validate_model.
  now rewrite I, (insert_type_again j d1 I).
Qed.

(** Members that are inert on a mapping with ["type"] pass it on. *)
Lemma union_skip (d1 : dict) (k : string) (pre : list model) :
  dict_get "type" d1 = Some (JStr k) ->
  (forall m, In m pre ->
             In m subclasses /\ has_tag k m = false /\ inertb m d1 = true) ->
  forall rest best,
    union_smart f (pre ++ rest) (JDict d1) best
    = union_smart f rest (JDict d1) best.
Proof.
  intros G. induction pre as [|m pre IH]; intros H rest best; [reflexivity|].
  destruct (H m (or_introl eq_refl)) as (Hin & Hk & Hi).
  cbn [app union_smart].
  rewrite (member_inert m (JDict d1) d1 k); auto.
  - apply IH. intros m' Hm'. apply H. now right.
  - unfold insert_type, dict_has. now rewrite G.
Qed.

(** The union answers with the one member that carries the mapping's
    tag when all other members are inert on the mapping, before and after
    that member has run. *)
Lemma union_select (pre post : list model) (m : model) (j : json)
    (d1 d2 : dict) (k : string) (node : value) :
  subclasses = (pre ++ m :: post)%list ->
  insert_type j = Ok (JDict d1) ->
  dict_get "type" d1 = Some (JStr k) ->
  dict_get "type" d2 = Some (JStr k) ->
  validate_model f m (JDict d1) = (JDict d2, Ok node) ->
  (forall m', In m' pre -> has_tag k m' = false /\ inertb m' d1 = true) ->
  (forall m', In m' post -> has_tag k m' = false /\ inertb m' d2 = true) ->
  union_smart f subclasses j None = (JDict d2, Ok node).
Proof.
  intros Split I G1 G2 V Hpre Hpost.
  assert (Sub : forall m', In m' pre \/ In m' post -> In m' subclasses).
  { intros m' H. rewrite Split. apply in_or_app.
    destruct H; [left|right; right]; auto. }
  assert (Tail : union_smart f (m :: post) (JDict d1) None
                 = (JDict d2, Ok node)).
  { cbn [union_smart]. rewrite V.
    rewrite <- (app_nil_r post).
    rewrite (union_skip d2 k post G2); [reflexivity|].
    intros m' Hm'. destruct (Hpost m' Hm').
    split; [apply Sub; now right|auto]. }
  rewrite Split.
  destruct pre as [|m0 pre].
  - cbn [app union_smart]. rewrite (validate_model_again m j d1 I), V.
    rewrite <- (app_nil_r post).
    rewrite (union_skip d2 k post G2); [reflexivity|].
    intros m' Hm'. destruct (Hpost m' Hm').
    split; [apply Sub; now right|auto].
  - cbn [app union_smart].
    destruct (Hpre m0 (or_introl eq_refl)) as [Hk Hi].
    rewrite (member_inert m0 j d1 k); auto.
    + rewrite (union_skip d1 k pre G1); [exact Tail|].
      intros m' Hm'. destruct (Hpre m' (or_intror Hm')).
      split; [apply Sub; left; now right|auto].
    + apply Sub. left. now left.
Qed.
End Select.

Lemma nth_error_split_at {A} (l : list A) (i : nat) (a : A) :
  nth_error l i = Some a -> l = (firstn i l ++ a :: skipn (S i) l)%list.
Proof.
  revert i. induction l as [|x l IH]; intros [|i]; simpl; try discriminate.
  - intros [= ->]. reflexivity.
  - intros H. f_equal. now apply IH.
Qed.

(** [union_select] with the member given by its position. *)
Lemma union_select_at `{Sch : Schemas} (f : json -> json * outcome value)
    (i : nat) (m : model) (j : json) (d1 d2 : dict) (k : string)
    (node : value) :
  nth_error subclasses i = Some m ->
  insert_type j = Ok (JDict d1) ->
  dict_get "type" d1 = Some (JStr k) ->
  dict_get "type" d2 = Some (JStr k) ->
  validate_model f m (JDict d1) = (JDict d2, Ok node) ->
  forallb (fun m' => negb (has_tag k m') && inertb m' d1)
    (firstn i subclasses) = true ->
  forallb (fun m' => negb (has_tag k m') && inertb m' d2)
    (skipn (S i) subclasses) = true ->
  union_smart f subclasses j None = (JDict d2, Ok node).
Proof.
  intros N I G1 G2 V Hpre Hpost.
  rewrite forallb_forall in Hpre, Hpost.
  apply (union_select f (firstn i subclasses) (skipn (S i) subclasses)
           m j d1 d2 k node); auto.
  - now apply nth_error_split_at.
  - intros m' Hm'. specialize (Hpre m' Hm'). apply andb_prop in Hpre.
    destruct Hpre as [A B]. apply negb_true_iff in A. auto.
  - intros m' Hm'. specialize (Hpost m' Hm'). apply andb_prop in Hpost.
    destruct Hpost as [A B]. apply negb_true_iff in A. auto.
Qed.

(* ===================================================================== *)
(** * The recursive-children example, level by level *)
(* ===================================================================== *)

Lemma example_leaf `{Sch : Schemas} (f : json -> json * outcome value)
    (rich : json) :
  ext_validate RichText rich <> None ->
  exists st v,
    union_smart f subclasses (JDict [("bulleted_list_item", rich)]) None
    = (st, Ok v) /\
    outline_of v = Node "BulletedListItem" [].
Proof.
  intros Hr.
  assert (V : exists node,
             validate_model f BulletedListItem
               (JDict [("bulleted_list_item", rich);
                       ("type", JStr "bulleted_list_item")])
             = (JDict [("bulleted_list_item", rich);
                       ("type", JStr "bulleted_list_item")], Ok node) /\
             outline_of node = Node "BulletedListItem" []).
  { destruct Sch as [x ev ed cd fe].
    cbn [ext_validate] in Hr. accept_sample Hr.
    destruct fe; vm_compute; rewrite E; eexists; split; reflexivity. }
  destruct V as (node & V & O).
  eexists. exists node. split; [|exact O].
  eapply (union_select_at f 2 BulletedListItem); try exact V;
    reflexivity.
Qed.

Lemma example_divider `{Sch : Schemas} (f : json -> json * outcome value) :
  exists st v,
    union_smart f subclasses (JDict [("divider", JDict [])]) None
    = (st, Ok v) /\
    outline_of v = Node "Divider" [].
Proof.
  assert (V : exists node,
             validate_model f Divider
               (JDict [("divider", JDict []); ("type", JStr "divider")])
             = (JDict [("divider", JDict []); ("type", JStr "divider")],
                Ok node) /\
             outline_of node = Node "Divider" []).
  { destruct Sch as [x ev ed cd fe].
    destruct fe; vm_compute; eexists; split; reflexivity. }
  destruct V as (node & V & O).
  eexists. exists node. split; [|exact O].
  eapply (union_select_at f 10 Divider); try exact V; reflexivity.
Qed.

Lemma example_inner `{Sch : Schemas} (f : json -> json * outcome value)
    (rich s3 : json) (v3 : value) :
  ext_validate RichText rich <> None ->
  f (JDict [("bulleted_list_item", rich)]) = (s3, Ok v3) ->
  exists st v,
    union_smart f subclasses
      (JDict [("paragraph",
               JDict [("rich_text", rich);
                      ("children",
                       JList [JDict [("bulleted_list_item", rich)]])])])
      None
    = (st, Ok v) /\
    outline_of v = Node "Paragraph" [outline_of v3].
Proof.
  intros Hr Hf.
  assert (V : exists node,
             validate_model f Paragraph
               (JDict [("paragraph",
                        JDict [("rich_text", rich);
                               ("children",
                                JList [JDict [("bulleted_list_item", rich)]])]);
                       ("type", JStr "paragraph")])
             = (JDict [("paragraph",
                        JDict [("rich_text", rich);
                               ("children", JList [s3])]);
                       ("type", JStr "paragraph")], Ok node) /\
             outline_of node = Node "Paragraph" [outline_of v3]).
  { destruct Sch as [x ev ed cd fe].
    cbn [ext_validate] in Hr. accept_sample Hr.
    destruct fe; vm_compute; rewrite E, Hf; eexists; split; reflexivity. }
  destruct V as (node & V & O).
  eexists. exists node. split; [|exact O].
  eapply (union_select_at f 19 Paragraph); try exact V; reflexivity.
Qed.

Lemma example_outer `{Sch : Schemas} (f : json -> json * outcome value)
    (rich s2 sd : json) (v2 vd : value) :
  ext_validate RichText rich <> None ->
  f (JDict [("paragraph",
             JDict [("rich_text", rich);
                    ("children",
                     JList [JDict [("bulleted_list_item", rich)]])])])
  = (s2, Ok v2) ->
  f (JDict [("divider", JDict [])]) = (sd, Ok vd) ->
  exists st v,
    union_tagged f subclasses (three_levels rich) = (st, Ok v) /\
    outline_of v = Node "Paragraph" [outline_of v2; outline_of vd].
Proof.
  intros Hr H2 Hd. destruct Sch as [x ev ed cd fe].
  cbn [ext_validate] in Hr. accept_sample Hr.
  destruct fe; vm_compute; rewrite E, H2, Hd;
    eexists; eexists; split; reflexivity.
Qed.

(** The three levels of the example, through the [Block] adapter. *)
Lemma three_levels_outline `{Sch : Schemas} (rich : json) :
  ext_validate RichText rich <> None ->
  exists st v,
    Block_validate_python (three_levels rich) = (st, Ok v) /\
    outline_of v
    = Node "Paragraph"
        [Node "Paragraph" [Node "BulletedListItem" []]; Node "Divider" []].
Proof.
  intros Hr.
  destruct (example_leaf
              (ChildBlockUnion (depth (JDict [("bulleted_list_item", rich)])))
              rich Hr) as (s3 & v3 & U3 & O3).
  rewrite <- ChildBlock_validate_python_eq in U3.
  rewrite <- (ChildBlock_validate_python_fuel
                (depth (JDict [("paragraph",
                                JDict [("rich_text", rich);
                                       ("children",
                                        JList [JDict [("bulleted_list_item",
                                                       rich)]])])])))
    in U3 by (simpl; lia).
  destruct (example_inner _ rich s3 v3 Hr U3) as (s2 & v2 & U2 & O2).
  rewrite <- ChildBlock_validate_python_eq in U2.
  rewrite <- (ChildBlock_validate_python_fuel (depth (three_levels rich)))
    in U2 by (simpl; lia).
  destruct (example_divider
              (ChildBlockUnion (depth (JDict [("divider", JDict [])]))))
    as (sd & vd & Ud & Od).
  rewrite <- ChildBlock_validate_python_eq in Ud.
  rewrite <- (ChildBlock_validate_python_fuel (depth (three_levels rich)))
    in Ud by (simpl; lia).
  destruct (example_outer _ rich s2 sd v2 vd Hr U2 Ud) as (st & v & U & O).
  exists st, v. split.
  - rewrite Block_validate_python_eq. exact U.
  - rewrite O, O2, O3, Od. reflexivity.
Qed.



(* ===================================================================== *)
(** * Reading back a formatted timestamp *)
(* ===================================================================== *)

Lemma digit_val_digit (n : nat) : n < 10 -> digit_val (digit n) = Some n.
Proof.
  intros H. do 10 (destruct n as [|n]; [reflexivity|]). lia.
Qed.

Lemma read_pad2 (n : nat) (rest : string) :
  n < 100 -> read_digits 2 0 (pad2 n ++ rest) = Some (n, rest).
Proof.
  intros H. unfold pad2. cbn [append read_digits].
  assert (H1 : n / 10 < 10) by (apply Nat.Div0.div_lt_upper_bound; lia).
  rewrite (Nat.mod_small (n / 10) 10 H1).
  rewrite (digit_val_digit _ H1).
  rewrite (digit_val_digit (n mod 10)) by (apply Nat.mod_upper_bound; lia).
  f_equal. f_equal. pose proof (Nat.div_mod_eq n 10). lia.
Qed.

Lemma read_pad4 (n : nat) (rest : string) :
  n < 100 * 100 -> read_digits 4 0 (pad4 n ++ rest) = Some (n, rest).
Proof.
  intros H. unfold pad4, pad2. cbn [append read_digits].
  assert (H1 : n / 1000 < 10) by (apply Nat.Div0.div_lt_upper_bound; lia).
  rewrite (Nat.mod_small (n / 1000) 10 H1).
  rewrite (digit_val_digit _ H1).
  rewrite !digit_val_digit by (apply Nat.mod_upper_bound; lia).
  f_equal. f_equal.
  pose proof (Nat.div_mod_eq n 10).
  pose proof (Nat.div_mod_eq (n / 10) 10).
  pose proof (Nat.div_mod_eq (n / 100) 10).
  assert (n / 10 / 10 = n / 100) by (rewrite Nat.Div0.div_div; reflexivity).
  assert (n / 100 / 10 = n / 1000) by (rewrite Nat.Div0.div_div; reflexivity).
  lia.
Qed.

Lemma read_micros_suffix (o : option Z) :
  read_micros (offset_suffix o) = Some (0%N, offset_suffix o).
Proof.
  destruct o as [z|]; [|reflexivity]. unfold offset_suffix.
  destruct (z =? 0)%Z; [reflexivity|].
  destruct (z <? 0)%Z; reflexivity.
Qed.

Lemma read_offset_suffix (o : option Z) :
  match o with
  | Some z => (-1440 <? z)%Z && (z <? 1440)%Z = true
  | None => True
  end ->
  read_offset (offset_suffix o) = Some o.
Proof.
  destruct o as [z|]; [|reflexivity]. intros H.
  apply andb_prop in H. destruct H as [Hlo Hhi].
  apply Z.ltb_lt in Hlo, Hhi. unfold offset_suffix.
  destruct (z =? 0)%Z eqn:E0.
  - apply Z.eqb_eq in E0. subst. reflexivity.
  - apply Z.eqb_neq in E0.
    set (m := Z.to_nat (Z.abs z)).
    assert (Hm : m < 1440) by (unfold m; lia).
    assert (Hq : m / 60 < 24) by (apply Nat.Div0.div_lt_upper_bound; lia).
    assert (Hr : m mod 60 < 60) by (apply Nat.mod_upper_bound; lia).
    assert (Hz : Z.of_nat (m / 60 * 60 + m mod 60) = Z.abs z).
    { pose proof (Nat.div_mod_eq m 60). unfold m in *. lia. }
    destruct (z <? 0)%Z eqn:En.
    + apply Z.ltb_lt in En.
      cbn [append read_offset Ascii.eqb Bool.eqb andb orb].
      change (pad2 (m / 60) ++ String ":" (pad2 (m mod 60)))
        with (pad2 (m / 60) ++ ":" ++ pad2 (m mod 60) ++ "").
      rewrite read_pad2 by lia. cbn [bind append expect Ascii.eqb Bool.eqb].
      rewrite read_pad2 by lia. cbn [bind String.eqb].
      apply Nat.ltb_lt in Hq, Hr. rewrite Hq, Hr. cbn [andb].
      rewrite Hz. do 2 f_equal. lia.
    + apply Z.ltb_ge in En.
      cbn [append read_offset Ascii.eqb Bool.eqb andb orb].
      change (pad2 (m / 60) ++ String ":" (pad2 (m mod 60)))
        with (pad2 (m / 60) ++ ":" ++ pad2 (m mod 60) ++ "").
      rewrite read_pad2 by lia. cbn [bind append expect Ascii.eqb Bool.eqb].
      rewrite read_pad2 by lia. cbn [bind String.eqb].
      apply Nat.ltb_lt in Hq, Hr. rewrite Hq, Hr. cbn [andb].
      rewrite Hz. do 2 f_equal. lia.
Qed.

Lemma parse_datetime_valid (s : string) (t : datetime) :
  parse_datetime s = Some t -> valid_datetime t = true.
Proof.
  unfold parse_datetime.
  repeat match goal with
         | |- bind ?o _ = Some _ -> _ =>
             destruct o as [?|]; cbn [bind]; [|discriminate]
         | |- (let '(_, _) := ?p in _) = Some _ -> _ => destruct p
         end.
  match goal with
  | |- (if ?b then _ else _) = _ -> _ => destruct b eqn:E; [|discriminate]
  end.
  intros [= <-]. exact E.
Qed.

(** A timestamp without fraction survives formatting and reading. *)
Lemma parse_format_datetime (t : datetime) :
  valid_datetime t = true -> microsecond t = 0%N ->
  parse_datetime (format_datetime t) = Some t.
Proof.
  destruct t as [y mo d h mi se us o]. cbn [microsecond]. intros V ->.
  pose proof V as V'. unfold valid_datetime in V'.
  cbn [year month day hour minute second microsecond utcoffset] in V'.
  repeat (apply andb_prop in V'; destruct V' as [V' ?]).
  repeat match goal with
         | H : (_ <=? _)%nat = true |- _ => apply Nat.leb_le in H
         | H : (_ <? _)%nat = true |- _ => apply Nat.ltb_lt in H
         end.
  assert (Hd : d < 100).
  { assert (days_in_month y mo <= 31); [|lia].
    unfold days_in_month.
    repeat match goal with
           | |- context [match ?x with _ => _ end] => destruct x
           end; lia. }
  unfold parse_datetime, format_datetime.
  cbn [year month day hour minute second microsecond utcoffset].
  rewrite read_pad4 by assumption.
  cbn [bind append expect Ascii.eqb Bool.eqb].
  rewrite read_pad2 by lia. cbn [bind append expect Ascii.eqb Bool.eqb].
  rewrite read_pad2 by lia. cbn [bind append expect Ascii.eqb Bool.eqb].
  rewrite read_pad2 by lia. cbn [bind append expect Ascii.eqb Bool.eqb].
  rewrite read_pad2 by lia. cbn [bind append expect Ascii.eqb Bool.eqb].
  rewrite read_pad2 by lia. cbn [bind].
  rewrite read_micros_suffix. cbn [bind].
  rewrite read_offset_suffix; [cbn [bind]; now rewrite V|].
  destruct o; [assumption|exact I].
Qed.

(* ===================================================================== *)
(** * Serialized models *)
(* ===================================================================== *)

Lemma Forall2_with_In {A B} (P : A -> B -> Prop) (l : list A) (l' : list B) :
  Forall2 P l l' -> Forall2 (fun a b => P a b /\ In a l /\ In b l') l l'.
Proof.
  induction 1 as [|a b l l' Hab F IH]; constructor.
  - simpl. auto.
  - eapply Forall2_impl; [|exact IH]. simpl. intros x y (Hp & Hx & Hy). auto.
Qed.

Section Dumped.
Context `{Sch : Schemas}.

Lemma dump_VModel (cls : string) (fs : list (string * value)) :
  dump (VModel cls fs) = JDict (dump_fields fs).
Proof. reflexivity. Qed.

Lemma dump_fields_keys (vs : list (string * value)) (k : string) :
  In k (dict_keys (dump_fields vs)) -> In k (map fst vs).
Proof.
  induction vs as [|[n v] vs IH]; simpl; [auto|].
  destruct v; simpl; intuition.
Qed.

Lemma dump_fields_get (vs : list (string * value)) (n : string) (v : value) :
  NoDup (map fst vs) -> In (n, v) vs ->
  dict_get n (dump_fields vs)
  = if is_none v then None else Some (dump v).
Proof.
  induction vs as [|[n0 v0] vs IH]; simpl; [contradiction|].
  intros ND Hin. inversion ND as [|? ? Hnot ND']; subst.
  destruct Hin as [E|Hin].
  - injection E as -> ->.
    assert (A : dict_get n (dump_fields vs) = None).
    { apply dict_get_absent. intros H. apply Hnot.
      now apply dump_fields_keys. }
    destruct v; simpl; rewrite ?String.eqb_refl; auto.
  - assert (Hne : String.eqb n n0 = false).
    { apply String.eqb_neq. intros ->. apply Hnot.
      change n0 with (fst (n0, v)). now apply in_map. }
    specialize (IH ND' Hin).
    destruct v0; simpl; rewrite ?Hne; exact IH.
Qed.

Lemma dump_fields_depth (vs : list (string * value)) (D : nat) :
  Forall (fun kv => depth (snd kv) <= D) (dump_fields vs) ->
  Forall (fun nv => depth (dump (snd nv)) <= D) vs.
Proof.
  induction vs as [|[n v] vs IH]; simpl; [constructor|].
  intros H.
  assert (A : depth (dump v) <= D /\
              Forall (fun kv => depth (snd kv) <= D) (dump_fields vs)).
  { destruct v;
      try (inversion H as [|? ? H1 H2]; subst; simpl in *; split; assumption).
    all: simpl; split; [lia|assumption]. }
  destruct A. constructor; auto.
Qed.

Lemma lossless_fields (cls : string) (vs : list (string * value)) :
  lossless (VModel cls vs) = true ->
  Forall (fun nv => lossless (snd nv) = true /\
                    (is_none (snd nv) = true -> fst nv <> "synced_from")) vs.
Proof.
  simpl. induction vs as [|[n v] vs IH]; [constructor|].
  intros H. apply andb_prop in H. destruct H as [H H3].
  apply andb_prop in H. destruct H as [H1 H2].
  constructor; [|auto]. simpl. split; [exact H1|].
  intros Hn E. subst n. rewrite Hn in H2. discriminate.
Qed.

Lemma lossless_items (l : list value) :
  lossless (VList l) = true -> Forall (fun v => lossless v = true) l.
Proof.
  simpl. intros H. apply Forall_forall. rewrite forallb_forall in H. exact H.
Qed.

Lemma has_extra_dump (fs : list field) (vs : list (string * value)) :
  map fst vs = map fname fs -> has_extra fs (dump_fields vs) = false.
Proof.
  intros E. unfold has_extra.
  destruct (existsb _ _) eqn:X; [|reflexivity].
  apply existsb_exists in X. destruct X as (k & Hk & Hn).
  apply dump_fields_keys in Hk. rewrite E in Hk.
  apply mem_In in Hk. rewrite Hk in Hn. discriminate.
Qed.

Lemma wf_fields (cls : string) (fs : list field) :
  wf (TModel cls fs) ->
  NoDup (map fname fs) /\
  Forall (fun fl => wf (fty fl) /\ wf_default fl) fs.
Proof.
  simpl. intros [ND H]. split; [exact ND|]. clear ND.
  induction fs as [|fl fs IH]; [constructor|].
  destruct H as [H1 H2]. constructor; auto.
Qed.
End Dumped.

(* ===================================================================== *)
(** * Validation of a serialized node *)
(* ===================================================================== *)

Section RoundTrip.
Context `{Sch : Schemas}.
Hypothesis ext_roundtrip :
  forall c j x, ext_validate c j = Some x ->
                ext_validate c (ext_dump c x) = Some x.
Hypothesis ext_not_null :
  forall c j x, ext_validate c j = Some x -> ext_dump c x <> JNull.

Lemma not_nullable_result (f : json -> json * outcome value) (t : ftype)
    (j st : json) (v : value) :
  nullable t = false -> validate f t j = (st, Ok v) ->
  is_none v = false /\ dump v <> JNull.
Proof.
  destruct t; try discriminate; intros _; cbn [validate].
  - destruct j; intros [= _ <-]; split; [reflexivity|discriminate].
  - destruct j; try discriminate. destruct (pattern s); intros [= _ <-].
    split; [reflexivity|discriminate].
  - destruct j; intros [= _ <-]; split; [reflexivity|discriminate].
  - destruct j; intros [= _ <-]; split; [reflexivity|discriminate].
  - destruct j; intros [= _ <-]; split; [reflexivity|discriminate].
  - destruct j; try discriminate. destruct (parse_datetime s); intros [= _ <-].
    split; [reflexivity|discriminate].
  - destruct j; try discriminate. destruct (String.eqb s lit); intros [= _ <-].
    split; [reflexivity|discriminate].
  - destruct (ext_validate c j) eqn:E; intros [= _ <-].
    split; [reflexivity|]. simpl. eapply ext_not_null; eauto.
  - destruct j; try discriminate.
    destruct (validate_items (validate f) t l) as [l' r].
    intros [= _ H]. apply omap_ok in H. destruct H as (vs & _ & ->).
    split; [reflexivity|discriminate].
  - destruct j; try discriminate.
    destruct (validate_fields (validate f) fs d) as [d' r].
    intros [= _ H]. apply construct_ok in H. destruct H as (vs & _ & -> & _).
    split; [reflexivity|discriminate].
Qed.

Variables f g : json -> json * outcome value.
Variable D : nat.
Hypothesis child_rt :
  forall j st v, f j = (st, Ok v) -> lossless v = true ->
                 depth (dump v) <= D -> g (dump v) = (dump v, Ok v).

(** Validating the serialized form of a validated value gives the value
    back and writes nothing. *)
Lemma items_rt (t : ftype) :
  rt_at f g D t ->
  forall l vs,
    Forall2 (fun x v => snd (validate f t x) = Ok v) l vs ->
    Forall (fun v => lossless v = true) vs ->
    Forall (fun v => depth (dump v) <= D) vs ->
    validate_items (validate g) t (map dump vs) = (map dump vs, Ok vs).
Proof.
  intros Ht. induction 1 as [|x v l vs Hx F IH]; intros HL HD; simpl;
    [reflexivity|].
  inversion HL; subst. inversion HD; subst.
  destruct (validate f t x) as [sx r] eqn:V. simpl in Hx. subst r.
  rewrite (Ht x sx v V); auto. rewrite IH; auto.
Qed.

Lemma fields_again (dd : dict) (fs : list field) :
  forall vs,
    Forall2
      (fun fl nv =>
         fst nv = fname fl /\
         ((snd nv = VNone /\ fdefault fl = Some VNone /\
           dict_get (fname fl) dd = None) \/
          (dict_get (fname fl) dd = Some (dump (snd nv)) /\
           validate g (fty fl) (dump (snd nv))
           = (dump (snd nv), Ok (snd nv))))) fs vs ->
    validate_fields (validate g) fs dd = (dd, Ok vs).
Proof.
  induction fs as [|[[name t] dflt] fs IH]; intros vs F;
    inversion F as [|? [n v] ? vs' [E H] F']; subst; [reflexivity|].
  unfold fname, fty, fdefault in E, H. simpl in E, H. subst n.
  simpl. destruct H as [(-> & -> & G)|(G & V)].
  - rewrite G, (IH vs' F'). reflexivity.
  - rewrite G, V, (dict_set_id _ _ _ G), (IH vs' F'). reflexivity.
Qed.

Lemma fields_rt (fs : list field) :
  NoDup (map fname fs) ->
  Forall (fun fl => rt_at f g D (fty fl) /\ wf_default fl) fs ->
  forall d d' vs,
    validate_fields (validate f) fs d = (d', Ok vs) ->
    Forall (fun nv => lossless (snd nv) = true /\
                      (is_none (snd nv) = true -> fst nv <> "synced_from"))
      vs ->
    Forall (fun nv => depth (dump (snd nv)) <= D) vs ->
    validate_fields (validate g) fs (dump_fields vs) = (dump_fields vs, Ok vs).
Proof.
  intros ND HF d d' vs V HL HD.
  pose proof (validate_fields_names _ _ _ _ _ V) as Names.
  assert (NDv : NoDup (map fst vs)) by (rewrite Names; exact ND).
  apply fields_again.
  pose proof (validate_fields_ok _ fs ND _ _ _ V) as F.
  apply Forall2_with_In in F.
  eapply Forall2_impl; [|exact F].
  intros [[name t] dflt] [n v] ((E & Hv) & Hfl & Hnv).
  unfold fname, fty, fdefault in *. simpl in E, Hv |- *. subst n.
  split; [reflexivity|].
  rewrite Forall_forall in HF, HL, HD.
  destruct (HF _ Hfl) as [Rt Wd]. destruct (HL _ Hnv) as [L1 L2].
  specialize (HD _ Hnv). simpl in Rt, Wd, L1, L2, HD.
  pose proof (dump_fields_get vs name v NDv Hnv) as G.
  unfold wf_default, fname, fty, fdefault in Wd. simpl in Wd.
  destruct (is_none v) eqn:N.
  - left. destruct v; try discriminate. split; [reflexivity|].
    split; [|exact G].
    destruct (dict_get name d) as [x|].
    + destruct (validate f t x) as [sx r] eqn:Vx. simpl in Hv. subst r.
      destruct dflt as [dv|].
      * destruct dv; try reflexivity;
          destruct Wd as (Nn & _);
          destruct (not_nullable_result f t x sx VNone Nn Vx); discriminate.
      * destruct Wd as [Nn|Wd].
        -- destruct (not_nullable_result f t x sx VNone Nn Vx); discriminate.
        -- exfalso. now apply L2.
    + exact Hv.
  - right. split; [exact G|].
    destruct (dict_get name d) as [x|].
    + destruct (validate f t x) as [sx r] eqn:Vx. simpl in Hv. subst r.
      eapply Rt; eauto.
    + subst dflt. destruct v; try discriminate;
        destruct Wd as (_ & _ & Fit); apply Fit.
Qed.

Lemma validate_rt (t : ftype) : wf t -> rt_at f g D t.
Proof.
  induction t using ftype_ind; intros W j st v V L Hd; cbn [validate] in V.
  - destruct j; try discriminate V. injection V as _ <-. reflexivity.
  - destruct j as [| | |str| |]; try discriminate V.
    destruct (p str) eqn:E; [|discriminate V]; injection V as _ <-.
    cbn [dump validate]. now rewrite E.
  - destruct j; try discriminate V. injection V as _ <-. reflexivity.
  - destruct j; try discriminate V. injection V as _ <-. reflexivity.
  - destruct j; try discriminate V. injection V as _ <-. reflexivity.
  - destruct j as [| | |str| |]; try discriminate V.
    destruct (parse_datetime str) as [t|] eqn:E; [|discriminate V];
      injection V as _ <-.
    cbn [lossless] in L. apply N.eqb_eq in L.
    cbn [dump validate]. unfold validate_time.
    rewrite (parse_format_datetime t (parse_datetime_valid _ _ E) L).
    reflexivity.
  - destruct j as [| | |str| |]; try discriminate V.
    destruct (String.eqb str s) eqn:E; [|discriminate V];
      injection V as _ <-.
    cbn [dump validate]. now rewrite E.
  - destruct (ext_validate c j) eqn:E; [|discriminate V];
      injection V as _ <-.
    cbn [dump validate]. now rewrite (ext_roundtrip c j e E).
  - destruct W as [Nn W].
    assert (Some_case : j <> JNull ->
              validate g (TOptional t) (dump v) = (dump v, Ok v)).
    { intros Hj.
      assert (V' : validate f t j = (st, Ok v)) by (destruct j; congruence).
      destruct (not_nullable_result f t _ st v Nn V') as [_ Hnull].
      specialize (IHt W _ _ _ V' L Hd). cbn [validate].
      destruct (dump v); try exact IHt; congruence. }
    destruct j; try (apply Some_case; discriminate).
    injection V as _ <-. reflexivity.
  - destruct j; try discriminate V.
    destruct (validate_items (validate f) t l) as [l' r] eqn:VI.
    injection V as _ H. apply omap_ok in H. destruct H as (vs & -> & ->).
    apply validate_items_ok in VI.
    change (dump (VList vs)) with (JList (map dump vs)) in *.
    cbn [validate]. rewrite (items_rt t (IHt W) l vs VI).
    + reflexivity.
    + now apply lossless_items.
    + apply depth_items_le in Hd. rewrite Forall_map in Hd. exact Hd.
  - destruct j; try discriminate V.
    destruct (validate_fields (validate f) fs d) as [d' r] eqn:VF.
    injection V as _ C. apply construct_ok in C.
    destruct C as (vs & -> & -> & _).
    rewrite dump_VModel in *. rewrite validate_TModel.
    destruct (wf_fields cls fs W) as [ND WF].
    rewrite (fields_rt fs ND) with (d := d) (d' := d').
    + unfold construct.
      rewrite (has_extra_dump fs vs (validate_fields_names _ _ _ _ _ VF)).
      rewrite andb_false_r. reflexivity.
    + rewrite Forall_forall in *. intros fl Hfl.
      destruct (WF fl Hfl). split; auto.
    + exact VF.
    + eapply lossless_fields; eauto.
    + apply dump_fields_depth. now apply depth_entries_le.
  - eapply child_rt; eauto.
Qed.
End RoundTrip.

Lemma ChildBlockUnion_0 `{Sch : Schemas} (j : json) :
  ChildBlockUnion 0 j = (j, Raise RecursionError).
Proof. reflexivity. Qed.

Lemma field_of_In_rev `{Sch : Schemas} (n : string) (v : value)
    (vs : list (string * value)) :
  field_of n vs = Some v -> In (n, v) vs.
Proof.
  induction vs as [|[n0 v0] vs IH]; simpl; [discriminate|].
  destruct (String.eqb n0 n) eqn:E.
  - apply String.eqb_eq in E. subst. intros [= ->]. auto.
  - auto.
Qed.

Lemma NoDup_map_split {A B} (h : A -> B) (pre post : list A) (a : A) :
  NoDup (map h (pre ++ a :: post)) ->
  forall x, In x pre \/ In x post -> h x <> h a.
Proof.
  rewrite map_app. simpl. intros ND x Hx E.
  apply NoDup_remove_2 in ND. apply ND. rewrite <- E.
  apply in_or_app. destruct Hx; [left|right]; now apply in_map.
Qed.

Section RoundTripOfBlocks.
Context `{Sch : Schemas}.
Hypothesis ext_roundtrip :
  forall c j x, ext_validate c j = Some x ->
                ext_validate c (ext_dump c x) = Some x.
Hypothesis ext_not_null :
  forall c j x, ext_validate c j = Some x -> ext_dump c x <> JNull.
Hypothesis default_color :
  ext_validate Color (ext_dump Color Color_DEFAULT) = Some Color_DEFAULT.

Lemma subclasses_wf (m : model) :
  In m subclasses -> wf (TModel (cls_name m) (model_fields m)).
Proof.
  unfold subclasses. simpl In. intros H.
  repeat (destruct H as [<-|H];
    [unfold model_fields, _BlockCommon; cbn;
     repeat match goal with
       | |- _ /\ _ => split
       | |- True => exact I
       | |- NoDup _ => apply distinct_NoDup; reflexivity
       | |- _ \/ _ => first [left; reflexivity | right; reflexivity]
       | |- default_fits _ _ =>
           intros g; cbn [validate dump]; rewrite ?default_color; reflexivity
       | |- wf_default _ => unfold wf_default; cbn
       | |- _ = _ => reflexivity
       end|]).
  contradiction.
Qed.

(** A class that accepted a mapping accepts the serialized node, provided
    the children validator does so below the node. *)
Lemma model_rt (f g : json -> json * outcome value) (m : model)
    (j st : json) (v : value) :
  In m subclasses ->
  validate_model f m j = (st, Ok v) ->
  lossless v = true ->
  (forall x sx vx, f x = (sx, Ok vx) -> lossless vx = true ->
     depth (dump vx) < depth (dump v) -> g (dump vx) = (dump vx, Ok vx)) ->
  exists vs tag,
    v = VModel (cls_name m) vs /\
    map fst vs = map fname (model_fields m) /\
    tag_of m = Some tag /\
    dict_get "type" (dump_fields vs) = Some (JStr tag) /\
    validate_model g m (JDict (dump_fields vs))
    = (JDict (dump_fields vs), Ok v).
Proof.
  intros Hin V L Hc.
  apply validate_model_ok in V.
  destruct V as (d1 & d2 & vs & I & VF & -> & -> & _).
  pose proof (validate_fields_names _ _ _ _ _ VF) as Names.
  pose proof (subclasses_distinct_fields m Hin) as ND.
  assert (NDv : NoDup (map fst vs)) by (rewrite Names; exact ND).
  destruct (subclasses_tagged m Hin) as (tag & Htag & _ & _).
  destruct (literal_of_In _ _ _ Htag) as (dflt & Hfl).
  destruct (validate_fields_attr (validate f) _ _ _ _ _ ND VF Hfl)
    as (tv & Htv & Hx).
  unfold fname, fty, fdefault in Htv, Hx. simpl in Htv, Hx.
  pose proof (insert_type_has_type _ _ I) as Has.
  unfold dict_has in Has.
  destruct (dict_get "type" d1) as [x|]; [|discriminate]. clear Has.
  assert (tv = VStr tag) as ->.
  { destruct x; simpl in Hx; try discriminate.
    destruct (String.eqb s tag) eqn:E; [|discriminate].
    apply String.eqb_eq in E. subst. now injection Hx as <-. }
  assert (G : dict_get "type" (dump_fields vs) = Some (JStr tag)).
  { rewrite (dump_fields_get vs "type" (VStr tag) NDv
               (field_of_In_rev _ _ _ Htv)). reflexivity. }
  exists vs, tag. repeat split; auto.
  rewrite dump_VModel in Hc.
  destruct (wf_fields _ _ (subclasses_wf m Hin)) as [_ W].
  destruct (depth (JDict (dump_fields vs))) as [|D] eqn:ED;
    [simpl in ED; discriminate|].
  assert (R : validate_fields (validate g) (model_fields m) (dump_fields vs)
              = (dump_fields vs, Ok vs)).
  { apply (fields_rt ext_not_null f g D _ ND) with (d := d1) (d' := d2);
      [|exact VF|eapply lossless_fields; exact L|].
    - eapply Forall_impl; [|exact W]. intros fl [Wt Wd]. split; [|exact Wd].
      apply (validate_rt ext_roundtrip ext_not_null); [|exact Wt].
      intros y sy vy Hy Ly Dy. apply (Hc y sy vy Hy Ly). lia.
    - apply dump_fields_depth. apply depth_entries_bound. rewrite ED. lia. }
  unfold validate_model.
  assert (I2 : insert_type (JDict (dump_fields vs))
               = Ok (JDict (dump_fields vs))).
  { unfold insert_type, dict_has. now rewrite G. }
  rewrite I2, validate_TModel, R. cbn [fst snd].
  unfold construct. rewrite (has_extra_dump _ _ Names), andb_false_r.
  reflexivity.
Qed.

Lemma subclasses_tags_NoDup : NoDup (map tag_of subclasses).
Proof.
  rewrite subclasses_tags.
  match goal with |- NoDup (map Some ?l) =>
    assert (ND : NoDup l) by (apply distinct_NoDup; reflexivity);
    induction ND as [|a l' Hn ND IH]; simpl; constructor; [|exact IH]
  end.
  rewrite in_map_iff. intros (x & E & Hx). injection E as ->. auto.
Qed.

(** The serialized form of a node of one class holds nothing that a class
    with another tag would hand to the children validator. *)
Lemma other_members_inert (m0 m' : model) (vs : list (string * value)) :
  In m0 subclasses -> In m' subclasses -> same_tag m0 m' = false ->
  map fst vs = map fname (model_fields m0) ->
  inertb m' (dump_fields vs) = true.
Proof.
  intros H0 H' T Names.
  assert (A : forallb (fun a => forallb (fun b =>
                same_tag a b ||
                forallb (fun fl => childless (fty fl) ||
                           negb (mem (fname fl) (map fname (model_fields a))))
                  (model_fields b)) subclasses) subclasses = true)
    by reflexivity.
  rewrite forallb_forall in A. specialize (A m0 H0).
  rewrite forallb_forall in A. specialize (A m' H').
  rewrite T in A. cbn [orb] in A. rewrite forallb_forall in A.
  unfold inertb. apply forallb_forall. intros fl Hfl.
  specialize (A fl Hfl). apply orb_true_iff in A.
  apply orb_true_iff. destruct A as [A|A]; [now left|right].
  apply negb_true_iff in A. apply negb_true_iff.
  unfold dict_has.
  destruct (dict_get (fname fl) (dump_fields vs)) eqn:G; [|reflexivity].
  exfalso.
  assert (K : In (fname fl) (dict_keys (dump_fields vs))).
  { destruct (in_dec string_dec (fname fl) (dict_keys (dump_fields vs)))
      as [K|K]; [exact K|].
    apply dict_get_absent in K. rewrite K in G. discriminate. }
  apply dump_fields_keys in K. rewrite Names in K.
  apply mem_In in K. rewrite K in A. discriminate.
Qed.

Lemma union_tagged_ok (f : json -> json * outcome value) (j st : json)
    (v : value) :
  union_tagged f subclasses j = (st, Ok v) ->
  exists m, In m subclasses /\ validate_model f m j = (st, Ok v).
Proof.
  unfold union_tagged. intros H.
  destruct j as [| | | | |d]; try discriminate.
  destruct (dict_get "type" d) as [[| | |tag| |]|]; try discriminate.
  destruct (find_model tag subclasses) as [m|] eqn:F; [|discriminate].
  exists m. split; [|exact H]. now apply find_model_In in F.
Qed.

Lemma union_tagged_select (f : json -> json * outcome value) (m : model)
    (d : dict) (tag : string) :
  find_model tag subclasses = Some m ->
  dict_get "type" d = Some (JStr tag) ->
  union_tagged f subclasses (JDict d) = validate_model f m (JDict d).
Proof. unfold union_tagged. intros F G. now rewrite G, F. Qed.

(** A node that one member of the union built is accepted again, as the
    same node, by the union applied to its serialized form. *)
Lemma smart_rt (f : json -> json * outcome value) (m : model)
    (j st : json) (v : value) :
  In m subclasses ->
  validate_model f m j = (st, Ok v) ->
  lossless v = true ->
  (forall x sx vx, f x = (sx, Ok vx) -> lossless vx = true ->
     ChildBlock_validate_python (dump vx) = (dump vx, Ok vx)) ->
  ChildBlock_validate_python (dump v) = (dump v, Ok v).
Proof.
  intros Hin V L Hc.
  destruct (model_rt f (ChildBlockUnion (depth (dump v))) m j st v Hin V L)
    as (vs & tag & -> & Names & Htag & G & R).
  { intros x sx vx Hx Lx Dx.
    rewrite (ChildBlock_validate_python_fuel _ _ Dx). eauto. }
  rewrite ChildBlock_validate_python_eq.
  rewrite dump_VModel in *.
  destruct (in_split _ _ Hin) as (pre & post & S).
  assert (I : insert_type (JDict (dump_fields vs))
              = Ok (JDict (dump_fields vs))).
  { unfold insert_type, dict_has. now rewrite G. }
  assert (O : forall m', In m' pre \/ In m' post ->
                has_tag tag m' = false /\
                inertb m' (dump_fields vs) = true).
  { intros m' Hm'.
    assert (Hin' : In m' subclasses).
    { rewrite S. apply in_or_app. destruct Hm'; [left|right; right]; auto. }
    pose proof subclasses_tags_NoDup as ND. rewrite S in ND.
    pose proof (NoDup_map_split tag_of pre post m ND m' Hm') as Ne.
    destruct (subclasses_tagged m' Hin') as (tag' & Htag' & _ & _).
    rewrite Htag, Htag' in Ne.
    assert (E : String.eqb tag' tag = false).
    { apply String.eqb_neq. congruence. }
    split.
    - unfold has_tag. now rewrite Htag'.
    - apply (other_members_inert m m' vs Hin Hin'); [|exact Names].
      unfold same_tag. rewrite Htag, Htag'. now rewrite String.eqb_sym. }
  apply (union_select _ pre post m _ (dump_fields vs) (dump_fields vs) tag);
    auto.
Qed.

Lemma child_roundtrip (n : nat) :
  forall j st v,
    ChildBlockUnion n j = (st, Ok v) -> lossless v = true ->
    ChildBlock_validate_python (dump v) = (dump v, Ok v).
Proof.
  induction n as [|n IH]; intros j st v U L.
  - rewrite ChildBlockUnion_0 in U. discriminate.
  - rewrite ChildBlockUnion_S in U.
    apply (union_smart_ok _ (ChildBlockUnion_frame n)) in U.
    destruct U as [U|(_ & m & jm & stm & Hin & _ & V)]; [discriminate|].
    apply (smart_rt (ChildBlockUnion n) m jm stm v Hin V L).
    intros x sx vx Hx Lx. exact (IH x sx vx Hx Lx).
Qed.

Lemma block_roundtrip (raw st : json) (v : value) :
  Block_validate_python raw = (st, Ok v) -> lossless v = true ->
  Block_validate_python (dump v) = (dump v, Ok v).
Proof.
  intros H L. rewrite Block_validate_python_eq in H.
  apply union_tagged_ok in H. destruct H as (m & Hin & V).
  destruct (model_rt (ChildBlockUnion (depth raw))
              (ChildBlockUnion (depth (dump v))) m raw st v Hin V L)
    as (vs & tag & -> & Names & Htag & G & R).
  { intros x sx vx Hx Lx Dx.
    rewrite (ChildBlock_validate_python_fuel _ _ Dx).
    exact (child_roundtrip _ x sx vx Hx Lx). }
  rewrite Block_validate_python_eq.
  rewrite dump_VModel in *.
  destruct (subclasses_tagged m Hin) as (tag' & Htag' & _ & F).
  rewrite Htag in Htag'. injection Htag' as <-.
  rewrite (union_tagged_select _ m _ tag F G). exact R.
Qed.
End RoundTripOfBlocks.

(** Collaborators of the sample instance keep the raw value they accepted,
    and none of them accepts null. *)
Lemma Sample_validate_fixed (c : collab) (j x : json) :
  Sample.validate c j = Some x -> x = j /\ j <> JNull.
Proof.
  unfold Sample.validate. intros H.
  destruct c; destruct j; try discriminate;
    repeat match type of H with
      | context [match ?e with _ => _ end] => destruct e; try discriminate
      end;
    injection H as <-; (split; [reflexivity|discriminate]).
Qed.




(** A null [synced_from] does not survive either: the field is required,
    serialization leaves null fields out, and the second parse is
    rejected. *)
Example synced_original_not_reparsed :
  omap class_of
    (snd (Block_validate_python (Sch := Sample.schemas true) synced_original))
  = Ok (Some "SyncedBlock") /\
  omap (fun node => json_get "synced_block" (Block_dump_python node))
    (snd (Block_validate_python (Sch := Sample.schemas true) synced_original))
  = Ok (Some (JDict [])) /\
  round_trip (Sch := Sample.schemas true) synced_original = ValidationError.
Proof. repeat split; vm_compute; reflexivity. Qed.


(* ===================================================================== *)
(** * Further properties of the module *)
(* ===================================================================== *)

(** ** The tag that [insert_type] settles *)

Lemma type_added_str (x : json) (s : string) :
  type_added x (JStr s) -> x = JStr s.
Proof. intros T. inversion T; subst; reflexivity. Qed.

Lemma type_added_dict_inv (j : json) (d1 : dict) :
  type_added j (JDict d1) -> exists d, j = JDict d.
Proof. intros T. inversion T; subst; eauto. Qed.

Lemma type_added_has_type (d d1 : dict) :
  type_added (JDict d) (JDict d1) -> dict_has "type" d = true ->
  dict_has "type" d1 = true.
Proof.
  intros T H. unfold dict_has in *.
  destruct (dict_get "type" d) as [x|] eqn:G; [|discriminate].
  destruct (type_added_get _ _ _ _ T G) as (x' & -> & _). reflexivity.
Qed.

Lemma type_added_nonempty (d d1 : dict) :
  type_added (JDict d) (JDict d1) -> d1 <> [] -> d <> [].
Proof.
  intros T N E. subst d.
  inversion T as [| | | | |? d' F|? d' k F Hno Hhd]; subst.
  - inversion F; subst. now apply N.
  - discriminate.
Qed.

(** X1.  [insert_type] only adds: every entry of the mapping it is given
    is still there, with its value, in the mapping it returns; the returned
    mapping has a ["type"] entry; and a second call returns its argument as
    it is. *)
Theorem insert_type_settles (values j1 : json) :
  insert_type values = Ok j1 ->
  insert_type j1 = Ok j1 /\
  forall d, values = JDict d ->
    exists d1, j1 = JDict d1 /\ dict_has "type" d1 = true /\
               forall k x, dict_get k d = Some x -> dict_get k d1 = Some x.
Proof.
  intros I. split.
  - destruct values as [| | |s|l|d]; simpl in I; try discriminate.
    + destruct (str_contains "type" s) eqn:E; [|destruct s; discriminate].
      injection I as <-. simpl. now rewrite E.
    + destruct (existsb is_type_str l) eqn:E; [|destruct l; discriminate].
      injection I as <-. simpl. now rewrite E.
    + destruct (dict_has "type" d) eqn:E.
      * injection I as <-. simpl. now rewrite E.
      * destruct (dict_keys d) as [|k ks]; [discriminate|].
        injection I as <-. simpl. rewrite dict_has_app. simpl.
        now rewrite orb_true_r.
  - intros d ->. simpl in I. destruct (dict_has "type" d) eqn:E.
    + injection I as <-. exists d. auto.
    + destruct (dict_keys d) as [|k ks]; [discriminate|].
      injection I as <-. eexists. split; [reflexivity|]. split.
      * rewrite dict_has_app. simpl. now rewrite orb_true_r.
      * intros k0 x G. now rewrite dict_get_app, G.
Qed.

Lemma insert_type_settles_witness :
  insert_type (JDict [("divider", JDict []); ("type", JStr "divider")])
  = Ok (JDict [("divider", JDict []); ("type", JStr "divider")]).
Proof.
  exact (proj1 (insert_type_settles (JDict [("divider", JDict [])])
                  (JDict [("divider", JDict []); ("type", JStr "divider")])
                  eq_refl)).
Defined.

Section Tags.
Context `{Sch : Schemas}.

(** A class accepts a mapping only under its own tag. *)
Lemma member_ok_tag (f : json -> json * outcome value) (m : model)
    (j st : json) (v : value) :
  In m subclasses ->
  validate_model f m j = (st, Ok v) ->
  exists d1 tag,
    insert_type j = Ok (JDict d1) /\ tag_of m = Some tag /\
    dict_get "type" d1 = Some (JStr tag) /\
    attr "type" v = Some (VStr tag) /\ class_of v = Some (cls_name m).
Proof.
  intros Hin V. pose proof V as V'.
  apply validate_model_ok in V'.
  destruct V' as (d1 & d2 & vs & I & VF & -> & -> & _).
  destruct (subclasses_tagged m Hin) as (tag & Htag & _ & _).
  destruct (literal_of_In _ _ _ Htag) as (dflt & Hfl).
  destruct (validate_fields_attr (validate f) _ _ _ _ _
              (subclasses_distinct_fields m Hin) VF Hfl) as (tv & Htv & Hx).
  unfold fname, fty, fdefault in Htv, Hx. simpl in Htv, Hx.
  pose proof (insert_type_has_type _ _ I) as Has. unfold dict_has in Has.
  destruct (dict_get "type" d1) as [x|] eqn:G; [|discriminate].
  exists d1, tag. split; [exact I|]. split; [exact Htag|].
  destruct x; simpl in Hx; try discriminate.
  destruct (String.eqb s tag) eqn:E; [|discriminate].
  apply String.eqb_eq in E. subst s. injection Hx as <-.
  split; [exact G|]. split; [exact Htv|reflexivity].
Qed.

Lemma tag_of_inj (m1 m2 : model) (tag : string) :
  In m1 subclasses -> In m2 subclasses ->
  tag_of m1 = Some tag -> tag_of m2 = Some tag -> m1 = m2.
Proof.
  intros H1 H2 T1 T2.
  destruct (subclasses_tagged m1 H1) as (t1 & E1 & _ & F1).
  destruct (subclasses_tagged m2 H2) as (t2 & E2 & _ & F2).
  congruence.
Qed.

Lemma tag_of_registry (m : model) (tag : string) :
  In m subclasses -> tag_of m = Some tag -> In tag registry_tags.
Proof.
  intros Hin T. apply (in_map tag_of) in Hin.
  rewrite subclasses_tags, T in Hin. apply in_map_iff in Hin.
  destruct Hin as (x & E & Hx). injection E as ->. exact Hx.
Qed.

(** The tag under which a mapping can be accepted, once [insert_type] has
    run on it or on a state that the validators left it in. *)
Lemma settled_tag (d : dict) (j1 : json) (d1 : dict) :
  type_added (JDict d) j1 -> insert_type j1 = Ok (JDict d1) ->
  match dict_get "type" d with
  | Some x => exists x', dict_get "type" d1 = Some x' /\ type_added x x'
  | None => exists k, hd_error (dict_keys d) = Some k /\
                      dict_get "type" d1 = Some (JStr k)
  end.
Proof.
  intros T I.
  assert (T1 : type_added (JDict d) (JDict d1)).
  { eapply type_added_trans; [exact T|]. now apply insert_type_frame. }
  destruct (dict_get "type" d) as [x|] eqn:G.
  - exact (type_added_get _ _ _ _ T1 G).
  - assert (Hno : dict_has "type" d = false)
      by (unfold dict_has; now rewrite G).
    pose proof (insert_type_has_type _ _ I) as Has.
    destruct (dict_keys d) as [|k ks] eqn:K.
    + exfalso. destruct d; [|discriminate].
      inversion T1 as [| | | | |? d' F|? d' k F Hn Hhd]; subst.
      * inversion F; subst. discriminate.
      * discriminate.
    + exists k. split; [reflexivity|].
      apply (first_key_type d); auto. now rewrite K.
Qed.

(** X2.  At most one class accepts a raw object: whatever the validators
    that ran before have written into it, two members of the union that
    accept it are the same class. *)
Theorem one_member (f g : json -> json * outcome value) (m1 m2 : model)
    (j j1 j2 s1 s2 : json) (v1 v2 : value) :
  In m1 subclasses -> In m2 subclasses ->
  type_added j j1 -> type_added j j2 ->
  validate_model f m1 j1 = (s1, Ok v1) ->
  validate_model g m2 j2 = (s2, Ok v2) ->
  m1 = m2.
Proof.
  intros H1 H2 T1 T2 V1 V2.
  destruct (member_ok_tag f m1 j1 s1 v1 H1 V1)
    as (d1 & t1 & I1 & E1 & G1 & _).
  destruct (member_ok_tag g m2 j2 s2 v2 H2 V2)
    as (d2 & t2 & I2 & E2 & G2 & _).
  assert (Td : type_added j (JDict d1)).
  { eapply type_added_trans; [exact T1|]. now apply insert_type_frame. }
  destruct (type_added_dict_inv _ _ Td) as (d & ->).
  pose proof (settled_tag d j1 d1 T1 I1) as S1.
  pose proof (settled_tag d j2 d2 T2 I2) as S2.
  apply (tag_of_inj m1 m2 t1 H1 H2 E1). rewrite E2. f_equal.
  destruct (dict_get "type" d) as [x|].
  - destruct S1 as (x1 & X1 & A1). destruct S2 as (x2 & X2 & A2).
    rewrite G1 in X1. injection X1 as <-.
    rewrite G2 in X2. injection X2 as <-.
    apply type_added_str in A1. apply type_added_str in A2. congruence.
  - destruct S1 as (k1 & K1 & X1). destruct S2 as (k2 & K2 & X2).
    congruence.
Qed.
End Tags.

Lemma one_member_witness :
  Divider (Sch := Sample.schemas true) = Divider (Sch := Sample.schemas true).
Proof.
  refine (one_member (Sch := Sample.schemas true)
            (fun j => (j, ValidationError)) (fun j => (j, ValidationError))
            Divider Divider
            (JDict [("divider", JDict [])])
            (JDict [("divider", JDict [])])
            (JDict [("divider", JDict []); ("type", JStr "divider")])
            _ _ _ _ _ _ _ _ _ _);
    try (apply type_added_refl);
    try (vm_compute; reflexivity);
    try (unfold subclasses; simpl; auto 30).
  apply (insert_type_frame (JDict [("divider", JDict [])])). reflexivity.
Defined.

(** ** What the unions reject *)

Section Rejections.
Context `{Sch : Schemas}.

Lemma find_model_none (tag : string) :
  ~ In tag registry_tags -> find_model tag subclasses = None.
Proof.
  intros N. destruct (find_model tag subclasses) as [m|] eqn:F; [|reflexivity].
  exfalso. apply N. apply find_model_In in F. destruct F as [Hin T].
  exact (tag_of_registry m tag Hin T).
Qed.

(** The value under ["type"] of a mapping that the union without
    discriminator accepts. *)
Lemma union_smart_tag (f : json -> json * outcome value) (d : dict)
    (x st : json) (v : value) :
  (forall y, type_added y (fst (f y))) ->
  dict_get "type" d = Some x ->
  union_smart f subclasses (JDict d) None = (st, Ok v) ->
  exists tag, x = JStr tag /\ In tag registry_tags.
Proof.
  intros Hf G U. apply (union_smart_ok f Hf) in U.
  destruct U as [U|(_ & m & jm & stm & Hin & T & V)]; [discriminate|].
  destruct (member_ok_tag f m jm stm v Hin V) as (d1 & tag & I & E & G1 & _).
  pose proof (settled_tag d jm d1 T I) as S. rewrite G in S.
  destruct S as (x' & X & A). rewrite G1 in X. injection X as <-.
  apply type_added_str in A. exists tag. split; [exact A|].
  exact (tag_of_registry m tag Hin E).
Qed.

(** X3.  A mapping whose ["type"] names no class is rejected: by the
    [Block] adapter with a [ValidationError] and without any write, and as
    a child it is never accepted. *)
Theorem unknown_tag_rejected (d : dict) (tag : string) :
  dict_get "type" d = Some (JStr tag) ->
  ~ In tag registry_tags ->
  Block_validate_python (JDict d) = (JDict d, ValidationError) /\
  is_ok (snd (ChildBlock_validate_python (JDict d))) = false.
Proof.
  intros G N. split.
  - rewrite Block_validate_python_eq. unfold union_tagged.
    now rewrite G, (find_model_none tag N).
  - rewrite ChildBlock_validate_python_eq.
    destruct (union_smart (ChildBlockUnion (depth (JDict d))) subclasses
                (JDict d) None) as [st r] eqn:U.
    destruct r as [v| |e]; try reflexivity. exfalso.
    destruct (union_smart_tag _ d (JStr tag) st v
                (ChildBlockUnion_frame _) G U) as (t & E & Hin).
    injection E as <-. exact (N Hin).
Qed.

(** X4.  A raw value that is not a mapping, or a mapping whose ["type"]
    is not a string, is rejected by the [Block] adapter with a
    [ValidationError] and without any write, and is never accepted as a
    child. *)
Theorem malformed_tag_rejected (raw : json) :
  (forall d, raw = JDict d ->
     exists x, dict_get "type" d = Some x /\ forall s, x <> JStr s) ->
  Block_validate_python raw = (raw, ValidationError) /\
  is_ok (snd (ChildBlock_validate_python raw)) = false.
Proof.
  intros H. split.
  - rewrite Block_validate_python_eq. unfold union_tagged.
    destruct raw as [| | | | |d]; try reflexivity.
    destruct (H d eq_refl) as (x & -> & Hx).
    destruct x; try reflexivity. exfalso. now apply (Hx s).
  - rewrite ChildBlock_validate_python_eq.
    destruct (union_smart (ChildBlockUnion (depth raw)) subclasses raw None)
      as [st r] eqn:U.
    destruct r as [v| |e]; try reflexivity. exfalso.
    pose proof U as U'.
    apply (union_smart_ok _ (ChildBlockUnion_frame _)) in U'.
    destruct U' as [U'|(_ & m & jm & stm & Hin & T & V)]; [discriminate|].
    destruct (member_ok_tag _ m jm stm v Hin V) as (d1 & tag & I & _).
    assert (Td : type_added raw (JDict d1)).
    { eapply type_added_trans; [exact T|]. now apply insert_type_frame. }
    destruct (type_added_dict_inv _ _ Td) as (d & ->).
    destruct (H d eq_refl) as (x & G & Hx).
    destruct (union_smart_tag _ d x st v
                (ChildBlockUnion_frame _) G U) as (t & E & _).
    exact (Hx t E).
Qed.

(** X5.  The discriminator selects by the [type] literal: a tag finds a
    class exactly when the class is in the union and carries that literal,
    and the tags that find a class are the 27 of the registry. *)
Theorem registry_lookup (tag : string) (m : model) :
  (find_model tag subclasses = Some m <->
   In m subclasses /\ tag_of m = Some tag) /\
  (In tag registry_tags <-> exists m', find_model tag subclasses = Some m').
Proof.
  split; split.
  - apply find_model_In.
  - intros [Hin T].
    destruct (subclasses_tagged m Hin) as (t & E & _ & F). congruence.
  - intros Hin. rewrite <- (map_id registry_tags) in Hin.
    assert (A : In (Some tag) (map tag_of subclasses)).
    { rewrite subclasses_tags. now apply in_map. }
    apply in_map_iff in A. destruct A as (m' & T & Hm').
    exists m'. destruct (subclasses_tagged m' Hm') as (t & E & _ & F).
    congruence.
  - intros (m' & F). apply find_model_In in F. destruct F as [Hin T].
    exact (tag_of_registry m' tag Hin T).
Qed.
End Rejections.

Lemma unknown_tag_rejected_witness :
  Block_validate_python (Sch := Sample.schemas true)
    (JDict [("type", JStr "bogus_type")])
  = (JDict [("type", JStr "bogus_type")], ValidationError).
Proof.
  refine (proj1 (unknown_tag_rejected (Sch := Sample.schemas true)
                   [("type", JStr "bogus_type")] "bogus_type" eq_refl _)).
  unfold registry_tags. simpl. intros H.
  repeat (destruct H as [H|H]; [discriminate H|]). exact H.
Defined.

Lemma malformed_tag_rejected_witness :
  Block_validate_python (Sch := Sample.schemas true)
    (JDict [("type", JInt 3); ("divider", JDict [])])
  = (JDict [("type", JInt 3); ("divider", JDict [])], ValidationError).
Proof.
  refine (proj1 (malformed_tag_rejected (Sch := Sample.schemas true)
                   (JDict [("type", JInt 3); ("divider", JDict [])]) _)).
  intros d E. injection E as <-. exists (JInt 3).
  split; [reflexivity|]. intros s. discriminate.
Defined.

(** ** Classes without children *)

Section Plain.
Context `{Sch : Schemas}.

Lemma tagged_member (f : json -> json * outcome value) (d : dict)
    (tag : string) (m : model) :
  dict_get "type" d = Some (JStr tag) ->
  find_model tag subclasses = Some m ->
  union_tagged f subclasses (JDict d)
  = validate f (TModel (cls_name m) (model_fields m)) (JDict d).
Proof.
  intros G F. unfold union_tagged. rewrite G, F.
  unfold validate_model, insert_type, dict_has. now rewrite G.
Qed.

Lemma plain_classes (m : model) (tag : string) :
  In m subclasses -> tag_of m = Some tag -> ~ In tag children_tags ->
  Forall (fun fl => childless (fty fl) = true) (model_fields m).
Proof.
  intros Hin T N.
  assert (A : forallb (fun m =>
                match tag_of m with
                | Some t => mem t children_tags
                | None => true
                end || forallb (fun fl => childless (fty fl)) (model_fields m))
                subclasses = true) by reflexivity.
  rewrite forallb_forall in A. specialize (A m Hin). rewrite T in A.
  apply orb_prop in A. destruct A as [A|A].
  - exfalso. apply N. now apply mem_In.
  - apply Forall_forall. now rewrite forallb_forall in A.
Qed.

(** A tagged union over the classes, on a tag whose class has no
    [children] field, only reads and returns, whatever validates
    children. *)
Lemma union_tagged_plain (f : json -> json * outcome value) (d : dict)
    (tag : string) :
  dict_get "type" d = Some (JStr tag) ->
  ~ In tag children_tags ->
  fst (union_tagged f subclasses (JDict d)) = JDict d /\
  returns (snd (union_tagged f subclasses (JDict d))).
Proof.
  intros G N.
  destruct (find_model tag subclasses) as [m|] eqn:F.
  - rewrite (tagged_member _ d tag m G F), validate_TModel.
    destruct (find_model_In _ _ _ F) as [Hin T].
    pose proof (plain_classes m tag Hin T N) as P.
    assert (Q : Forall (fun fl => childless (fty fl) = true \/
                                  dict_get (fname fl) d = None)
                  (model_fields m)).
    { eapply Forall_impl; [|exact P]. intros fl H. now left. }
    destruct (validate_fields_returns f _ _ Q) as [S1 S2].
    destruct (validate_fields _ (model_fields m) d) as [d2 r].
    cbn [fst snd] in *. subst d2. split; [reflexivity|].
    now apply construct_returns.
  - unfold union_tagged. rewrite G, F. split; [reflexivity|].
    intros e. discriminate.
Qed.

(** X6.  Validation through [Block] of a mapping whose tag is not one of
    the six with a [children] field writes nothing and lets no exception
    other than [ValidationError] out. *)
Theorem childless_block_untouched (d : dict) (tag : string) :
  dict_get "type" d = Some (JStr tag) ->
  ~ In tag children_tags ->
  fst (Block_validate_python (JDict d)) = JDict d /\
  returns (snd (Block_validate_python (JDict d))).
Proof.
  intros G N. rewrite Block_validate_python_eq.
  now apply union_tagged_plain with (tag := tag).
Qed.
End Plain.

Lemma childless_block_untouched_witness :
  fst (Block_validate_python (Sch := Sample.schemas true)
         (JDict [("type", JStr "divider"); ("divider", JDict [])]))
  = JDict [("type", JStr "divider"); ("divider", JDict [])].
Proof.
  refine (proj1 (childless_block_untouched (Sch := Sample.schemas true)
                   [("type", JStr "divider"); ("divider", JDict [])]
                   "divider" eq_refl _)).
  unfold children_tags. simpl. intros H.
  repeat (destruct H as [H|H]; [discriminate H|]). exact H.
Defined.

(** ** The envelope *)

Lemma type_added_get_other (d d1 : dict) (k : string) :
  type_added (JDict d) (JDict d1) -> k <> "type" ->
  match dict_get k d with
  | Some x => exists x', dict_get k d1 = Some x' /\ type_added x x'
  | None => dict_get k d1 = None
  end.
Proof.
  intros T N.
  inversion T as [| | | | |? d' F|? d' k' F Hno Hhd]; subst.
  - exact (same_keys_get k _ _ F).
  - pose proof (same_keys_get k _ _ F) as S.
    rewrite dict_get_app.
    destruct (dict_get k d) as [x|].
    + destruct S as (x' & -> & Tx). eauto.
    + rewrite S. simpl.
      destruct (String.eqb k "type") eqn:E; [|reflexivity].
      apply String.eqb_eq in E. contradiction.
Qed.

Section Envelope.
Context `{Sch : Schemas}.

(** The class that answered when one of the two unions accepted a
    mapping, and the mapping as that class's fields were read from it. *)
Lemma accepted_member (d : dict) (st : json) (node : value) :
  Block_validate_python (JDict d) = (st, Ok node) \/
  ChildBlock_validate_python (JDict d) = (st, Ok node) ->
  exists f m d1 d2 vs,
    In m subclasses /\ type_added (JDict d) (JDict d1) /\
    validate_fields (validate f) (model_fields m) d1 = (d2, Ok vs) /\
    node = VModel (cls_name m) vs.
Proof.
  intros [V|V].
  - rewrite Block_validate_python_eq in V.
    apply union_tagged_ok in V. destruct V as (m & Hin & V).
    apply validate_model_ok in V.
    destruct V as (d1 & d2 & vs & I & VF & _ & -> & _).
    exists (ChildBlockUnion (depth (JDict d))), m, d1, d2, vs.
    repeat split; auto. now apply insert_type_frame.
  - rewrite ChildBlock_validate_python_eq in V.
    apply (union_smart_ok _ (ChildBlockUnion_frame _)) in V.
    destruct V as [V|(_ & m & jm & stm & Hin & T & V)]; [discriminate|].
    apply validate_model_ok in V.
    destruct V as (d1 & d2 & vs & I & VF & _ & -> & _).
    exists (ChildBlockUnion (depth (JDict d))), m, d1, d2, vs.
    repeat split; auto.
    eapply type_added_trans; [exact T|]. now apply insert_type_frame.
Qed.

Lemma envelope_field (fl : field) (m : model) :
  In fl _BlockCommon -> In fl (model_fields m).
Proof. intros H. unfold model_fields. apply in_or_app. now left. Qed.

(** X7.  A node has the fields of its class in declaration order, whatever
    the order of the keys in the raw mapping.  Of the envelope, a flag
    ([has_children], [archived], [in_trash]) that the mapping lacks is
    [False] and one given as a boolean is kept, and each of the other
    eight fields is [None] when the mapping lacks it or holds null.  This
    holds for a mapping accepted by [Block] and for one accepted as a
    child. *)
Theorem envelope_defaults (d : dict) (st : json) (node : value) :
  Block_validate_python (JDict d) = (st, Ok node) \/
  ChildBlock_validate_python (JDict d) = (st, Ok node) ->
  (exists m vs, In m subclasses /\ node = VModel (cls_name m) vs /\
                map fst vs = map fname (model_fields m)) /\
  (forall name, In name ["has_children"; "archived"; "in_trash"] ->
     (dict_get name d = None -> attr name node = Some (VBool false)) /\
     (forall b, dict_get name d = Some (JBool b) ->
                attr name node = Some (VBool b))) /\
  (forall name,
     In name ["object"; "id"; "parent"; "created_time"; "last_edited_time";
              "created_by"; "last_edited_by"; "request_id"] ->
     dict_get name d = None \/ dict_get name d = Some JNull ->
     attr name node = Some VNone).
Proof.
  intros V.
  destruct (accepted_member d st node V)
    as (f & m & d1 & d2 & vs & Hin & T & VF & ->).
  pose proof (subclasses_distinct_fields m Hin) as ND.
  split; [|split].
  - exists m, vs. repeat split; auto.
    exact (validate_fields_names _ _ _ _ _ VF).
  - intros name Hn.
    assert (Hfl : In (name, TBool, Some (VBool false)) (model_fields m)).
    { apply envelope_field. unfold _BlockCommon, defaulted. simpl in *.
      destruct Hn as [<-|[<-|[<-|[]]]]; auto 15. }
    assert (Nt : name <> "type").
    { simpl in Hn. destruct Hn as [<-|[<-|[<-|[]]]]; discriminate. }
    destruct (validate_fields_attr _ _ _ _ _ _ ND VF Hfl) as (v & Av & Hv).
    unfold fname, fty, fdefault in Av, Hv. cbn [fst snd] in Av, Hv.
    pose proof (type_added_get_other d d1 name T Nt) as G.
    cbn [attr]. split.
    + intros E. rewrite E in G. rewrite G in Hv. congruence.
    + intros b E. rewrite E in G. destruct G as (x' & G & Tx).
      inversion Tx; subst. rewrite G in Hv. cbn in Hv. congruence.
  - intros name Hn Hd.
    assert (Hfl : exists t, In (name, TOptional t, Some VNone)
                              (model_fields m)).
    { simpl in Hn. unfold _BlockCommon, defaulted.
      destruct Hn as [<-|[<-|[<-|[<-|[<-|[<-|[<-|[<-|[]]]]]]]]];
        eexists; apply envelope_field; unfold _BlockCommon, defaulted;
        simpl; auto 15. }
    destruct Hfl as (t & Hfl).
    assert (Nt : name <> "type").
    { simpl in Hn.
      destruct Hn as [<-|[<-|[<-|[<-|[<-|[<-|[<-|[<-|[]]]]]]]]];
        discriminate. }
    destruct (validate_fields_attr _ _ _ _ _ _ ND VF Hfl) as (v & Av & Hv).
    unfold fname, fty, fdefault in Av, Hv. cbn [fst snd] in Av, Hv.
    pose proof (type_added_get_other d d1 name T Nt) as G.
    cbn [attr]. destruct Hd as [E|E]; rewrite E in G.
    + rewrite G in Hv. congruence.
    + destruct G as (x' & G & Tx). inversion Tx; subst.
      rewrite G in Hv. cbn in Hv. congruence.
Qed.

(** X8.  The three flags do not take null, a list or a mapping: a raw
    mapping that holds one of these under [has_children], [archived] or
    [in_trash] is accepted neither by [Block] nor as a child. *)
Theorem flags_reject_null (d : dict) (name : string) (x : json) :
  In name ["has_children"; "archived"; "in_trash"] ->
  dict_get name d = Some x ->
  x = JNull \/ (exists l, x = JList l) \/ (exists e, x = JDict e) ->
  is_ok (snd (Block_validate_python (JDict d))) = false /\
  is_ok (snd (ChildBlock_validate_python (JDict d))) = false.
Proof.
  intros Hn G Hx.
  assert (A : forall st node,
             Block_validate_python (JDict d) = (st, Ok node) \/
             ChildBlock_validate_python (JDict d) = (st, Ok node) -> False).
  { intros st node V.
    destruct (accepted_member d st node V)
      as (f & m & d1 & d2 & vs & Hin & T & VF & ->).
    assert (Hfl : In (name, TBool, Some (VBool false)) (model_fields m)).
    { apply envelope_field. unfold _BlockCommon, defaulted. simpl in *.
      destruct Hn as [<-|[<-|[<-|[]]]]; auto 15. }
    assert (Nt : name <> "type").
    { simpl in Hn. destruct Hn as [<-|[<-|[<-|[]]]]; discriminate. }
    destruct (validate_fields_attr _ _ _ _ _ _
                (subclasses_distinct_fields m Hin) VF Hfl) as (v & _ & Hv).
    unfold fname, fty, fdefault in Hv. cbn [fst snd] in Hv.
    pose proof (type_added_get_other d d1 name T Nt) as G1.
    rewrite G in G1. destruct G1 as (x' & G1 & Tx). rewrite G1 in Hv.
    destruct Hx as [->|[(l & ->)|(e & ->)]]; inversion Tx; subst;
      discriminate Hv. }
  split.
  - destruct (Block_validate_python (JDict d)) as [st [node| |e]] eqn:V;
      try reflexivity.
    exfalso. exact (A st node (or_introl eq_refl)).
  - destruct (ChildBlock_validate_python (JDict d)) as [st [node| |e]] eqn:V;
      try reflexivity.
    exfalso. exact (A st node (or_intror eq_refl)).
Qed.
End Envelope.

(** ** Payloads *)

Section Required.
Context `{Sch : Schemas}.
Variable val : ftype -> json -> json * outcome value.

(** A required field that the mapping lacks is reported, whatever the
    other fields are. *)
Lemma validate_fields_missing (fs : list field) (fl : field) :
  In fl fs -> fdefault fl = None ->
  forall d, dict_get (fname fl) d = None ->
            is_ok (snd (validate_fields val fs d)) = false.
Proof.
  intros Hin Hreq.
  induction fs as [|[[name t] dflt] fs IH]; intros d G; [contradiction|].
  cbn [validate_fields].
  destruct (dict_get name d) as [x|] eqn:Gn.
  - destruct (val t x) as [x' r].
    assert (Gs : dict_get (fname fl) (dict_set name x' d) = None).
    { destruct (String.eqb (fname fl) name) eqn:E.
      - apply String.eqb_eq in E. congruence.
      - apply String.eqb_neq in E. now rewrite dict_get_set_other. }
    destruct Hin as [<-|Hin].
    { unfold fname in G. cbn in G. congruence. }
    specialize (IH Hin _ Gs).
    destruct (validate_fields val fs (dict_set name x' d)) as [d2 rs].
    cbn [snd] in IH.
    destruct r; cbn; try reflexivity; destruct rs; cbn in *; congruence.
  - destruct Hin as [<-|Hin].
    + unfold fdefault in Hreq. cbn in Hreq. subst dflt.
      destruct (validate_fields val fs d) as [d2 rs].
      destruct rs; reflexivity.
    + specialize (IH Hin _ G).
      destruct (validate_fields val fs d) as [d2 rs]. cbn [snd] in IH.
      destruct dflt; cbn; destruct rs; cbn in *; congruence.
Qed.
End Required.

Section Payloads.
Context `{Sch : Schemas}.

(** The class that answered for a mapping with an explicit tag. *)
Lemma accepted_tagged (d : dict) (tag : string) (st : json) (node : value) :
  dict_get "type" d = Some (JStr tag) ->
  Block_validate_python (JDict d) = (st, Ok node) \/
  ChildBlock_validate_python (JDict d) = (st, Ok node) ->
  exists f m d1 d2 vs,
    find_model tag subclasses = Some m /\
    type_added (JDict d) (JDict d1) /\
    validate_fields (validate f) (model_fields m) d1 = (d2, Ok vs) /\
    node = VModel (cls_name m) vs.
Proof.
  intros G V.
  assert (A : exists f m jm stm,
             In m subclasses /\ type_added (JDict d) jm /\
             validate_model f m jm = (stm, Ok node)).
  { destruct V as [V|V].
    - rewrite Block_validate_python_eq in V.
      apply union_tagged_ok in V. destruct V as (m & Hin & V).
      exists (ChildBlockUnion (depth (JDict d))), m, (JDict d), st.
      auto using type_added_refl.
    - rewrite ChildBlock_validate_python_eq in V.
      apply (union_smart_ok _ (ChildBlockUnion_frame _)) in V.
      destruct V as [V|(_ & m & jm & stm & Hin & T & V)]; [discriminate|].
      exists (ChildBlockUnion (depth (JDict d))), m, jm, stm. auto. }
  destruct A as (f & m & jm & stm & Hin & T & V').
  destruct (member_ok_tag f m jm stm node Hin V')
    as (d1 & t & I & E & G1 & _).
  pose proof (settled_tag d jm d1 T I) as S. rewrite G in S.
  destruct S as (x' & X & A). rewrite G1 in X. injection X as <-.
  apply type_added_str in A. injection A as <-.
  apply validate_model_ok in V'.
  destruct V' as (d1' & d2 & vs & I' & VF & _ & -> & _).
  rewrite I in I'. injection I' as <-.
  exists f, m, d1, d2, vs. repeat split; auto.
  - destruct (subclasses_tagged m Hin) as (t' & E' & _ & F). congruence.
  - eapply type_added_trans; [exact T|]. now apply insert_type_frame.
Qed.

Lemma payload_field_In (m : model) (fl : field) :
  In fl (payload_fields m) -> In fl (model_fields m) /\ fname fl <> "type".
Proof.
  unfold payload_fields. rewrite filter_In. intros [Hin N]. split.
  - unfold model_fields. apply in_or_app. now right.
  - apply negb_true_iff, String.eqb_neq in N. exact N.
Qed.

(** X9.  A payload is required unless the class gives it a default.  When
    the raw mapping lacks the payload key of its class, it is rejected, by
    [Block] and as a child, if the payload field has no default; if it has
    one, the node carries the default.  The classes with a default payload
    are [BreadCrumb], [ColumnList], [Column] and [Divider], with the empty
    mapping. *)
Theorem payload_required (d : dict) (tag : string) (m : model) (fl : field) :
  dict_get "type" d = Some (JStr tag) ->
  find_model tag subclasses = Some m ->
  In fl (payload_fields m) ->
  dict_get (fname fl) d = None ->
  match fdefault fl with
  | None =>
      is_ok (snd (Block_validate_python (JDict d))) = false /\
      is_ok (snd (ChildBlock_validate_python (JDict d))) = false
  | Some dv =>
      forall st node,
        Block_validate_python (JDict d) = (st, Ok node) \/
        ChildBlock_validate_python (JDict d) = (st, Ok node) ->
        attr (fname fl) node = Some dv
  end /\
  map (fun m => (tag_of m, map fdefault (payload_fields m)))
    (filter (fun m => existsb (fun fl => match fdefault fl with
                                         | Some _ => true
                                         | None => false
                                         end) (payload_fields m))
       subclasses)
  = [ (Some "breadcrumb", [Some (VDict [])]);
      (Some "column_list", [Some (VDict [])]);
      (Some "column", [Some (VDict [])]);
      (Some "divider", [Some (VDict [])]) ].
Proof.
  intros G F Hfl Gp. split; [|reflexivity].
  destruct (payload_field_In m fl Hfl) as [Hin Nt].
  assert (A : forall st node,
             Block_validate_python (JDict d) = (st, Ok node) \/
             ChildBlock_validate_python (JDict d) = (st, Ok node) ->
             exists dv, fdefault fl = Some dv /\
                        attr (fname fl) node = Some dv).
  { intros st node V.
    destruct (accepted_tagged d tag st node G V)
      as (f & m' & d1 & d2 & vs & F' & T & VF & ->).
    rewrite F in F'. injection F' as <-.
    destruct (find_model_In _ _ _ F) as [Hm _].
    destruct (validate_fields_attr _ _ _ _ _ _
                (subclasses_distinct_fields m Hm) VF Hin) as (v & Av & Hv).
    pose proof (type_added_get_other d d1 (fname fl) T Nt) as G1.
    rewrite Gp in G1. rewrite G1 in Hv. exists v. auto. }
  destruct (fdefault fl) as [dv|] eqn:D.
  - intros st node V. destruct (A st node V) as (dv' & E & Av). congruence.
  - split.
    + destruct (Block_validate_python (JDict d)) as [st [node| |e]] eqn:V;
        try reflexivity.
      destruct (A st node (or_introl eq_refl)) as (dv & E & _). discriminate.
    + destruct (ChildBlock_validate_python (JDict d)) as [st [node| |e]] eqn:V;
        try reflexivity.
      destruct (A st node (or_intror eq_refl)) as (dv & E & _). discriminate.
Qed.

(** X10.  A payload that is a nested model must be a mapping that holds
    every field the nested model requires (for instance [rich_text], or
    the [synced_from] of a synced block, which may be null but not
    absent): otherwise [Block] does not accept the raw mapping. *)
Theorem payload_fields_required (d : dict) (tag : string) (m : model)
    (pname pcls : string) (pfs : list field) (dflt : option value)
    (x : json) :
  dict_get "type" d = Some (JStr tag) ->
  find_model tag subclasses = Some m ->
  In (pname, TModel pcls pfs, dflt) (model_fields m) ->
  dict_get pname d = Some x ->
  (forall pd, x = JDict pd ->
     exists fl, In fl pfs /\ fdefault fl = None /\
                dict_get (fname fl) pd = None) ->
  is_ok (snd (Block_validate_python (JDict d))) = false.
Proof.
  intros G F Hp Gp Hx.
  destruct (Block_validate_python (JDict d)) as [st [node| |e]] eqn:V;
    try reflexivity.
  exfalso. rewrite Block_validate_python_eq in V.
  rewrite (tagged_member _ d tag m G F), validate_TModel in V.
  destruct (validate_fields _ (model_fields m) d) as [d2 r] eqn:VF.
  injection V as _ V. apply construct_ok in V.
  destruct V as (vs & -> & _ & _).
  destruct (find_model_In _ _ _ F) as [Hm _].
  destruct (validate_fields_attr _ _ _ _ _ _
              (subclasses_distinct_fields m Hm) VF Hp) as (v & _ & Hv).
  unfold fname, fty in Hv. cbn [fst snd] in Hv. rewrite Gp in Hv.
  destruct x as [| | | | |pd]; try discriminate Hv.
  destruct (Hx pd eq_refl) as (fl & Hfl & Hreq & Gf).
  rewrite validate_TModel in Hv.
  pose proof (validate_fields_missing
                (validate (ChildBlockUnion (depth (JDict d))))
                pfs fl Hfl Hreq pd Gf) as B.
  destruct (validate_fields _ pfs pd) as [pd' r'].
  cbn [snd] in Hv, B. apply construct_ok in Hv.
  destruct Hv as (pvs & -> & _). discriminate.
Qed.

(** X11.  The payload of a bulleted list item is validated as rich text,
    whole: [Block] writes nothing to such a mapping, and the payload of an
    accepted node is what the rich-text schema made of the raw payload, so
    a [children] list inside it is not parsed into blocks. *)
Theorem bulleted_list_item_payload (d : dict) (p st : json) (node : value) :
  dict_get "type" d = Some (JStr "bulleted_list_item") ->
  dict_get "bulleted_list_item" d = Some p ->
  Block_validate_python (JDict d) = (st, Ok node) ->
  st = JDict d /\
  exists x, ext_validate RichText p = Some x /\
            attr "bulleted_list_item" node = Some (VExt RichText x).
Proof.
  intros G Gp V. split.
  - assert (N : ~ In "bulleted_list_item" children_tags).
    { unfold children_tags. simpl. intros H.
      repeat (destruct H as [H|H]; [discriminate H|]). exact H. }
    rewrite Block_validate_python_eq in V.
    pose proof (proj1 (union_tagged_plain
                         (ChildBlockUnion (depth (JDict d))) d _ G N)) as S.
    rewrite V in S. exact S.
  - rewrite Block_validate_python_eq in V.
    rewrite (tagged_member _ d "bulleted_list_item" BulletedListItem G
               eq_refl), validate_TModel in V.
    destruct (validate_fields _ (model_fields BulletedListItem) d)
      as [d2 r] eqn:VF.
    injection V as _ V. apply construct_ok in V.
    destruct V as (vs & -> & -> & _).
    assert (Hin : In BulletedListItem subclasses)
      by (unfold subclasses; simpl; auto 30).
    assert (Hp : In ("bulleted_list_item", TExt RichText, None)
                   (model_fields BulletedListItem)).
    { unfold model_fields. apply in_or_app. right. simpl. auto. }
    destruct (validate_fields_attr _ _ _ _ _ _
                (subclasses_distinct_fields _ Hin) VF Hp) as (v & Av & Hv).
    unfold fname, fty in Av, Hv. cbn [fst snd] in Av, Hv. rewrite Gp in Hv.
    cbn [validate snd] in Hv.
    destruct (ext_validate RichText p) as [x|]; [|discriminate].
    injection Hv as <-. exists x. auto.
Qed.
End Payloads.

(** ** Exceptions that escape from a children list *)

Section Escapes.
Context `{Sch : Schemas}.
Variable val : ftype -> json -> json * outcome value.

Lemma validate_items_raises (t : ftype) (x : json) (e : exn) :
  snd (val t x) = Raise e ->
  forall l, In x l ->
    exists e', snd (validate_items val t l) = Raise e' /\
               (hd_error l = Some x -> e' = e).
Proof.
  intros Hx. induction l as [|y l IH]; intros Hin; [contradiction|].
  cbn [validate_items].
  destruct (val t y) as [y' r] eqn:Vy.
  destruct r as [v| |e0].
  - destruct Hin as [->|Hin]; [rewrite Vy in Hx; discriminate|].
    destruct (IH Hin) as (e' & E & _).
    destruct (validate_items val t l) as [l' rs]. cbn [snd] in *. subst rs.
    exists e'. split; [reflexivity|].
    cbn. intros [= ->]. rewrite Vy in Hx. discriminate.
  - destruct Hin as [->|Hin]; [rewrite Vy in Hx; discriminate|].
    destruct (IH Hin) as (e' & E & _).
    destruct (validate_items val t l) as [l' rs]. cbn [snd] in *. subst rs.
    exists e'. split; [reflexivity|].
    cbn. intros [= ->]. rewrite Vy in Hx. discriminate.
  - exists e0. split; [reflexivity|].
    cbn. intros [= ->]. rewrite Vy in Hx. cbn in Hx. congruence.
Qed.

(** An exception raised under a field escapes from the model when the
    fields before it cannot raise. *)
Lemma validate_fields_raises (pre post : list field) (fl : field)
    (x : json) (e : exn) :
  Forall (fun p => forall d y, dict_get (fname p) d = Some y ->
                               returns (snd (val (fty p) y))) pre ->
  ~ In (fname fl) (map fname pre) ->
  snd (val (fty fl) x) = Raise e ->
  forall d, dict_get (fname fl) d = Some x ->
            snd (validate_fields val (pre ++ fl :: post) d) = Raise e.
Proof.
  intros Hpre. induction Hpre as [|[[name t] dflt] pre Hp Hpre IH];
    intros Nin Hx d G.
  - destruct fl as [[name t] dflt]. unfold fname, fty in *. cbn [fst snd] in *.
    cbn [app validate_fields]. rewrite G.
    destruct (val t x) as [x' r]. cbn [snd] in Hx. subst r. reflexivity.
  - cbn [app validate_fields].
    assert (Ne : fname fl <> name).
    { intros E. apply Nin. left. now rewrite E. }
    assert (Nin' : ~ In (fname fl) (map fname pre)).
    { intros H. apply Nin. now right. }
    unfold fname at 1, fty at 1 in Hp. cbn [fst snd] in Hp.
    destruct (dict_get name d) as [y|] eqn:Gy.
    + specialize (Hp d y Gy).
      destruct (val t y) as [y' r]. cbn [snd] in Hp.
      assert (G' : dict_get (fname fl) (dict_set name y' d) = Some x)
        by (now rewrite dict_get_set_other).
      specialize (IH Nin' Hx _ G').
      destruct (validate_fields val (pre ++ fl :: post) (dict_set name y' d))
        as [d2 rs]. cbn [snd] in IH. subst rs.
      destruct r as [v| |e0]; cbn; try reflexivity.
      exfalso. now apply (Hp e0).
    + specialize (IH Nin' Hx _ G).
      destruct (validate_fields val (pre ++ fl :: post) d) as [d2 rs].
      cbn [snd] in IH. subst rs. destruct dflt; reflexivity.
Qed.
End Escapes.

Section EscapesTop.
Context `{Sch : Schemas}.

(** The classes with children: the payload is the last field of the
    class, [children] the last field of the payload, and no field before
    them holds blocks. *)
Lemma children_variant_split (tag : string) :
  In tag children_tags ->
  exists m pcls pre ppre,
    find_model tag subclasses = Some m /\
    model_fields m = (pre ++ [(tag, TModel pcls (ppre ++ [children_field]),
                               None)])%list /\
    forallb (fun p => childless (fty p)) pre = true /\
    forallb (fun p => childless (fty p)) ppre = true /\
    mem tag (map fname pre) = false /\
    mem "children" (map fname ppre) = false.
Proof.
  unfold children_tags. simpl. intros H.
  pose (rich := [required "rich_text" (TExt RichText); color_field]).
  destruct H as [<-|[<-|[<-|[<-|[<-|[<-|[]]]]]]].
  - exists NumberedListItem, "_NumberedListItemData",
      (removelast (model_fields NumberedListItem)), rich.
    repeat split; reflexivity.
  - exists Paragraph, "_ParagraphData",
      (removelast (model_fields Paragraph)), rich.
    repeat split; reflexivity.
  - exists Quote, "_QuoteData", (removelast (model_fields Quote)), rich.
    repeat split; reflexivity.
  - exists SyncedBlock, "_SyncedBlockData",
      (removelast (model_fields SyncedBlock)),
      [required "synced_from"
         (TOptional (TModel "_SyncedFrom"
                       [required "block_id" (TPattern UUIDv4)]))].
    repeat split; reflexivity.
  - exists Todo, "TodoData", (removelast (model_fields Todo)),
      [required "rich_text" (TExt RichText);
       defaulted "checked" TBool (VBool false); color_field].
    repeat split; reflexivity.
  - exists Toggle, "_ToggleData",
      (removelast (model_fields Toggle)), rich.
    repeat split; reflexivity.
Qed.

Lemma childless_quiet (f : json -> json * outcome value) (fs : list field) :
  forallb (fun p => childless (fty p)) fs = true ->
  Forall (fun p => forall (d : dict) y, dict_get (fname p) d = Some y ->
                     returns (snd (validate f (fty p) y))) fs.
Proof.
  rewrite forallb_forall. intros H. apply Forall_forall.
  intros p Hp d y _. exact (proj2 (validate_childless f _ (H p Hp) y)).
Qed.

Lemma head_member_raises (f : json -> json * outcome value) (m : model)
    (ms : list model) (x : json) (e : exn) :
  insert_type x = Raise e ->
  union_smart f (m :: ms) x None = (x, Raise e).
Proof.
  intros I. cbn [union_smart]. unfold validate_model. now rewrite I.
Qed.

Lemma first_member_raises (f : json -> json * outcome value) (x : json)
    (e : exn) :
  insert_type x = Raise e ->
  union_smart f subclasses x None = (x, Raise e).
Proof. intros I. unfold subclasses. now apply head_member_raises. Qed.

(** X12.  A child that [insert_type] cannot handle takes the whole call
    down with an exception that is not a [ValidationError]: when the
    [children] list of a raw block holds an entry on which [insert_type]
    raises (an empty mapping, null, a number, a boolean), [Block] ends with
    an escaping [IndexError] or [TypeError], and with that entry's own
    exception when it is the first of the list. *)
Theorem bad_child_escapes (tag : string) (d pd : dict) (items : list json)
    (x : json) (e : exn) :
  In tag children_tags ->
  dict_get "type" d = Some (JStr tag) ->
  dict_get tag d = Some (JDict pd) ->
  dict_get "children" pd = Some (JList items) ->
  In x items ->
  insert_type x = Raise e ->
  exists e',
    snd (Block_validate_python (JDict d)) = Raise e' /\
    e' <> RecursionError /\
    (hd_error items = Some x -> e' = e).
Proof.
  intros Ht G Gp Gc Hx I.
  destruct (children_variant_split tag Ht)
    as (m & pcls & pre & ppre & F & Hm & Cpre & Cppre & Npre & Nppre).
  assert (Hd : depth x < depth (JDict d)).
  { apply In_depth in Hx. apply dict_get_depth in Gc.
    apply dict_get_depth in Gp. lia. }
  set (f := ChildBlockUnion (depth (JDict d))).
  assert (Vx : snd (f x) = Raise e).
  { unfold f. rewrite (ChildBlock_validate_python_fuel _ _ Hd).
    rewrite ChildBlock_validate_python_eq.
    now rewrite (first_member_raises _ x e I). }
  destruct (validate_items_raises (validate f) TChildBlockUnion x e Vx
              items Hx) as (e' & E & Hhd).
  assert (Vc : snd (validate f (fty children_field) (JList items))
               = Raise e').
  { unfold children_field, defaulted, fty. cbn [fst snd validate].
    destruct (validate_items (validate f) TChildBlockUnion items)
      as [l' rs]. cbn [snd] in E. subst rs. reflexivity. }
  assert (Vp : snd (validate f (TModel pcls (ppre ++ [children_field]))
                      (JDict pd)) = Raise e').
  { rewrite validate_TModel.
    pose proof (validate_fields_raises (validate f) ppre [] children_field
                  (JList items) e' (childless_quiet f ppre Cppre)) as R.
    assert (Nin : ~ In (fname children_field) (map fname ppre)).
    { intros H. apply mem_In in H. unfold fname at 1 in H.
      cbn [children_field defaulted fst] in H. congruence. }
    specialize (R Nin Vc pd Gc).
    destruct (validate_fields (validate f) (ppre ++ [children_field]) pd)
      as [pd' r]. cbn [snd] in R. subst r. reflexivity. }
  assert (V : snd (Block_validate_python (JDict d)) = Raise e').
  { rewrite Block_validate_python_eq. fold f.
    rewrite (tagged_member f d tag m G F), validate_TModel, Hm.
    pose proof (validate_fields_raises (validate f) pre []
                  (tag, TModel pcls (ppre ++ [children_field]), None)
                  (JDict pd) e' (childless_quiet f pre Cpre)) as R.
    assert (Nin : ~ In tag (map fname pre)).
    { intros H. apply mem_In in H. congruence. }
    specialize (R Nin Vp d Gp).
    destruct (validate_fields (validate f) _ d) as [d' r].
    cbn [snd] in R. subst r. reflexivity. }
  exists e'. split; [exact V|]. split; [|exact Hhd].
  pose proof (Block_validate_python_within (JDict d)) as W.
  rewrite V in W. unfold within_bound in W. congruence.
Qed.
End EscapesTop.

Lemma envelope_defaults_witness :
  omap (attr "archived")
    (snd (Block_validate_python (Sch := Sample.schemas true)
            (JDict [("divider", JDict []); ("type", JStr "divider");
                    ("id", JNull)])))
  = Ok (Some (VBool false)).
Proof.
  destruct (Block_validate_python (Sch := Sample.schemas true)
              (JDict [("divider", JDict []); ("type", JStr "divider");
                      ("id", JNull)])) as [st r] eqn:V.
  pose proof V as V'. vm_compute in V'. injection V' as <- <-.
  cbn [snd omap]. apply (f_equal (@Ok _)).
  exact (proj1 (proj1 (proj2 (envelope_defaults (Sch := Sample.schemas true)
                                _ _ _ (or_introl V)))
                  "archived" (or_intror (or_introl eq_refl))) eq_refl).
Defined.

Lemma flags_reject_null_witness :
  is_ok (snd (Block_validate_python (Sch := Sample.schemas true)
                (JDict [("type", JStr "divider"); ("archived", JNull)])))
  = false.
Proof.
  exact (proj1 (flags_reject_null (Sch := Sample.schemas true)
                  [("type", JStr "divider"); ("archived", JNull)]
                  "archived" JNull (or_intror (or_introl eq_refl))
                  eq_refl (or_introl eq_refl))).
Defined.

Lemma payload_required_witness :
  is_ok (snd (Block_validate_python (Sch := Sample.schemas true)
                (JDict [("type", JStr "paragraph")]))) = false.
Proof.
  refine (proj1 (proj1 (payload_required (Sch := Sample.schemas true)
                          [("type", JStr "paragraph")] "paragraph" Paragraph
                          (required "paragraph"
                             (TModel "_ParagraphData"
                                [ required "rich_text" (TExt RichText);
                                  color_field; children_field ]))
                          eq_refl eq_refl _ eq_refl))).
  unfold payload_fields. simpl. now left.
Defined.

Lemma payload_fields_required_witness :
  is_ok (snd (Block_validate_python (Sch := Sample.schemas true)
                (JDict [("type", JStr "synced_block");
                        ("synced_block", JDict [("children", JList [])])])))
  = false.
Proof.
  refine (payload_fields_required (Sch := Sample.schemas true)
            [("type", JStr "synced_block");
             ("synced_block", JDict [("children", JList [])])]
            "synced_block" SyncedBlock "synced_block" "_SyncedBlockData"
            [ required "synced_from"
                (TOptional
                   (TModel "_SyncedFrom"
                      [ required "block_id" (TPattern UUIDv4) ]));
              children_field ]
            None (JDict [("children", JList [])])
            eq_refl eq_refl _ eq_refl _).
  - unfold model_fields. apply in_or_app. right. simpl. auto.
  - intros pd E. injection E as <-.
    eexists. split; [left; reflexivity|]. split; reflexivity.
Defined.

Lemma bulleted_list_item_payload_witness :
  omap (attr "bulleted_list_item")
    (snd (Block_validate_python (Sch := Sample.schemas true)
            (JDict [("type", JStr "bulleted_list_item");
                    ("bulleted_list_item", JList [])])))
  = Ok (Some (VExt (Sch := Sample.schemas true) RichText (JList []))).
Proof.
  destruct (Block_validate_python (Sch := Sample.schemas true)
              (JDict [("type", JStr "bulleted_list_item");
                      ("bulleted_list_item", JList [])]))
    as [st r] eqn:V.
  pose proof V as V'. vm_compute in V'. injection V' as <- <-.
  destruct (bulleted_list_item_payload (Sch := Sample.schemas true)
              [("type", JStr "bulleted_list_item");
               ("bulleted_list_item", JList [])]
              (JList []) _ _ eq_refl eq_refl V) as (_ & x & E & A).
  cbn in E. injection E as <-.
  cbn [snd omap]. apply (f_equal (@Ok _)). exact A.
Defined.

Lemma bad_child_escapes_witness :
  snd (Block_validate_python (Sch := Sample.schemas true)
         (JDict [("type", JStr "toggle");
                 ("toggle", JDict [("rich_text", JList []);
                                   ("children", JList [JNull])])]))
  = Raise TypeError.
Proof.
  assert (Ht : In "toggle" children_tags)
    by (unfold children_tags; simpl; auto 10).
  destruct (bad_child_escapes (Sch := Sample.schemas true) "toggle"
              [("type", JStr "toggle");
               ("toggle", JDict [("rich_text", JList []);
                                 ("children", JList [JNull])])]
              [("rich_text", JList []); ("children", JList [JNull])]
              [JNull] JNull TypeError Ht eq_refl eq_refl eq_refl
              (or_introl eq_refl) eq_refl)
    as (e' & V & _ & Hhd).
  rewrite V. apply (f_equal (@Raise _)). now apply Hhd.
Defined.


(* ===================================================================== *)
(** * Validation settles *)
(* ===================================================================== *)

Lemma also_returns_inv {A} (r : outcome A) (rs : outcome (list A)) :
  returns (also r rs) -> returns rs.
Proof.
  unfold returns. intros H e E. subst rs. apply (H e).
  destruct r; reflexivity.
Qed.

Lemma dict_keys_set (k : string) (x v : json) (d : dict) :
  dict_get k d = Some x -> dict_keys (dict_set k v d) = dict_keys d.
Proof.
  unfold dict_keys.
  induction d as [|[k' v'] d IH]; simpl; [discriminate|].
  destruct (String.eqb k k'); simpl; [reflexivity|].
  intros G. now rewrite IH.
Qed.

Section SettleLoops.
Context `{Sch : Schemas}.
Variable val : ftype -> json -> json * outcome value.

Lemma validate_items_settles (t : ftype) :
  (forall x s r, val t x = (s, r) -> returns r -> val t s = (s, r)) ->
  forall l l' rs,
    validate_items val t l = (l', rs) -> returns rs ->
    validate_items val t l' = (l', rs).
Proof.
  intros Ht. induction l as [|x l IH]; intros l' rs V R.
  - cbn in V. injection V as <- <-. reflexivity.
  - cbn [validate_items] in V.
    destruct (val t x) as [x' r] eqn:Vx.
    destruct r as [v| |e].
    + destruct (validate_items val t l) as [l2 rs2] eqn:Vl.
      injection V as <- <-.
      cbn [validate_items].
      rewrite (Ht x x' (Ok v) Vx) by (intros e; discriminate).
      rewrite (IH l2 rs2 eq_refl (also_returns_inv _ _ R)). reflexivity.
    + destruct (validate_items val t l) as [l2 rs2] eqn:Vl.
      injection V as <- <-.
      cbn [validate_items].
      rewrite (Ht x x' ValidationError Vx) by (intros e; discriminate).
      rewrite (IH l2 rs2 eq_refl (also_returns_inv _ _ R)). reflexivity.
    + injection V as <- <-. exfalso. now apply (R e).
Qed.

Lemma validate_fields_keys (fs : list field) :
  forall d, dict_keys (fst (validate_fields val fs d)) = dict_keys d.
Proof.
  induction fs as [|[[name t] dflt] fs IH]; intros d; [reflexivity|].
  cbn [validate_fields].
  destruct (dict_get name d) as [x|] eqn:G.
  - destruct (val t x) as [x' r].
    pose proof (IH (dict_set name x' d)) as K.
    rewrite (dict_keys_set _ _ _ _ G) in K.
    destruct (validate_fields val fs (dict_set name x' d)) as [d2 rs].
    destruct r; cbn [omap fst] in *; auto.
    now apply dict_keys_set with (x := x).
  - pose proof (IH d) as K.
    destruct (validate_fields val fs d) as [d2 rs].
    destruct dflt; cbn [fst] in *; auto.
Qed.

Lemma validate_fields_get_other (fs : list field) (n : string) :
  ~ In n (map fname fs) ->
  forall d, dict_get n (fst (validate_fields val fs d)) = dict_get n d.
Proof.
  induction fs as [|[[name t] dflt] fs IH]; intros N d; [reflexivity|].
  cbn [validate_fields].
  assert (Ne : n <> name) by (intros E; apply N; left; now rewrite E).
  assert (N' : ~ In n (map fname fs)) by (intros H; apply N; now right).
  destruct (dict_get name d) as [x|] eqn:G.
  - destruct (val t x) as [x' r].
    pose proof (IH N' (dict_set name x' d)) as K.
    rewrite (dict_get_set_other _ _ _ _ Ne) in K.
    destruct (validate_fields val fs (dict_set name x' d)) as [d2 rs].
    destruct r; cbn [omap fst] in *; auto.
    now apply dict_get_set_other.
  - pose proof (IH N' d) as K.
    destruct (validate_fields val fs d) as [d2 rs].
    destruct dflt; cbn [fst] in *; auto.
Qed.

(** Fields validated once validate to the same on any mapping that holds,
    under their names, what the first pass left. *)
Lemma validate_fields_settles (fs : list field) :
  NoDup (map fname fs) ->
  Forall (fun fl => forall x s r, val (fty fl) x = (s, r) -> returns r ->
                                  val (fty fl) s = (s, r)) fs ->
  forall d d' r,
    validate_fields val fs d = (d', r) -> returns r ->
    forall e,
      (forall fl, In fl fs -> dict_get (fname fl) e = dict_get (fname fl) d') ->
      validate_fields val fs e = (e, r).
Proof.
  intros ND HF. induction HF as [|[[name t] dflt] fs Hf HF IH];
    intros d d' r V R e A.
  - cbn in V. injection V as <- <-. reflexivity.
  - inversion ND as [|? ? Nin ND']; subst.
    unfold fty in Hf. cbn [fst snd] in Hf.
    cbn [validate_fields] in V |- *.
    assert (Ae : dict_get name e = dict_get name d')
      by (apply (A (name, t, dflt)); now left).
    assert (A' : forall fl, In fl fs ->
                   dict_get (fname fl) e = dict_get (fname fl) d')
      by (intros fl H; apply A; now right).
    destruct (dict_get name d) as [x|] eqn:G.
    + destruct (val t x) as [x' r1] eqn:Vx.
      pose proof (validate_fields_get_other fs name Nin (dict_set name x' d))
        as K.
      rewrite dict_get_set_same in K.
      destruct r1 as [v| |e1].
      * destruct (validate_fields val fs (dict_set name x' d)) as [d2 rs]
          eqn:Vf.
        cbn [omap] in V. injection V as <- <-. cbn [fst] in K.
        rewrite K in Ae. rewrite Ae.
        rewrite (Hf x x' (Ok v) Vx) by (intros e0; discriminate).
        rewrite (dict_set_id _ _ _ Ae). cbn [omap].
        rewrite (IH ND' _ _ _ Vf (also_returns_inv _ _ R) e A').
        reflexivity.
      * destruct (validate_fields val fs (dict_set name x' d)) as [d2 rs]
          eqn:Vf.
        cbn [omap] in V. injection V as <- <-. cbn [fst] in K.
        rewrite K in Ae. rewrite Ae.
        rewrite (Hf x x' ValidationError Vx) by (intros e0; discriminate).
        rewrite (dict_set_id _ _ _ Ae). cbn [omap].
        rewrite (IH ND' _ _ _ Vf (also_returns_inv _ _ R) e A').
        reflexivity.
      * cbn [omap] in V. injection V as <- <-. exfalso. now apply (R e1).
    + pose proof (validate_fields_get_other fs name Nin d) as K.
      rewrite G in K.
      destruct dflt as [dv|].
      * destruct (validate_fields val fs d) as [d2 rs] eqn:Vf.
        injection V as <- <-. cbn [fst] in K. rewrite K in Ae. rewrite Ae.
        rewrite (IH ND' _ _ _ Vf (also_returns_inv _ _ R) e A').
        reflexivity.
      * destruct (validate_fields val fs d) as [d2 rs] eqn:Vf.
        injection V as <- <-. cbn [fst] in K. rewrite K in Ae. rewrite Ae.
        rewrite (IH ND' _ _ _ Vf (also_returns_inv _ _ R) e A').
        reflexivity.
Qed.
End SettleLoops.

Lemma construct_returns_inv `{Sch : Schemas} (cls : string)
    (fs : list field) (d : dict) (r : outcome (list (string * value))) :
  returns (construct cls fs d r) -> returns r.
Proof.
  unfold returns. intros H e E. subst r. now apply (H e).
Qed.

Lemma omap_returns_inv {A B} (h : A -> B) (r : outcome A) :
  returns (omap h r) -> returns r.
Proof.
  unfold returns. intros H e E. subst r. now apply (H e).
Qed.

Lemma has_extra_keys `{Sch : Schemas} (fs : list field) (d e : dict) :
  dict_keys e = dict_keys d -> has_extra fs e = has_extra fs d.
Proof. unfold has_extra. now intros ->. Qed.

Lemma distinct_names_fields `{Sch : Schemas} (fs : list field) :
  (fix all (fs : list field) : bool :=
     match fs with
     | [] => true
     | f :: fs' => distinct_names (fty f) && all fs'
     end) fs = true ->
  Forall (fun fl => distinct_names (fty fl) = true) fs.
Proof.
  induction fs as [|fl fs IH]; [constructor|].
  intros H. apply andb_prop in H. destruct H. constructor; auto.
Qed.

Section Settle.
Context `{Sch : Schemas}.
Variable f : json -> json * outcome value.
Hypothesis f_frame : forall x, type_added x (fst (f x)).
Hypothesis f_settles : settles f.

(** With a children validator that settles, every field validator
    does. *)
Lemma validate_settles (t : ftype) :
  distinct_names t = true ->
  forall x st r, validate f t x = (st, r) -> returns r ->
                 validate f t st = (st, r).
Proof.
  induction t using ftype_ind; intros D x st r V R;
    try (cbn [validate] in V |- *; injection V as <- <-; reflexivity).
  - (* Optional *)
    cbn [validate] in V. destruct x;
      try (injection V as <- <-; reflexivity);
      pose proof (validate_frame f f_frame t) as F;
      match type of V with
      | validate f t ?y = _ =>
          specialize (F y); rewrite V in F; cbn [fst] in F;
          inversion F; subst; cbn [validate];
          apply (IHt D _ _ _ V R)
      end.
  - (* List *)
    cbn [validate] in V. destruct x as [| | | |l|];
      try (injection V as <- <-; reflexivity).
    destruct (validate_items (validate f) t l) as [l' rs] eqn:Vl.
    injection V as <- <-. cbn [validate].
    rewrite (validate_items_settles (validate f) t (IHt D) l l' rs Vl
               (omap_returns_inv _ _ R)).
    reflexivity.
  - (* Model *)
    destruct x as [| | | | |d];
      try (cbn [validate] in V |- *; injection V as <- <-; reflexivity).
    rewrite validate_TModel in V.
    destruct (validate_fields (validate f) fs d) as [d' r0] eqn:Vf.
    injection V as <- <-. rewrite validate_TModel.
    cbn [distinct_names] in D. apply andb_prop in D. destruct D as [D1 D2].
    apply distinct_names_fields in D2.
    assert (HF : Forall (fun fl => forall x s0 r,
                           validate f (fty fl) x = (s0, r) -> returns r ->
                           validate f (fty fl) s0 = (s0, r)) fs).
    { rewrite Forall_forall in *. intros fl Hin. apply H; auto. }
    rewrite (validate_fields_settles (validate f) fs
               (distinct_NoDup _ D1) HF d d' r0 Vf
               (construct_returns_inv _ _ _ _ R) d' (fun _ _ => eq_refl)).
    reflexivity.
  - (* children *)
    cbn [validate] in V |- *. exact (f_settles x st r V R).
Qed.
End Settle.

Lemma insert_type_twice (j j1 : json) :
  insert_type j = Ok j1 -> insert_type j1 = Ok j1.
Proof.
  destruct j as [| | |s|l|d]; simpl; try discriminate.
  - destruct (str_contains "type" s) eqn:E; [|destruct s; discriminate].
    intros [= <-]. simpl. now rewrite E.
  - destruct (existsb is_type_str l) eqn:E; [|destruct l; discriminate].
    intros [= <-]. simpl. now rewrite E.
  - destruct (dict_has "type" d) eqn:E.
    + intros [= <-]. simpl. now rewrite E.
    + destruct (dict_keys d) as [|k ks]; [discriminate|].
      intros [= <-]. simpl. rewrite dict_has_app. simpl.
      now rewrite orb_true_r.
Qed.

Lemma insert_type_not_dict (j j1 : json) :
  insert_type j = Ok j1 -> (forall d, j1 <> JDict d) -> j1 = j.
Proof.
  destruct j as [| | |s|l|d]; simpl; try discriminate.
  - destruct (str_contains "type" s); [|destruct s; discriminate].
    now intros [= <-].
  - destruct (existsb is_type_str l); [|destruct l; discriminate].
    now intros [= <-].
  - destruct (dict_has "type" d).
    + now intros [= <-].
    + destruct (dict_keys d); [discriminate|].
      intros [= <-] H. exfalso. now apply (H _ eq_refl).
Qed.

Lemma insert_type_no_validation_error (j : json) :
  insert_type j <> ValidationError.
Proof.
  destruct j as [| | |s|l|d]; simpl; try discriminate.
  - destruct (str_contains "type" s); [|destruct s]; discriminate.
  - destruct (existsb is_type_str l); [|destruct l]; discriminate.
  - destruct (dict_has "type" d); [|destruct (dict_keys d)]; discriminate.
Qed.

Section Cross.
Context `{Sch : Schemas}.

Lemma subclasses_distinct_names (m : model) :
  In m subclasses ->
  distinct_names (TModel (cls_name m) (model_fields m)) = true.
Proof.
  intros Hin.
  assert (A : forallb (fun m => distinct_names
                                  (TModel (cls_name m) (model_fields m)))
                subclasses = true) by reflexivity.
  rewrite forallb_forall in A. exact (A m Hin).
Qed.

Lemma type_field (m : model) :
  In m subclasses -> In "type" (map fname (model_fields m)).
Proof.
  intros Hin. destruct (subclasses_tagged m Hin) as (tag & T & _ & _).
  destruct (literal_of_In _ _ _ T) as (dflt & Hfl).
  apply in_map_iff. exists ("type", TLiteral tag, dflt). auto.
Qed.

(** A field name that two classes share (an envelope field, or [type])
    holds no blocks. *)
Lemma shared_fields_childless (a b : model) (fl : field) :
  In a subclasses -> In b subclasses -> same_tag a b = false ->
  In fl (model_fields b) -> In (fname fl) (map fname (model_fields a)) ->
  childless (fty fl) = true.
Proof.
  intros Ha Hb T Hfl Hn.
  assert (A : forallb (fun a => forallb (fun b =>
                same_tag a b ||
                forallb (fun fl => childless (fty fl) ||
                           negb (mem (fname fl) (map fname (model_fields a))))
                  (model_fields b)) subclasses) subclasses = true)
    by reflexivity.
  rewrite forallb_forall in A. specialize (A a Ha).
  rewrite forallb_forall in A. specialize (A b Hb).
  rewrite T in A. cbn [orb] in A. rewrite forallb_forall in A.
  specialize (A fl Hfl). apply orb_prop in A. destruct A as [A|A]; [exact A|].
  apply mem_In in Hn. rewrite Hn in A. discriminate.
Qed.

Lemma same_tag_false (a b : model) :
  In a subclasses -> In b subclasses -> a <> b -> same_tag a b = false.
Proof.
  intros Ha Hb N. unfold same_tag.
  destruct (tag_of a) as [ta|] eqn:Ta; [|reflexivity].
  destruct (tag_of b) as [tb|] eqn:Tb; [|reflexivity].
  apply String.eqb_neq. intros E. subst tb. apply N.
  exact (tag_of_inj a b ta Ha Hb Ta Tb).
Qed.
End Cross.

Section Footprint.
Context `{Sch : Schemas}.
Variable f : json -> json * outcome value.

(** Validating fields leaves alone every key under which no field holds
    blocks. *)
Lemma validate_fields_footprint (fs : list field) (n : string) :
  (forall fl, In fl fs -> fname fl = n -> childless (fty fl) = true) ->
  forall d, dict_get n (fst (validate_fields (validate f) fs d))
            = dict_get n d.
Proof.
  induction fs as [|[[name t] dflt] fs IH]; intros C d; [reflexivity|].
  cbn [validate_fields].
  assert (C' : forall fl, In fl fs -> fname fl = n ->
                          childless (fty fl) = true)
    by (intros fl H; apply C; now right).
  destruct (dict_get name d) as [x|] eqn:G.
  - destruct (validate f t x) as [x' r] eqn:Vx.
    assert (K : dict_get n (dict_set name x' d) = dict_get n d).
    { destruct (String.eqb n name) eqn:E.
      - apply String.eqb_eq in E. subst n.
        pose proof (C (name, t, dflt) (or_introl eq_refl) eq_refl) as Ct.
        unfold fty in Ct. cbn [fst snd] in Ct.
        pose proof (proj1 (validate_childless f t Ct x)) as Fx.
        rewrite Vx in Fx. cbn [fst] in Fx. subst x'.
        now rewrite (dict_set_id _ _ _ G).
      - apply String.eqb_neq in E. now apply dict_get_set_other. }
    pose proof (IH C' (dict_set name x' d)) as K'.
    destruct (validate_fields (validate f) fs (dict_set name x' d))
      as [d2 rs].
    destruct r; cbn [omap fst] in *; congruence.
  - pose proof (IH C' d) as K'.
    destruct (validate_fields (validate f) fs d) as [d2 rs].
    destruct dflt; cbn [fst] in *; auto.
Qed.

(** What a member writes to a mapping that has its ["type"]: nothing
    under the names of another class. *)
Lemma validate_model_footprint (a b : model) (d : dict) (s : json)
    (r : outcome value) :
  In a subclasses -> In b subclasses -> same_tag a b = false ->
  dict_has "type" d = true ->
  validate_model f b (JDict d) = (s, r) ->
  agree (map fname (model_fields a)) (JDict d) s.
Proof.
  intros Ha Hb T Has V. unfold validate_model, insert_type in V.
  rewrite Has in V. rewrite validate_TModel in V.
  pose proof (validate_fields_keys (validate f) (model_fields b) d) as K.
  assert (G : forall n, In n (map fname (model_fields a)) ->
                dict_get n (fst (validate_fields (validate f)
                                   (model_fields b) d)) = dict_get n d).
  { intros n Hn. apply validate_fields_footprint.
    intros fl Hfl E. subst n.
    exact (shared_fields_childless a b fl Ha Hb T Hfl Hn). }
  destruct (validate_fields (validate f) (model_fields b) d) as [d' r0].
  injection V as <- <-. cbn [fst] in K, G. cbn [agree]. auto.
Qed.
End Footprint.

Lemma agree_refl (names : list string) (s : json) : agree names s s.
Proof. destruct s; cbn; auto. Qed.

Lemma agree_trans (names : list string) (s1 s2 s3 : json) :
  agree names s1 s2 -> agree names s2 s3 -> agree names s1 s3.
Proof.
  destruct s1 as [| | | | |d1]; cbn; try (intros ->; cbn; now intros ->).
  destruct s2 as [| | | | |d2]; try discriminate.
  destruct s3 as [| | | | |d3]; cbn; try discriminate.
  intros [K1 G1] [K2 G2]. split; [congruence|].
  intros n Hn. rewrite (G2 n Hn). auto.
Qed.

Lemma type_added_dict_fwd (d : dict) (j : json) :
  type_added (JDict d) j -> exists d', j = JDict d'.
Proof. intros T. inversion T; subst; eauto. Qed.

Section SettleUnion.
Context `{Sch : Schemas}.
Variable f : json -> json * outcome value.
Hypothesis f_frame : forall x, type_added x (fst (f x)).
Hypothesis f_settles : settles f.

(** The state that a member leaves when it returns: a mapping with
    ["type"], or the raw value itself when that is no mapping. *)
Lemma validate_model_state (m : model) (j s : json) (r : outcome value) :
  validate_model f m j = (s, r) -> returns r ->
  (exists d, s = JDict d /\ dict_has "type" d = true) \/
  (s = j /\ forall d, j <> JDict d).
Proof.
  intros V R. unfold validate_model in V.
  destruct (insert_type j) as [j1| |e] eqn:I.
  - destruct j1 as [| | | | |d1];
      try (right; cbn [validate] in V; injection V as <- <-;
           rewrite (insert_type_not_dict _ _ I) by discriminate;
           split; [reflexivity|];
           intros d E; subst j;
           pose proof (insert_type_not_dict _ _ I) as N;
           cbn in I; destruct (dict_has "type" d);
           [discriminate I|destruct (dict_keys d); discriminate I]).
    left. pose proof (insert_type_has_type _ _ I) as Has.
    pose proof (validate_frame f f_frame
                  (TModel (cls_name m) (model_fields m)) (JDict d1)) as F.
    rewrite V in F. cbn [fst] in F.
    destruct (type_added_dict_fwd _ _ F) as (d & ->).
    exists d. split; [reflexivity|].
    exact (type_added_has_type _ _ F Has).
  - exfalso. exact (insert_type_no_validation_error j I).
  - injection V as <- <-. exfalso. now apply (R e).
Qed.

(** A member that has returned returns the same, and writes nothing, on
    any state that agrees with the one it left on the names of its
    fields. *)
Lemma validate_model_settles (m : model) (j s s' : json)
    (r : outcome value) :
  In m subclasses ->
  validate_model f m j = (s, r) -> returns r ->
  agree (map fname (model_fields m)) s s' ->
  validate_model f m s' = (s', r).
Proof.
  intros Hin V R A.
  destruct (validate_model_state m j s r V R) as [(d' & -> & Has)|[-> N]].
  - unfold validate_model in V.
    destruct (insert_type j) as [j1| |e] eqn:I;
      [|exfalso; exact (insert_type_no_validation_error j I)
       |injection V as _ <-; exfalso; now apply (R e)].
    destruct j1 as [| | | | |d1];
      try (cbn [validate] in V; injection V as E _; discriminate E).
    rewrite validate_TModel in V.
    destruct (validate_fields (validate f) (model_fields m) d1)
      as [d2 r0] eqn:Vf.
    injection V as <- <-.
    destruct s' as [| | | | |e]; try discriminate A.
    cbn [agree] in A. destruct A as [K G].
    assert (Hase : dict_has "type" e = true).
    { unfold dict_has in *. rewrite (G "type" (type_field m Hin)).
      exact Has. }
    unfold validate_model, insert_type. rewrite Hase, validate_TModel.
    pose proof (subclasses_distinct_names m Hin) as D.
    cbn [distinct_names] in D. apply andb_prop in D. destruct D as [D1 D2].
    apply distinct_names_fields in D2.
    assert (HF : Forall (fun fl => forall x s0 r,
                           validate f (fty fl) x = (s0, r) -> returns r ->
                           validate f (fty fl) s0 = (s0, r))
                   (model_fields m)).
    { eapply Forall_impl; [|exact D2]. intros fl Dfl.
      now apply validate_settles. }
    rewrite (validate_fields_settles (validate f) (model_fields m)
               (distinct_NoDup _ D1) HF d1 d2 r0 Vf
               (construct_returns_inv _ _ _ _ R) e).
    + unfold construct. now rewrite (has_extra_keys _ _ _ K).
    + intros fl Hfl. apply G. now apply in_map.
  - assert (s' = j) as ->.
    { destruct j; cbn in A; auto. exfalso. now apply (N d). }
    unfold validate_model in V |- *.
    destruct (insert_type j) as [j1| |e] eqn:I;
      [|exfalso; exact (insert_type_no_validation_error j I)
       |exfalso; apply (R e); congruence].
    assert (j1 = j) as ->.
    { destruct j1 as [| | | | |d1];
        try (apply (insert_type_not_dict _ _ I); discriminate).
      rewrite validate_TModel in V.
      destruct (validate_fields (validate f) (model_fields m) d1).
      injection V as E _. exfalso. now apply (N _ (eq_sym E)). }
    exact V.
Qed.

(** Members of other classes leave the fields of a class as they are. *)
Lemma union_smart_footprint (a : model) (ms : list model) :
  In a subclasses ->
  (forall b, In b ms -> In b subclasses /\ same_tag a b = false) ->
  forall d best s r,
    dict_has "type" d = true ->
    union_smart f ms (JDict d) best = (s, r) ->
    agree (map fname (model_fields a)) (JDict d) s.
Proof.
  intros Ha. induction ms as [|b ms IH]; intros Hms d best s r Has U.
  - cbn in U. injection U as <- _. apply agree_refl.
  - cbn [union_smart] in U.
    destruct (Hms b (or_introl eq_refl)) as [Hb T].
    destruct (validate_model f b (JDict d)) as [j1 r1] eqn:V.
    pose proof (validate_model_footprint f a b d j1 r1 Ha Hb T Has V) as A1.
    assert (Hms' : forall b', In b' ms ->
                     In b' subclasses /\ same_tag a b' = false)
      by (intros b' H; apply Hms; now right).
    destruct j1 as [| | | | |d1]; try discriminate A1.
    assert (Has1 : dict_has "type" d1 = true).
    { cbn [agree] in A1. destruct A1 as [_ G]. unfold dict_has in *.
      now rewrite (G "type" (type_field a Ha)). }
    destruct r1 as [v| |e].
    + eapply agree_trans; [exact A1|]. eapply IH; eauto.
    + eapply agree_trans; [exact A1|]. eapply IH; eauto.
    + injection U as <- _. exact A1.
Qed.
End SettleUnion.

Section SettleUnion2.
Context `{Sch : Schemas}.
Variable f : json -> json * outcome value.
Hypothesis f_frame : forall x, type_added x (fst (f x)).
Hypothesis f_settles : settles f.

Lemma validate_model_scalar (m : model) (j : json) :
  (forall d, j <> JDict d) -> fst (validate_model f m j) = j.
Proof.
  intros N. unfold validate_model.
  destruct (insert_type j) as [j1| |e] eqn:I; try reflexivity.
  destruct j1 as [| | | | |d1];
    try (cbn [validate fst]; apply (insert_type_not_dict _ _ I);
         discriminate).
  exfalso. destruct j as [| | |s|l|d]; cbn in I; try discriminate.
  - destruct (str_contains "type" s); [|destruct s]; discriminate.
  - destruct (existsb is_type_str l); [|destruct l]; discriminate.
  - now apply (N d).
Qed.

Lemma union_smart_scalar (ms : list model) (j : json) :
  (forall d, j <> JDict d) ->
  forall best, fst (union_smart f ms j best) = j.
Proof.
  intros N. induction ms as [|m ms IH]; intros best; [reflexivity|].
  cbn [union_smart].
  pose proof (validate_model_scalar m j N) as S.
  destruct (validate_model f m j) as [j1 r1]. cbn [fst] in S. subst j1.
  destruct r1; auto.
Qed.

(** The union without discriminator settles: on the state it leaves it
    returns the same and writes nothing, and the member that accepted
    accepts that state. *)
Lemma union_smart_settles (ms : list model) :
  incl ms subclasses -> NoDup ms ->
  forall j best s r,
    union_smart f ms j best = (s, r) -> returns r ->
    union_smart f ms s best = (s, r) /\
    (best = None -> forall v, r = Ok v ->
       exists m, In m ms /\ validate_model f m s = (s, Ok v)).
Proof.
  induction ms as [|m ms IH]; intros Hincl ND j best s r U R.
  - cbn in U. injection U as <- <-. split; [reflexivity|].
    intros -> v E. discriminate.
  - inversion ND as [|? ? Nin ND']; subst.
    assert (Hm : In m subclasses) by (apply Hincl; now left).
    assert (Hincl' : incl ms subclasses)
      by (intros x Hx; apply Hincl; now right).
    assert (Hms : forall b, In b ms ->
                    In b subclasses /\ same_tag m b = false).
    { intros b Hb. split; [now apply Hincl'|].
      apply same_tag_false; auto. intros <-. contradiction. }
    cbn [union_smart] in U.
    destruct (validate_model f m j) as [j1 r1] eqn:V.
    assert (R1 : returns r1).
    { intros e E. subst r1. injection U as _ <-. now apply (R e). }
    assert (Step : forall best1,
               union_smart f ms j1 best1 = (s, r) ->
               union_smart f ms s best1 = (s, r) /\
               (best1 = None -> forall v, r = Ok v ->
                  exists m', In m' ms /\ validate_model f m' s = (s, Ok v)) /\
               validate_model f m s = (s, r1)).
    { intros best1 U1.
      destruct (IH Hincl' ND' j1 best1 s r U1 R) as [U' P'].
      split; [exact U'|]. split; [exact P'|].
      assert (A : agree (map fname (model_fields m)) j1 s).
      { destruct (validate_model_state f f_frame m j j1 r1 V R1)
          as [(d1 & -> & Has)|[-> N]].
        - exact (union_smart_footprint f m ms Hm Hms d1 best1 s r Has U1).
        - pose proof (union_smart_scalar ms j N best1) as S.
          rewrite U1 in S. cbn [fst] in S. subst s. apply agree_refl. }
      exact (validate_model_settles f f_frame f_settles m j j1 s r1
               Hm V R1 A). }
    destruct r1 as [v1| |e]; [| |exfalso; now apply (R1 e)].
    + destruct (Step _ U) as (U' & _ & Vs). split.
      * cbn [union_smart]. rewrite Vs. exact U'.
      * intros -> v ->. exists m. split; [now left|].
        apply (union_smart_ok f f_frame) in U.
        destruct U as [U|(U & _)]; [|discriminate].
        injection U as ->. exact Vs.
    + destruct (Step _ U) as (U' & P' & Vs). split.
      * cbn [union_smart]. rewrite Vs. exact U'.
      * intros -> v Hr. destruct (P' eq_refl v Hr) as (m' & Hm' & Vm').
        exists m'. split; [now right|exact Vm'].
Qed.
End SettleUnion2.

Section SettleTop.
Context `{Sch : Schemas}.

Lemma subclasses_NoDup : NoDup subclasses.
Proof. exact (NoDup_map_inv tag_of subclasses subclasses_tags_NoDup). Qed.

Lemma ChildBlockUnion_settles (n : nat) : settles (ChildBlockUnion n).
Proof.
  induction n as [|n IH]; intros j s r V R.
  - rewrite ChildBlockUnion_0 in V. injection V as _ <-.
    exfalso. now apply (R RecursionError).
  - rewrite ChildBlockUnion_S in V |- *.
    exact (proj1 (union_smart_settles (ChildBlockUnion n)
                    (ChildBlockUnion_frame n) IH subclasses
                    (incl_refl _) subclasses_NoDup j None s r V R)).
Qed.

(** The tagged union settles, with any children validator that does. *)
Lemma union_tagged_settles (f : json -> json * outcome value)
    (j s : json) (r : outcome value) :
  (forall x, type_added x (fst (f x))) -> settles f ->
  union_tagged f subclasses j = (s, r) -> returns r ->
  union_tagged f subclasses s = (s, r).
Proof.
  intros Hf Sf V R. pose proof V as V0. unfold union_tagged in V.
  destruct j as [| | | | |d];
    try (injection V as <- <-; reflexivity).
  destruct (dict_get "type" d) as [x|] eqn:G;
    [|injection V as <- <-; exact V0].
  destruct x as [| | |tag| |];
    try (injection V as <- <-; exact V0).
  destruct (find_model tag subclasses) as [m|] eqn:F;
    [|injection V as <- <-; exact V0].
  destruct (find_model_In _ _ _ F) as [Hm _].
  pose proof (validate_model_settles f Hf Sf m (JDict d) s s r Hm V R
                (agree_refl _ s)) as Vs.
  pose proof (validate_model_frame f Hf m (JDict d)) as T.
  rewrite V in T. cbn [fst] in T.
  destruct (type_added_dict_fwd _ _ T) as (d' & ->).
  destruct (type_added_get _ _ _ _ T G) as (x' & G' & Tx).
  inversion Tx; subst.
  now rewrite (union_tagged_select f m d' tag F G').
Qed.
End SettleTop.

Section SettleTheorems.
Context `{Sch : Schemas}.

Lemma Block_state_depth (raw : json) :
  depth (fst (Block_validate_python raw)) = depth raw.
Proof. apply type_added_depth. apply BlockUnion_frame. Qed.

Lemma ChildBlock_state_depth (raw : json) :
  depth (fst (ChildBlock_validate_python raw)) = depth raw.
Proof. apply type_added_depth. apply ChildBlockUnion_frame. Qed.

(** X13.  [Block.validate_python] settles.  When a call returns or fails
    with a [ValidationError], a second call on the caller's object, as the
    first call left it, has the same outcome (the same node when it
    returned one) and writes nothing more. *)
Theorem Block_validate_python_settles (raw st : json) (r : outcome value) :
  Block_validate_python raw = (st, r) -> returns r ->
  Block_validate_python st = (st, r).
Proof.
  intros V R.
  pose proof (Block_state_depth raw) as D. rewrite V in D. cbn [fst] in D.
  rewrite Block_validate_python_eq in V |- *. rewrite D.
  exact (union_tagged_settles _ raw st r (ChildBlockUnion_frame _)
           (ChildBlockUnion_settles _) V R).
Qed.

(** X14.  The same holds for the validation of a child: on the state that
    a call left, with the ["type"] entries it has written, a second call
    has the same outcome and writes nothing. *)
Theorem ChildBlock_validate_python_settles (raw st : json)
    (r : outcome value) :
  ChildBlock_validate_python raw = (st, r) -> returns r ->
  ChildBlock_validate_python st = (st, r).
Proof.
  intros V R.
  pose proof (ChildBlock_state_depth raw) as D. rewrite V in D.
  cbn [fst] in D.
  rewrite <- (ChildBlock_validate_python_fuel (S (depth raw)) raw) in V
    by lia.
  rewrite <- (ChildBlock_validate_python_fuel (S (depth raw)) st) by lia.
  exact (ChildBlockUnion_settles _ raw st r V R).
Qed.

(** X15.  [insert_type] makes a child a tagged block.  The state in which
    the validation of a child leaves an accepted mapping carries the
    discriminator, and [Block.validate_python] accepts that state as the
    same node without writing to it. *)
Theorem child_state_is_a_block (raw st : json) (node : value) :
  ChildBlock_validate_python raw = (st, Ok node) ->
  Block_validate_python st = (st, Ok node) /\
  exists d tag, st = JDict d /\ dict_get "type" d = Some (JStr tag) /\
                attr "type" node = Some (VStr tag).
Proof.
  intros V.
  pose proof (ChildBlock_state_depth raw) as D. rewrite V in D.
  cbn [fst] in D.
  rewrite ChildBlock_validate_python_eq in V.
  assert (R : returns (Ok node)) by (intros e; discriminate).
  destruct (proj2 (union_smart_settles (ChildBlockUnion (depth raw))
                     (ChildBlockUnion_frame _) (ChildBlockUnion_settles _)
                     subclasses (incl_refl _) subclasses_NoDup
                     raw None st (Ok node) V R) eq_refl node eq_refl)
    as (m & Hm & Vm).
  destruct (member_ok_tag _ m st st node Hm Vm)
    as (d1 & tag & I & Et & G & At & _).
  destruct (validate_model_state _ (ChildBlockUnion_frame _) m st st
              (Ok node) Vm R) as [(d & -> & Has)|[_ N]].
  - cbn [insert_type] in I. rewrite Has in I. injection I as <-.
    split; [|exists d, tag; auto].
    rewrite Block_validate_python_eq, D.
    destruct (subclasses_tagged m Hm) as (tag' & Et' & _ & F).
    rewrite Et in Et'. injection Et' as <-.
    now rewrite (union_tagged_select _ m d tag F G).
  - exfalso. apply validate_model_ok in Vm.
    destruct Vm as (? & d2 & ? & _ & _ & E & _). now apply (N d2).
Qed.
End SettleTheorems.

Lemma Block_validate_python_settles_witness :
  Block_validate_python (Sch := Sample.schemas true)
    (JDict [("type", JStr "toggle");
            ("toggle",
             JDict [("rich_text", JList []);
                    ("children",
                     JList [JDict [("divider", JDict []);
                                   ("type", JStr "divider")]])])])
  = (JDict [("type", JStr "toggle");
            ("toggle",
             JDict [("rich_text", JList []);
                    ("children",
                     JList [JDict [("divider", JDict []);
                                   ("type", JStr "divider")]])])],
     snd (Block_validate_python (Sch := Sample.schemas true)
            (JDict [("type", JStr "toggle");
                    ("toggle",
                     JDict [("rich_text", JList []);
                            ("children",
                             JList [JDict [("divider", JDict [])]])])]))).
Proof.
  destruct (Block_validate_python (Sch := Sample.schemas true)
              (JDict [("type", JStr "toggle");
                      ("toggle",
                       JDict [("rich_text", JList []);
                              ("children",
                               JList [JDict [("divider", JDict [])]])])]))
    as [st r] eqn:V.
  pose proof V as V'. vm_compute in V'. injection V' as <- <-.
  cbn [snd].
  refine (Block_validate_python_settles (Sch := Sample.schemas true)
            _ _ _ V _).
  intros e. discriminate.
Defined.

Lemma ChildBlock_validate_python_settles_witness :
  ChildBlock_validate_python (Sch := Sample.schemas true)
    (JDict [("divider", JDict []); ("type", JStr "divider")])
  = (JDict [("divider", JDict []); ("type", JStr "divider")],
     snd (ChildBlock_validate_python (Sch := Sample.schemas true)
            (JDict [("divider", JDict [])]))).
Proof.
  destruct (ChildBlock_validate_python (Sch := Sample.schemas true)
              (JDict [("divider", JDict [])])) as [st r] eqn:V.
  pose proof V as V'. vm_compute in V'. injection V' as <- <-.
  cbn [snd].
  refine (ChildBlock_validate_python_settles (Sch := Sample.schemas true)
            _ _ _ V _).
  intros e. discriminate.
Defined.

Lemma child_state_is_a_block_witness :
  Block_validate_python (Sch := Sample.schemas true)
    (JDict [("divider", JDict []); ("type", JStr "divider")])
  = (JDict [("divider", JDict []); ("type", JStr "divider")],
     snd (ChildBlock_validate_python (Sch := Sample.schemas true)
            (JDict [("divider", JDict [])]))).
Proof.
  destruct (ChildBlock_validate_python (Sch := Sample.schemas true)
              (JDict [("divider", JDict [])])) as [st r] eqn:V.
  pose proof V as V'. vm_compute in V'. injection V' as <- <-.
  cbn [snd].
  exact (proj1 (child_state_is_a_block (Sch := Sample.schemas true)
                  _ _ _ V)).
Defined.

(* ===================================================================== *)
(** * What a class reads of a mapping *)
(* ===================================================================== *)

Section Reads.
Context `{Sch : Schemas}.
Variable val : ftype -> json -> json * outcome value.

(** The outcome of validating fields depends only on the values under
    the names of the fields. *)
Lemma validate_fields_agree (fs : list field) :
  NoDup (map fname fs) ->
  forall d1 d2,
    (forall fl, In fl fs ->
                dict_get (fname fl) d1 = dict_get (fname fl) d2) ->
    snd (validate_fields val fs d1) = snd (validate_fields val fs d2).
Proof.
  induction fs as [|[[name t] dflt] fs IH]; intros ND d1 d2 A;
    [reflexivity|].
  inversion ND as [|? ? Nin ND']; subst.
  cbn [validate_fields].
  pose proof (A (name, t, dflt) (or_introl eq_refl)) as An.
  unfold fname in An. cbn [fst] in An. rewrite <- An.
  assert (Ne : forall fl, In fl fs -> fname fl <> name).
  { intros fl Hfl E. apply Nin. change (In name (map fname fs)).
    rewrite <- E. now apply in_map. }
  destruct (dict_get name d1) as [x|].
  - destruct (val t x) as [x' r].
    assert (A' : forall fl, In fl fs ->
                   dict_get (fname fl) (dict_set name x' d1)
                   = dict_get (fname fl) (dict_set name x' d2)).
    { intros fl Hfl.
      rewrite !(dict_get_set_other _ _ _ _ (Ne fl Hfl)).
      apply A. now right. }
    specialize (IH ND' _ _ A').
    destruct (validate_fields val fs (dict_set name x' d1)) as [e1 r1].
    destruct (validate_fields val fs (dict_set name x' d2)) as [e2 r2].
    cbn [snd] in IH. subst r2. destruct r; reflexivity.
  - assert (A' : forall fl, In fl fs ->
                   dict_get (fname fl) d1 = dict_get (fname fl) d2)
      by (intros fl Hfl; apply A; now right).
    specialize (IH ND' _ _ A').
    destruct (validate_fields val fs d1) as [e1 r1].
    destruct (validate_fields val fs d2) as [e2 r2].
    cbn [snd] in IH. subst r2. destruct dflt; reflexivity.
Qed.
End Reads.

Section ReadsModel.
Context `{Sch : Schemas}.
Variable f : json -> json * outcome value.

(** The outcome of a class on a mapping with ["type"] depends only on the
    values of its fields and on whether there are other keys. *)
Lemma validate_model_agree (m : model) (d1 d2 : dict) :
  In m subclasses ->
  dict_has "type" d1 = true ->
  (forall n, In n (map fname (model_fields m)) ->
             dict_get n d1 = dict_get n d2) ->
  has_extra (model_fields m) d1 = has_extra (model_fields m) d2 ->
  snd (validate_model f m (JDict d1)) = snd (validate_model f m (JDict d2)).
Proof.
  intros Hin Has A X.
  assert (Has2 : dict_has "type" d2 = true).
  { unfold dict_has in *. now rewrite <- (A "type" (type_field m Hin)). }
  unfold validate_model, insert_type. rewrite Has, Has2, !validate_TModel.
  pose proof (validate_fields_agree (validate f) (model_fields m)
                (subclasses_distinct_fields m Hin) d1 d2) as S.
  pose proof (validate_fields_keys (validate f) (model_fields m) d1) as K1.
  pose proof (validate_fields_keys (validate f) (model_fields m) d2) as K2.
  destruct (validate_fields (validate f) (model_fields m) d1) as [e1 r1].
  destruct (validate_fields (validate f) (model_fields m) d2) as [e2 r2].
  cbn [fst snd] in *.
  rewrite <- S by (intros fl Hfl; apply A; now apply in_map).
  unfold construct.
  now rewrite (has_extra_keys _ _ _ K1), (has_extra_keys _ _ _ K2), X.
Qed.
End ReadsModel.

Lemma dict_get_perm (k : string) (d d' : dict) :
  Permutation d d' -> NoDup (dict_keys d) -> dict_get k d = dict_get k d'.
Proof.
  unfold dict_keys.
  induction 1 as [|[k1 v1] d d' P IH|[k1 v1] [k2 v2] d|d1 d2 d3 P1 IH1 P2 IH2];
    intros ND.
  - reflexivity.
  - cbn. inversion ND; subst. destruct (String.eqb k k1); auto.
  - cbn. destruct (String.eqb k k2) eqn:E2; destruct (String.eqb k k1) eqn:E1;
      try reflexivity.
    apply String.eqb_eq in E1, E2. subst.
    inversion ND as [|? ? Nin _]; subst. exfalso. apply Nin. now left.
  - rewrite IH1 by exact ND. apply IH2.
    eapply Permutation_NoDup; [|exact ND]. now apply Permutation_map.
Qed.

Lemma existsb_perm {A} (p : A -> bool) (l l' : list A) :
  Permutation l l' -> existsb p l = existsb p l'.
Proof.
  induction 1 as [|x l l' P IH|x y l|l1 l2 l3 P1 IH1 P2 IH2]; cbn.
  - reflexivity.
  - now rewrite IH.
  - destruct (p x), (p y); reflexivity.
  - congruence.
Qed.

Lemma depth_perm (d d' : dict) :
  Permutation d d' -> depth (JDict d) = depth (JDict d').
Proof.
  intros P. cbn [depth]. f_equal.
  induction P as [|x l l' P IH|x y l|l1 l2 l3 P1 IH1 P2 IH2]; cbn.
  - reflexivity.
  - now rewrite IH.
  - lia.
  - congruence.
Qed.

Section Order.
Context `{Sch : Schemas}.

(** X16.  With an explicit ["type"], the order of the keys of the raw
    mapping does not matter to [Block.validate_python]: two mappings that
    hold the same entries in another order, each key once, have the same
    outcome.  (A child without ["type"] is resolved by its first key, so
    there the order does matter.) *)
Theorem Block_key_order (d d' : dict) :
  Permutation d d' -> NoDup (dict_keys d) ->
  snd (Block_validate_python (JDict d))
  = snd (Block_validate_python (JDict d')).
Proof.
  intros P ND. rewrite !Block_validate_python_eq.
  rewrite <- (depth_perm d d' P).
  set (f := ChildBlockUnion (depth (JDict d))).
  unfold union_tagged.
  rewrite <- (dict_get_perm "type" d d' P ND).
  destruct (dict_get "type" d) as [x|] eqn:G; [|reflexivity].
  destruct x as [| | |tag| |]; try reflexivity.
  destruct (find_model tag subclasses) as [m|] eqn:F; [|reflexivity].
  destruct (find_model_In _ _ _ F) as [Hm _].
  apply validate_model_agree; auto.
  - unfold dict_has. now rewrite G.
  - intros n _. now apply dict_get_perm.
  - unfold has_extra. apply existsb_perm. unfold dict_keys.
    now apply Permutation_map.
Qed.
End Order.

Lemma Block_key_order_witness :
  snd (Block_validate_python (Sch := Sample.schemas true)
         (JDict [("type", JStr "divider"); ("archived", JBool true)]))
  = snd (Block_validate_python (Sch := Sample.schemas true)
           (JDict [("archived", JBool true); ("type", JStr "divider")])).
Proof.
  apply (Block_key_order (Sch := Sample.schemas true)).
  - apply perm_swap.
  - apply distinct_NoDup. reflexivity.
Defined.

Section TaggedChild.
Context `{Sch : Schemas}.
Variable f : json -> json * outcome value.
Hypothesis f_frame : forall x, type_added x (fst (f x)).

(** The member that answers in the union without discriminator has read
    its fields as they were in the raw mapping, when that had its
    ["type"]. *)
Lemma union_smart_accepting (ms : list model) :
  incl ms subclasses -> NoDup ms ->
  forall d s v,
    dict_has "type" d = true ->
    union_smart f ms (JDict d) None = (s, Ok v) ->
    exists m dm stm,
      In m ms /\ dict_has "type" dm = true /\
      agree (map fname (model_fields m)) (JDict d) (JDict dm) /\
      validate_model f m (JDict dm) = (stm, Ok v).
Proof.
  induction ms as [|b ms IH]; intros Hincl ND d s v Has U.
  - cbn in U. discriminate.
  - inversion ND as [|? ? Nin ND']; subst.
    assert (Hb : In b subclasses) by (apply Hincl; now left).
    assert (Hincl' : incl ms subclasses)
      by (intros x Hx; apply Hincl; now right).
    cbn [union_smart] in U.
    destruct (validate_model f b (JDict d)) as [j1 r1] eqn:V.
    destruct r1 as [v1| |e]; [| |discriminate].
    + exists b, d, j1. split; [now left|]. split; [exact Has|].
      split; [apply agree_refl|].
      apply (union_smart_ok f f_frame) in U.
      destruct U as [U|(U & _)]; [|discriminate].
      injection U as ->. exact V.
    + destruct (validate_model_state f f_frame b (JDict d) j1
                  ValidationError V) as [(d1 & -> & Has1)|[_ N]];
        [intros e; discriminate| |exfalso; now apply (N d)].
      destruct (IH Hincl' ND' d1 s v Has1 U)
        as (m & dm & stm & Hm & Hasm & A & Vm).
      exists m, dm, stm. split; [now right|]. split; [exact Hasm|].
      split; [|exact Vm].
      eapply agree_trans; [|exact A].
      apply (validate_model_footprint f m b d (JDict d1) ValidationError);
        auto.
      apply same_tag_false; auto. intros <-. contradiction.
Qed.
End TaggedChild.

Section TaggedChildTop.
Context `{Sch : Schemas}.

(** X17.  An explicit ["type"] works for a child as it does at the top:
    when a mapping that has a ["type"] entry is accepted as a child,
    [Block.validate_python] accepts it as the same node. *)
Theorem tagged_child_is_a_block (d : dict) (x st : json) (node : value) :
  dict_get "type" d = Some x ->
  ChildBlock_validate_python (JDict d) = (st, Ok node) ->
  snd (Block_validate_python (JDict d)) = Ok node.
Proof.
  intros G V. rewrite ChildBlock_validate_python_eq in V.
  rewrite Block_validate_python_eq.
  set (f := ChildBlockUnion (depth (JDict d))) in *.
  assert (Has : dict_has "type" d = true)
    by (unfold dict_has; now rewrite G).
  destruct (union_smart_accepting f (ChildBlockUnion_frame _) subclasses
              (incl_refl _) subclasses_NoDup d st node Has V)
    as (m & dm & stm & Hm & Hasm & A & Vm).
  destruct (member_ok_tag f m (JDict dm) stm node Hm Vm)
    as (d1 & tag & I & Et & Gt & _).
  cbn [insert_type] in I. rewrite Hasm in I. injection I as <-.
  cbn [agree] in A. destruct A as [K A].
  assert (Gd : dict_get "type" d = Some (JStr tag)).
  { rewrite <- (A "type" (type_field m Hm)). exact Gt. }
  destruct (subclasses_tagged m Hm) as (tag' & Et' & _ & F).
  rewrite Et in Et'. injection Et' as <-.
  rewrite (union_tagged_select f m d tag F Gd).
  rewrite (validate_model_agree f m d dm Hm Has).
  - now rewrite Vm.
  - intros n Hn. symmetry. now apply A.
  - symmetry. now apply has_extra_keys.
Qed.
End TaggedChildTop.

Lemma tagged_child_is_a_block_witness :
  snd (Block_validate_python (Sch := Sample.schemas true)
         (JDict [("type", JStr "divider"); ("archived", JBool true)]))
  = snd (ChildBlock_validate_python (Sch := Sample.schemas true)
           (JDict [("type", JStr "divider"); ("archived", JBool true)])).
Proof.
  destruct (ChildBlock_validate_python (Sch := Sample.schemas true)
              (JDict [("type", JStr "divider"); ("archived", JBool true)]))
    as [st r] eqn:V.
  pose proof V as V'. vm_compute in V'. injection V' as <- <-.
  cbn [snd].
  exact (tagged_child_is_a_block (Sch := Sample.schemas true)
           [("type", JStr "divider"); ("archived", JBool true)]
           (JStr "divider") _ _ eq_refl V).
Defined.

(* ===================================================================== *)
(** * The class of a node, and where validation writes *)
(* ===================================================================== *)

Section ClassOfNode.
Context `{Sch : Schemas}.

(** X18.  The node built from a mapping with an explicit tag is an
    instance of the class that carries the tag, and its [type] field holds
    the tag, whether the mapping was validated by [Block] or as a
    child. *)
Theorem accepted_class (d : dict) (tag : string) (st : json)
    (node : value) :
  dict_get "type" d = Some (JStr tag) ->
  Block_validate_python (JDict d) = (st, Ok node) \/
  ChildBlock_validate_python (JDict d) = (st, Ok node) ->
  exists m, find_model tag subclasses = Some m /\
            class_of node = Some (cls_name m) /\
            attr "type" node = Some (VStr tag).
Proof.
  intros G V.
  destruct (accepted_tagged d tag st node G V)
    as (f & m & d1 & d2 & vs & F & T & VF & ->).
  exists m. split; [exact F|]. split; [reflexivity|].
  destruct (find_model_In _ _ _ F) as [Hm Et].
  destruct (literal_of_In _ _ _ Et) as (dflt & Hfl).
  destruct (validate_fields_attr _ _ _ _ _ _
              (subclasses_distinct_fields m Hm) VF Hfl) as (v & Av & Hv).
  unfold fname, fty in Av, Hv. cbn [fst snd] in Av, Hv.
  destruct (type_added_get _ _ _ _ T G) as (x' & G' & Tx).
  inversion Tx; subst. rewrite G' in Hv. cbn [validate snd] in Hv.
  rewrite String.eqb_refl in Hv. injection Hv as <-. exact Av.
Qed.
End ClassOfNode.

Lemma accepted_class_witness :
  omap class_of
    (snd (ChildBlock_validate_python (Sch := Sample.schemas true)
            (JDict [("type", JStr "divider")])))
  = Ok (Some "Divider").
Proof.
  destruct (ChildBlock_validate_python (Sch := Sample.schemas true)
              (JDict [("type", JStr "divider")])) as [st r] eqn:V.
  pose proof V as V'. vm_compute in V'. injection V' as <- <-.
  destruct (accepted_class (Sch := Sample.schemas true)
              [("type", JStr "divider")] "divider" _ _ eq_refl
              (or_intror V)) as (m & F & C & _).
  cbn in F. injection F as <-. cbn [snd omap].
  apply (f_equal (@Ok _)). exact C.
Defined.

Section WhereWritten.
Context `{Sch : Schemas}.
Variable f : json -> json * outcome value.

(** Under each key, validating fields leaves either what was there or
    what the validator of the field of that name left. *)
Lemma validate_fields_get (fs : list field) (k : string) :
  NoDup (map fname fs) ->
  forall d,
    dict_get k (fst (validate_fields (validate f) fs d)) = dict_get k d \/
    exists fl x,
      In fl fs /\ fname fl = k /\ dict_get k d = Some x /\
      dict_get k (fst (validate_fields (validate f) fs d))
      = Some (fst (validate f (fty fl) x)).
Proof.
  induction fs as [|[[name t] dflt] fs IH]; intros ND d; [now left|].
  inversion ND as [|? ? Nin ND']; subst.
  cbn [validate_fields].
  destruct (dict_get name d) as [x|] eqn:G.
  - destruct (validate f t x) as [x' r] eqn:Vx.
    assert (Step :
      dict_get k (dict_set name x' d) = dict_get k d \/
      (name = k /\ dict_get k (dict_set name x' d) = Some x')).
    { destruct (String.eqb k name) eqn:E.
      - apply String.eqb_eq in E. subst k. right.
        split; [reflexivity|apply dict_get_set_same].
      - apply String.eqb_neq in E. left. now apply dict_get_set_other. }
    assert (Rest :
      forall d2 rs, validate_fields (validate f) fs (dict_set name x' d)
                    = (d2, rs) ->
        dict_get k d2 = dict_get k d \/
        exists fl x0,
          In fl ((name, t, dflt) :: fs) /\ fname fl = k /\
          dict_get k d = Some x0 /\
          dict_get k d2 = Some (fst (validate f (fty fl) x0))).
    { intros d2 rs Vf.
      destruct (IH ND' (dict_set name x' d)) as [K|(fl & y & Hfl & E & Gy & K)];
        rewrite Vf in K; cbn [fst] in K.
      - destruct Step as [S|[E S]].
        + left. congruence.
        + right. exists (name, t, dflt), x. subst k.
          split; [now left|]. split; [reflexivity|]. split; [exact G|].
          unfold fty. cbn [fst snd]. rewrite Vx. cbn [fst]. congruence.
      - destruct Step as [S|[E' S]].
        + right. exists fl, y. split; [now right|]. split; [exact E|].
          split; [congruence|exact K].
        + exfalso. apply Nin. change (In name (map fname fs)).
          rewrite E', <- E. now apply in_map. }
    destruct r as [v| |e]; cbn [omap].
    + destruct (validate_fields (validate f) fs (dict_set name x' d))
        as [d2 rs] eqn:Vf. cbn [fst]. exact (Rest d2 rs eq_refl).
    + destruct (validate_fields (validate f) fs (dict_set name x' d))
        as [d2 rs] eqn:Vf. cbn [fst]. exact (Rest d2 rs eq_refl).
    + cbn [fst]. destruct Step as [S|[E S]]; [now left|].
      right. exists (name, t, dflt), x. subst k.
      split; [now left|]. split; [reflexivity|]. split; [exact G|].
      unfold fty. cbn [fst snd]. rewrite Vx. exact S.
  - assert (Rest :
      forall d2 rs, validate_fields (validate f) fs d = (d2, rs) ->
        dict_get k d2 = dict_get k d \/
        exists fl x0,
          In fl ((name, t, dflt) :: fs) /\ fname fl = k /\
          dict_get k d = Some x0 /\
          dict_get k d2 = Some (fst (validate f (fty fl) x0))).
    { intros d2 rs Vf.
      destruct (IH ND' d) as [K|(fl & y & Hfl & E & Gy & K)];
        rewrite Vf in K; cbn [fst] in K.
      - now left.
      - right. exists fl, y. auto using in_cons. }
    destruct (validate_fields (validate f) fs d) as [d2 rs] eqn:Vf.
    destruct dflt; cbn [fst]; exact (Rest d2 rs eq_refl).
Qed.

(** The fields of a class: all but the payload hold no blocks, and a
    payload that may hold blocks is a model whose only field with blocks
    is [children]. *)
Lemma class_fields_shape (m : model) (tag : string) (fl : field) :
  In m subclasses -> tag_of m = Some tag -> In fl (model_fields m) ->
  childless (fty fl) = true \/
  (fname fl = tag /\
   exists pcls pfs,
     fty fl = TModel pcls pfs /\ NoDup (map fname pfs) /\
     forall pf, In pf pfs ->
                fname pf = "children" \/ childless (fty pf) = true).
Proof.
  intros Hm Et Hfl.
  assert (A : forallb (fun m =>
      match tag_of m with
      | Some tag =>
          forallb (fun fl =>
            childless (fty fl) ||
            (String.eqb (fname fl) tag &&
             match fty fl with
             | TModel _ pfs =>
                 distinct (map fname pfs) &&
                 forallb (fun pf => String.eqb (fname pf) "children" ||
                                    childless (fty pf)) pfs
             | _ => false
             end)) (model_fields m)
      | None => true
      end) subclasses = true) by reflexivity.
  rewrite forallb_forall in A. specialize (A m Hm). rewrite Et in A.
  rewrite forallb_forall in A. specialize (A fl Hfl).
  apply orb_prop in A. destruct A as [A|A]; [now left|right].
  apply andb_prop in A. destruct A as [E A].
  apply String.eqb_eq in E. split; [exact E|].
  destruct (fty fl) as [| | | | | | | | | |pcls pfs|]; try discriminate.
  apply andb_prop in A. destruct A as [D A].
  exists pcls, pfs. split; [reflexivity|].
  split; [now apply distinct_NoDup|].
  rewrite forallb_forall in A. intros pf Hpf. specialize (A pf Hpf).
  apply orb_prop in A. destruct A as [A|A]; [left|now right].
  now apply String.eqb_eq.
Qed.
End WhereWritten.

Section WhereWrittenTop.
Context `{Sch : Schemas}.

Lemma payload_written (f : json -> json * outcome value) (pcls : string)
    (pfs : list field) (x : json) :
  NoDup (map fname pfs) ->
  (forall pf, In pf pfs ->
              fname pf = "children" \/ childless (fty pf) = true) ->
  match x with
  | JDict pd =>
      exists pd',
        fst (validate f (TModel pcls pfs) x) = JDict pd' /\
        dict_keys pd' = dict_keys pd /\
        forall k, k <> "children" -> dict_get k pd' = dict_get k pd
  | _ => fst (validate f (TModel pcls pfs) x) = x
  end.
Proof.
  intros ND Hp. destruct x as [| | | | |pd]; try reflexivity.
  rewrite validate_TModel.
  pose proof (validate_fields_keys (validate f) pfs pd) as K.
  pose proof (fun k => validate_fields_get f pfs k ND pd) as Kf.
  destruct (validate_fields (validate f) pfs pd) as [pd' r].
  cbn [fst] in *. exists pd'. split; [reflexivity|]. split; [exact K|].
  intros k Nk. destruct (Kf k) as [E|(pf & y & Hpf & E & Gy & Ky)];
    [exact E|].
  destruct (Hp pf Hpf) as [C|C]; [congruence|].
  rewrite (proj1 (validate_childless f _ C y)) in Ky. congruence.
Qed.

(** X19.  Where [Block.validate_python] writes.  The mapping it is given
    keeps its keys, in their order, and its values, except under the key
    named like its tag; and a payload mapping under that key keeps its
    keys and its values except under [children]. *)
Theorem Block_writes_under_children (d : dict) (tag : string) :
  dict_get "type" d = Some (JStr tag) ->
  exists d',
    fst (Block_validate_python (JDict d)) = JDict d' /\
    dict_keys d' = dict_keys d /\
    (forall k, k <> tag -> dict_get k d' = dict_get k d) /\
    (forall x, dict_get tag d = Some x ->
       exists x',
         dict_get tag d' = Some x' /\
         match x with
         | JDict pd =>
             exists pd',
               x' = JDict pd' /\ dict_keys pd' = dict_keys pd /\
               forall k, k <> "children" -> dict_get k pd' = dict_get k pd
         | _ => x' = x
         end).
Proof.
  intros G. rewrite Block_validate_python_eq.
  set (f := ChildBlockUnion (depth (JDict d))).
  assert (Same : forall x, match x with
                           | JDict pd =>
                               exists pd', x = JDict pd' /\
                                 dict_keys pd' = dict_keys pd /\
                                 forall k, k <> "children" ->
                                           dict_get k pd' = dict_get k pd
                           | _ => x = x
                           end).
  { intros x. destruct x; try reflexivity. eauto. }
  destruct (find_model tag subclasses) as [m|] eqn:F.
  - destruct (find_model_In _ _ _ F) as [Hm Et].
    rewrite (tagged_member f d tag m G F), validate_TModel.
    pose proof (validate_fields_keys (validate f) (model_fields m) d) as K.
    pose proof (fun k => validate_fields_get f (model_fields m) k
                           (subclasses_distinct_fields m Hm) d) as Kf.
    destruct (validate_fields (validate f) (model_fields m) d) as [d' r].
    cbn [fst] in *. exists d'. split; [reflexivity|]. split; [exact K|].
    split.
    + intros k Nk. destruct (Kf k) as [E|(fl & y & Hfl & E & Gy & Ky)];
        [exact E|].
      destruct (class_fields_shape m tag fl Hm Et Hfl) as [C|[C _]];
        [|congruence].
      rewrite (proj1 (validate_childless f _ C y)) in Ky. congruence.
    + intros x Gx.
      destruct (Kf tag) as [E|(fl & y & Hfl & E & Gy & Ky)].
      * exists x. split; [congruence|apply Same].
      * rewrite Gx in Gy. injection Gy as <-.
        destruct (class_fields_shape m tag fl Hm Et Hfl)
          as [C|(_ & pcls & pfs & Ef & ND & Hp)].
        -- rewrite (proj1 (validate_childless f _ C x)) in Ky.
           exists x. split; [exact Ky|apply Same].
        -- rewrite Ef in Ky.
           pose proof (payload_written f pcls pfs x ND Hp) as W.
           exists (fst (validate f (TModel pcls pfs) x)).
           split; [exact Ky|].
           destruct x; exact W.
  - unfold union_tagged. rewrite G, F. cbn [fst].
    exists d. split; [reflexivity|]. split; [reflexivity|].
    split; [reflexivity|].
    intros x Gx. exists x. split; [exact Gx|apply Same].
Qed.
End WhereWrittenTop.

Lemma Block_writes_under_children_witness :
  exists d',
    fst (Block_validate_python (Sch := Sample.schemas true)
           (JDict [("type", JStr "toggle");
                   ("toggle",
                    JDict [("rich_text", JList []);
                           ("children",
                            JList [JDict [("divider", JDict [])]])])]))
    = JDict d' /\
    dict_keys d' = ["type"; "toggle"] /\
    dict_get "type" d' = Some (JStr "toggle").
Proof.
  destruct (Block_writes_under_children (Sch := Sample.schemas true)
              [("type", JStr "toggle");
               ("toggle",
                JDict [("rich_text", JList []);
                       ("children", JList [JDict [("divider", JDict [])]])])]
              "toggle" eq_refl) as (d' & E & K & G & _).
  exists d'. split; [exact E|]. split; [exact K|].
  apply (G "type"). discriminate.
Defined.


(* ===================================================================== *)
(** * The state of the children after validation *)
(* ===================================================================== *)

Section StatesOfLoops.
Context `{Sch : Schemas}.
Variable val : ftype -> json -> json * outcome value.

Lemma validate_items_states (t : ftype) (l : list json) :
  Forall (fun x => returns (snd (val t x))) l ->
  fst (validate_items val t l) = map (fun x => fst (val t x)) l.
Proof.
  induction 1 as [|x l Hx HF IH]; [reflexivity|].
  cbn [validate_items map].
  destruct (val t x) as [x' r]. cbn [fst snd] in *.
  destruct (validate_items val t l) as [l' rs]. cbn [fst] in IH. subst l'.
  destruct r as [v| |e]; try reflexivity.
  exfalso. now apply (Hx e).
Qed.

(** Fields that only read pass the mapping on to the last field. *)
Lemma validate_fields_last (pre : list field) (fl : field) (x : json) :
  Forall (fun p => forall y, fst (val (fty p) y) = y /\
                             returns (snd (val (fty p) y))) pre ->
  forall d, dict_get (fname fl) d = Some x ->
    fst (validate_fields val (pre ++ [fl]) d)
    = dict_set (fname fl) (fst (val (fty fl) x)) d.
Proof.
  induction 1 as [|[[name t] dflt] pre Hp HF IH]; intros d G.
  - destruct fl as [[name t] dflt]. unfold fname, fty in *.
    cbn [fst snd] in *. cbn [app validate_fields]. rewrite G.
    destruct (val t x) as [x' r]. cbn [fst].
    destruct r; reflexivity.
  - cbn [app validate_fields]. unfold fty in Hp. cbn [fst snd] in Hp.
    destruct (dict_get name d) as [y|] eqn:Gy.
    + destruct (Hp y) as [F R]. destruct (val t y) as [y' r].
      cbn [fst snd] in F, R. subst y'. rewrite (dict_set_id _ _ _ Gy).
      specialize (IH d G).
      destruct (validate_fields val (pre ++ [fl]) d) as [d2 rs].
      cbn [fst] in IH. subst d2.
      destruct r as [v| |e]; try reflexivity. exfalso. now apply (R e).
    + specialize (IH d G).
      destruct (validate_fields val (pre ++ [fl]) d) as [d2 rs].
      cbn [fst] in IH. subst d2. destruct dflt; reflexivity.
Qed.
End StatesOfLoops.

Section StatesOfChildren.
Context `{Sch : Schemas}.

Lemma childless_reads (f : json -> json * outcome value) (fs : list field) :
  forallb (fun p => childless (fty p)) fs = true ->
  Forall (fun p => forall y, fst (validate f (fty p) y) = y /\
                             returns (snd (validate f (fty p) y))) fs.
Proof.
  rewrite forallb_forall. intros H. apply Forall_forall.
  intros p Hp y. exact (validate_childless f _ (H p Hp) y).
Qed.

(** X20.  Every child is validated on its own and left in the state of
    its own validation, whatever becomes of the block: when no child lets
    an exception escape, [Block.validate_python] leaves the caller's
    mapping as it was except that each entry of the [children] list of its
    payload is the state in which validating that entry as a child leaves
    it.  This holds when the block is accepted and when it is rejected. *)
Theorem children_states (tag : string) (d pd : dict) (items : list json) :
  In tag children_tags ->
  dict_get "type" d = Some (JStr tag) ->
  dict_get tag d = Some (JDict pd) ->
  dict_get "children" pd = Some (JList items) ->
  Forall (fun x => returns (snd (ChildBlock_validate_python x))) items ->
  fst (Block_validate_python (JDict d))
  = JDict
      (dict_set tag
         (JDict
            (dict_set "children"
               (JList (map (fun x => fst (ChildBlock_validate_python x))
                         items))
               pd))
         d).
Proof.
  intros Ht G Gp Gc HR.
  destruct (children_variant_split tag Ht)
    as (m & pcls & pre & ppre & F & Hm & Cpre & Cppre & _ & _).
  rewrite Block_validate_python_eq.
  set (f := ChildBlockUnion (depth (JDict d))).
  assert (Hf : forall x, In x items -> f x = ChildBlock_validate_python x).
  { intros x Hx. unfold f. apply ChildBlock_validate_python_fuel.
    apply In_depth in Hx. apply dict_get_depth in Gc.
    apply dict_get_depth in Gp. lia. }
  assert (Vc : fst (validate f (fty children_field) (JList items))
               = JList (map (fun x => fst (ChildBlock_validate_python x))
                          items)).
  { unfold children_field, defaulted, fty. cbn [fst snd validate].
    assert (R : Forall (fun x => returns
                          (snd (validate f TChildBlockUnion x))) items).
    { rewrite Forall_forall in *. intros x Hx. cbn [validate].
      rewrite (Hf x Hx). exact (HR x Hx). }
    pose proof (validate_items_states (validate f) TChildBlockUnion
                  items R) as S.
    destruct (validate_items (validate f) TChildBlockUnion items)
      as [l' rs]. cbn [fst] in *. subst l'. apply (f_equal JList).
    apply map_ext_in. intros x Hx. cbn [validate].
    rewrite (Hf x Hx). reflexivity. }
  assert (Vp : fst (validate f (TModel pcls (ppre ++ [children_field]))
                      (JDict pd))
               = JDict (dict_set "children"
                          (JList (map (fun x =>
                                         fst (ChildBlock_validate_python x))
                                    items)) pd)).
  { rewrite validate_TModel.
    pose proof (validate_fields_last (validate f) ppre children_field
                  (JList items) (childless_reads f ppre Cppre) pd Gc) as L.
    rewrite Vc in L.
    destruct (validate_fields (validate f) (ppre ++ [children_field]) pd)
      as [pd' r]. cbn [fst] in *. subst pd'. reflexivity. }
  rewrite (tagged_member f d tag m G F), validate_TModel, Hm.
  pose proof (validate_fields_last (validate f) pre
                (tag, TModel pcls (ppre ++ [children_field]), None)
                (JDict pd) (childless_reads f pre Cpre) d Gp) as L.
  unfold fname, fty in L. cbn [fst snd] in L. rewrite Vp in L.
  destruct (validate_fields (validate f) _ d) as [d' r].
  cbn [fst] in *. subst d'. reflexivity.
Qed.
End StatesOfChildren.


Lemma children_states_witness :
  fst (Block_validate_python (Sch := Sample.schemas true)
         (JDict [("type", JStr "toggle"); ("id", JStr "not-a-uuid");
                 ("toggle",
                  JDict [("children",
                          JList [JDict [("divider", JDict [])]])])]))
  = JDict [("type", JStr "toggle"); ("id", JStr "not-a-uuid");
           ("toggle",
            JDict [("children",
                    JList [JDict [("divider", JDict []);
                                  ("type", JStr "divider")]])])].
Proof.
  assert (Ht : In "toggle" children_tags)
    by (unfold children_tags; simpl; auto 10).
  assert (HR : Forall (fun x => returns
                         (snd (ChildBlock_validate_python
                                 (Sch := Sample.schemas true) x)))
                 [JDict [("divider", JDict [])]]).
  { constructor; [|constructor]. vm_compute. intros e. discriminate. }
  rewrite (children_states (Sch := Sample.schemas true) "toggle"
             [("type", JStr "toggle"); ("id", JStr "not-a-uuid");
              ("toggle",
               JDict [("children", JList [JDict [("divider", JDict [])]])])]
             [("children", JList [JDict [("divider", JDict [])]])]
             [JDict [("divider", JDict [])]]
             Ht eq_refl eq_refl eq_refl HR).
  vm_compute. reflexivity.
Defined.

(* ===================================================================== *)
(** * Children that are not mappings, and blocks without children *)
(* ===================================================================== *)

Section NotMappings.
Context `{Sch : Schemas}.
Variable f : json -> json * outcome value.

Lemma insert_type_scalar (j j1 : json) :
  (forall d, j <> JDict d) -> insert_type j = Ok j1 -> j1 = j.
Proof.
  intros N. destruct j as [| | |s|l|d]; cbn; try discriminate.
  - destruct (str_contains "type" s); [|destruct s; discriminate].
    now intros [= <-].
  - destruct (existsb is_type_str l); [|destruct l; discriminate].
    now intros [= <-].
  - exfalso. now apply (N d).
Qed.

Lemma validate_model_not_mapping (m : model) (j : json) :
  (forall d, j <> JDict d) ->
  validate_model f m j
  = (j, match insert_type j with
        | Raise e => Raise e
        | _ => ValidationError
        end).
Proof.
  intros N. unfold validate_model.
  destruct (insert_type j) as [j1| |e] eqn:I; try reflexivity.
  rewrite (insert_type_scalar j j1 N I).
  destruct j; try reflexivity. exfalso. now apply (N d).
Qed.

Lemma union_smart_not_mapping (j : json) :
  (forall d, j <> JDict d) ->
  forall ms m,
    union_smart f (m :: ms) j None
    = (j, match insert_type j with
          | Raise e => Raise e
          | _ => ValidationError
          end).
Proof.
  intros N. induction ms as [|m' ms IH]; intros m; cbn [union_smart];
    rewrite (validate_model_not_mapping m j N).
  - destruct (insert_type j); reflexivity.
  - specialize (IH m'). cbn [union_smart] in IH.
    rewrite (validate_model_not_mapping m' j N) in *.
    destruct (insert_type j); try reflexivity; exact IH.
Qed.
End NotMappings.

Section NotMappingsTop.
Context `{Sch : Schemas}.

(** X21.  A child that is not a mapping is never accepted and never
    written to, and the test ["type" not in values] of [insert_type]
    decides how it fails: a string that contains ["type"], or a list with
    the item ["type"], gets a [ValidationError]; null, a boolean and a
    number raise [TypeError]; the empty string and the empty list raise
    [IndexError]; any other string or list raises [TypeError]. *)
Theorem child_not_a_mapping (raw : json) :
  (forall d, raw <> JDict d) ->
  ChildBlock_validate_python raw
  = (raw,
     match raw with
     | JStr s =>
         if str_contains "type" s then ValidationError
         else match s with
              | EmptyString => Raise IndexError
              | String _ _ => Raise TypeError
              end
     | JList l =>
         if existsb is_type_str l then ValidationError
         else match l with
              | [] => Raise IndexError
              | _ :: _ => Raise TypeError
              end
     | _ => Raise TypeError
     end).
Proof.
  intros N. rewrite ChildBlock_validate_python_eq. unfold subclasses.
  rewrite (union_smart_not_mapping _ raw N). f_equal.
  destruct raw as [| | |s|l|d]; cbn [insert_type]; try reflexivity.
  - destruct (str_contains "type" s); [|destruct s]; reflexivity.
  - destruct (existsb is_type_str l); [|destruct l]; reflexivity.
  - exfalso. now apply (N d).
Qed.
End NotMappingsTop.

Lemma child_not_a_mapping_witness :
  ChildBlock_validate_python (Sch := Sample.schemas true)
    (JStr "prototype") = (JStr "prototype", ValidationError).
Proof.
  refine (child_not_a_mapping (Sch := Sample.schemas true)
            (JStr "prototype") _).
  intros d. discriminate.
Defined.

Section Quiet2.
Context `{Sch : Schemas}.
Variable val : ftype -> json -> json * outcome value.

(** Fields whose validators only read what the mapping holds for them
    leave the mapping as it is, and return. *)
Lemma validate_fields_quiet (fs : list field) (d : dict) :
  Forall (fun fl => forall x, dict_get (fname fl) d = Some x ->
                      fst (val (fty fl) x) = x /\
                      returns (snd (val (fty fl) x))) fs ->
  fst (validate_fields val fs d) = d /\
  returns (snd (validate_fields val fs d)).
Proof.
  induction 1 as [|[[name t] dflt] fs Hf HF [IH1 IH2]].
  - split; [reflexivity|intros e; discriminate].
  - unfold fname, fty in Hf. cbn [fst snd] in Hf.
    cbn [validate_fields].
    destruct (dict_get name d) as [x|] eqn:G.
    + destruct (Hf x eq_refl) as [F R].
      destruct (val t x) as [x' r]. cbn [fst snd] in F, R. subst x'.
      rewrite (dict_set_id _ _ _ G).
      destruct (validate_fields val fs d) as [d2 rs].
      cbn [fst snd] in IH1, IH2. subst d2.
      destruct r as [v| |e]; cbn [omap];
        [split; [reflexivity|now apply also_returns]
        |split; [reflexivity|now apply also_returns]
        |exfalso; now apply (R e)].
    + destruct (validate_fields val fs d) as [d2 rs].
      cbn [fst snd] in IH1, IH2. subst d2.
      destruct dflt; split; try reflexivity; now apply also_returns.
Qed.
End Quiet2.

Section NoChildren.
Context `{Sch : Schemas}.

(** In a payload model, a field that may hold blocks is the [children]
    list. *)
Lemma payload_fields_shape (m : model) (fl pf : field) (pcls : string)
    (pfs : list field) :
  In m subclasses -> In fl (model_fields m) ->
  fty fl = TModel pcls pfs -> In pf pfs ->
  childless (fty pf) = true \/
  (fname pf = "children" /\ fty pf = TOptional (TList TChildBlockUnion)).
Proof.
  intros Hm Hfl Ef Hpf.
  assert (A : forallb (fun m =>
      forallb (fun fl =>
        match fty fl with
        | TModel _ pfs =>
            forallb (fun pf =>
              childless (fty pf) ||
              (String.eqb (fname pf) "children" &&
               match fty pf with
               | TOptional (TList TChildBlockUnion) => true
               | _ => false
               end)) pfs
        | _ => true
        end) (model_fields m)) subclasses = true) by reflexivity.
  rewrite forallb_forall in A. specialize (A m Hm).
  rewrite forallb_forall in A. specialize (A fl Hfl). rewrite Ef in A.
  rewrite forallb_forall in A. specialize (A pf Hpf).
  apply orb_prop in A. destruct A as [A|A]; [now left|right].
  apply andb_prop in A. destruct A as [E A].
  apply String.eqb_eq in E. split; [exact E|].
  destruct (fty pf) as [| | | | | | | |t'| | |]; try discriminate.
  destruct t' as [| | | | | | | | |t''| |]; try discriminate.
  destruct t''; try discriminate. reflexivity.
Qed.

(** X22.  Without children there is nothing to write and nothing that
    raises: when the payload of a raw block holds no [children] entry, or
    holds null or the empty list there, [Block.validate_python] leaves the
    caller's mapping exactly as it was and either returns or fails with a
    [ValidationError], for every tag. *)
Theorem no_children_no_writes (d : dict) (tag : string) :
  dict_get "type" d = Some (JStr tag) ->
  (forall pd x, dict_get tag d = Some (JDict pd) ->
                dict_get "children" pd = Some x ->
                x = JNull \/ x = JList []) ->
  fst (Block_validate_python (JDict d)) = JDict d /\
  returns (snd (Block_validate_python (JDict d))).
Proof.
  intros G Hc. rewrite Block_validate_python_eq.
  set (f := ChildBlockUnion (depth (JDict d))).
  destruct (find_model tag subclasses) as [m|] eqn:F.
  - destruct (find_model_In _ _ _ F) as [Hm Et].
    rewrite (tagged_member f d tag m G F), validate_TModel.
    assert (Q : Forall (fun fl => forall x,
                          dict_get (fname fl) d = Some x ->
                          fst (validate f (fty fl) x) = x /\
                          returns (snd (validate f (fty fl) x)))
                  (model_fields m)).
    { apply Forall_forall. intros fl Hfl x Gx.
      destruct (class_fields_shape m tag fl Hm Et Hfl)
        as [C|(En & pcls & pfs & Ef & ND & _)].
      - exact (validate_childless f _ C x).
      - rewrite Ef. rewrite En in Gx.
        destruct x as [| | | | |pd];
          try (split; [reflexivity|intros e; discriminate]).
        rewrite validate_TModel.
        assert (Qp : Forall (fun pf => forall y,
                              dict_get (fname pf) pd = Some y ->
                              fst (validate f (fty pf) y) = y /\
                              returns (snd (validate f (fty pf) y))) pfs).
        { apply Forall_forall. intros pf Hpf y Gy.
          destruct (payload_fields_shape m fl pf pcls pfs Hm Hfl Ef Hpf)
            as [C|[Ec Et']].
          - exact (validate_childless f _ C y).
          - rewrite Et'. rewrite Ec in Gy.
            destruct (Hc pd y Gx Gy) as [->| ->];
              split; try reflexivity; intros e; discriminate. }
        destruct (validate_fields_quiet (validate f) pfs pd Qp) as [S1 S2].
        destruct (validate_fields (validate f) pfs pd) as [pd' r'].
        cbn [fst snd] in *. subst pd'. split; [reflexivity|].
        now apply construct_returns. }
    destruct (validate_fields_quiet (validate f) (model_fields m) d Q)
      as [S1 S2].
    destruct (validate_fields (validate f) (model_fields m) d) as [d' r].
    cbn [fst snd] in *. subst d'. split; [reflexivity|].
    now apply construct_returns.
  - unfold union_tagged. rewrite G, F. split; [reflexivity|].
    intros e. discriminate.
Qed.
End NoChildren.

Lemma no_children_no_writes_witness :
  fst (Block_validate_python (Sch := Sample.schemas true)
         (JDict [("type", JStr "toggle");
                 ("toggle", JDict [("rich_text", JList []);
                                   ("children", JList [])])]))
  = JDict [("type", JStr "toggle");
           ("toggle", JDict [("rich_text", JList []);
                             ("children", JList [])])].
Proof.
  refine (proj1 (no_children_no_writes (Sch := Sample.schemas true)
                   [("type", JStr "toggle");
                    ("toggle", JDict [("rich_text", JList []);
                                      ("children", JList [])])]
                   "toggle" eq_refl _)).
  intros pd x Gp Gc. cbn in Gp. injection Gp as <-.
  cbn in Gc. injection Gc as <-. now right.
Defined.


(* ===================================================================== *)
(** * Exceptions come from children only *)
(* ===================================================================== *)

Section ReturnsLoops.
Context `{Sch : Schemas}.
Variable val : ftype -> json -> json * outcome value.

Lemma validate_items_return (t : ftype) (l : list json) :
  Forall (fun x => returns (snd (val t x))) l ->
  returns (snd (validate_items val t l)).
Proof.
  induction 1 as [|x l Hx HF IH]; [intros e; discriminate|].
  cbn [validate_items].
  destruct (val t x) as [x' r]. cbn [snd] in Hx.
  destruct (validate_items val t l) as [l' rs]. cbn [snd] in IH.
  destruct r as [v| |e]; cbn [snd];
    [now apply also_returns|now apply also_returns|].
  exfalso. now apply (Hx e).
Qed.

(** Fields return when the validator of each returns on what the mapping
    holds for it. *)
Lemma validate_fields_return (fs : list field) :
  NoDup (map fname fs) ->
  forall d,
    Forall (fun fl => forall x, dict_get (fname fl) d = Some x ->
                                returns (snd (val (fty fl) x))) fs ->
    returns (snd (validate_fields val fs d)).
Proof.
  induction fs as [|[[name t] dflt] fs IH]; intros ND d HF.
  - intros e. discriminate.
  - inversion ND as [|? ? Nin ND']; subst.
    inversion HF as [|? ? Hf HF']; subst.
    unfold fname, fty in Hf. cbn [fst snd] in Hf.
    cbn [validate_fields].
    destruct (dict_get name d) as [x|] eqn:G.
    + specialize (Hf x eq_refl).
      destruct (val t x) as [x' r]. cbn [snd] in Hf.
      assert (HF2 : Forall (fun fl => forall y,
                              dict_get (fname fl) (dict_set name x' d)
                              = Some y ->
                              returns (snd (val (fty fl) y))) fs).
      { rewrite Forall_forall in *. intros fl Hfl y Gy.
        apply (HF' fl Hfl). rewrite <- Gy. symmetry.
        apply dict_get_set_other. intros E. apply Nin.
        change (In name (map fname fs)). rewrite <- E. now apply in_map. }
      specialize (IH ND' _ HF2).
      destruct (validate_fields val fs (dict_set name x' d)) as [d2 rs].
      cbn [snd] in IH.
      destruct r as [v| |e]; cbn [omap snd];
        [now apply also_returns|now apply also_returns|].
      exfalso. now apply (Hf e).
    + specialize (IH ND' _ HF').
      destruct (validate_fields val fs d) as [d2 rs]. cbn [snd] in IH.
      destruct dflt; cbn [snd]; now apply also_returns.
Qed.
End ReturnsLoops.

Section ReturnsTop.
Context `{Sch : Schemas}.

(** X23.  Only children make [Block.validate_python] raise.  When every
    entry of the [children] list in the payload of a raw block returns or
    fails with a [ValidationError] as a child, so does the call for the
    block; no other part of a raw mapping can make an exception other
    than [ValidationError] escape. *)
Theorem exceptions_come_from_children (d : dict) (tag : string) :
  dict_get "type" d = Some (JStr tag) ->
  (forall pd items x,
     dict_get tag d = Some (JDict pd) ->
     dict_get "children" pd = Some (JList items) ->
     In x items ->
     returns (snd (ChildBlock_validate_python x))) ->
  returns (snd (Block_validate_python (JDict d))).
Proof.
  intros G Hc. rewrite Block_validate_python_eq.
  set (f := ChildBlockUnion (depth (JDict d))).
  destruct (find_model tag subclasses) as [m|] eqn:F;
    [|unfold union_tagged; rewrite G, F; intros e; discriminate].
  destruct (find_model_In _ _ _ F) as [Hm Et].
  rewrite (tagged_member f d tag m G F), validate_TModel.
  assert (Q : Forall (fun fl => forall x,
                        dict_get (fname fl) d = Some x ->
                        returns (snd (validate f (fty fl) x)))
                (model_fields m)).
  { apply Forall_forall. intros fl Hfl x Gx.
    destruct (class_fields_shape m tag fl Hm Et Hfl)
      as [C|(En & pcls & pfs & Ef & ND & _)].
    - exact (proj2 (validate_childless f _ C x)).
    - rewrite Ef. rewrite En in Gx.
      destruct x as [| | | | |pd]; try (intros e; discriminate).
      rewrite validate_TModel.
      assert (Qp : Forall (fun pf => forall y,
                            dict_get (fname pf) pd = Some y ->
                            returns (snd (validate f (fty pf) y))) pfs).
      { apply Forall_forall. intros pf Hpf y Gy.
        destruct (payload_fields_shape m fl pf pcls pfs Hm Hfl Ef Hpf)
          as [C|[Ec Et']].
        - exact (proj2 (validate_childless f _ C y)).
        - rewrite Et'. rewrite Ec in Gy.
          destruct y as [| | | |items|]; try (intros e; discriminate).
          cbn [validate].
          assert (R : Forall (fun x => returns
                                (snd (validate f TChildBlockUnion x)))
                        items).
          { apply Forall_forall. intros x Hx. cbn [validate]. unfold f.
            rewrite ChildBlock_validate_python_fuel.
            - exact (Hc pd items x Gx Gy Hx).
            - apply In_depth in Hx. apply dict_get_depth in Gy.
              apply dict_get_depth in Gx. lia. }
          pose proof (validate_items_return (validate f) TChildBlockUnion
                        items R) as RI.
          destruct (validate_items (validate f) TChildBlockUnion items)
            as [l' rs]. cbn [snd] in *. now apply omap_returns. }
      pose proof (validate_fields_return (validate f) pfs ND pd Qp) as RP.
      destruct (validate_fields (validate f) pfs pd) as [pd' r'].
      cbn [snd] in *. now apply construct_returns. }
  pose proof (validate_fields_return (validate f) (model_fields m)
                (subclasses_distinct_fields m Hm) d Q) as RM.
  destruct (validate_fields (validate f) (model_fields m) d) as [d' r].
  cbn [snd] in *. now apply construct_returns.
Qed.

(** X24.  The marker [object] is either null or the string ["block"]: a
    raw mapping that holds any other string, a list or a mapping under
    [object] is accepted neither by [Block] nor as a child. *)
Theorem object_must_be_block (d : dict) (x : json) :
  dict_get "object" d = Some x ->
  (exists s, x = JStr s /\ s <> "block") \/ (exists l, x = JList l) \/
  (exists e, x = JDict e) ->
  is_ok (snd (Block_validate_python (JDict d))) = false /\
  is_ok (snd (ChildBlock_validate_python (JDict d))) = false.
Proof.
  intros G Hx.
  assert (A : forall st node,
             Block_validate_python (JDict d) = (st, Ok node) \/
             ChildBlock_validate_python (JDict d) = (st, Ok node) -> False).
  { intros st node V.
    destruct (accepted_member d st node V)
      as (f & m & d1 & d2 & vs & Hin & T & VF & ->).
    assert (Hfl : In ("object", TOptional (TLiteral "block"), Some VNone)
                    (model_fields m)).
    { apply envelope_field. unfold _BlockCommon, defaulted. simpl. auto. }
    destruct (validate_fields_attr _ _ _ _ _ _
                (subclasses_distinct_fields m Hin) VF Hfl) as (v & _ & Hv).
    unfold fname, fty, fdefault in Hv. cbn [fst snd] in Hv.
    assert (Nt : "object" <> "type") by discriminate.
    pose proof (type_added_get_other d d1 "object" T Nt) as G1.
    rewrite G in G1. destruct G1 as (x' & G1 & Tx). rewrite G1 in Hv.
    destruct Hx as [(s & -> & Ns)|[(l & ->)|(e & ->)]]; inversion Tx; subst;
      cbn [validate snd] in Hv; try discriminate Hv.
    destruct (String.eqb s "block") eqn:E; [|discriminate Hv].
    apply String.eqb_eq in E. contradiction. }
  split.
  - destruct (Block_validate_python (JDict d)) as [st [node| |e]] eqn:V;
      try reflexivity.
    exfalso. exact (A st node (or_introl eq_refl)).
  - destruct (ChildBlock_validate_python (JDict d)) as [st [node| |e]] eqn:V;
      try reflexivity.
    exfalso. exact (A st node (or_intror eq_refl)).
Qed.
End ReturnsTop.

Lemma exceptions_come_from_children_witness :
  returns
    (snd (Block_validate_python (Sch := Sample.schemas true)
            (JDict [("type", JStr "toggle");
                    ("toggle",
                     JDict [("children",
                             JList [JDict [("divider", JInt 1)]])])]))).
Proof.
  refine (exceptions_come_from_children (Sch := Sample.schemas true)
            [("type", JStr "toggle");
             ("toggle",
              JDict [("children", JList [JDict [("divider", JInt 1)]])])]
            "toggle" eq_refl _).
  intros pd items x Gp Gc Hx. cbn in Gp. injection Gp as <-.
  cbn in Gc. injection Gc as <-. destruct Hx as [<-|[]].
  vm_compute. intros e. discriminate.
Defined.

Lemma object_must_be_block_witness :
  is_ok (snd (Block_validate_python (Sch := Sample.schemas true)
                (JDict [("object", JStr "page"); ("type", JStr "divider")])))
  = false.
Proof.
  refine (proj1 (object_must_be_block (Sch := Sample.schemas true)
                   [("object", JStr "page"); ("type", JStr "divider")]
                   (JStr "page") eq_refl _)).
  left. exists "page". split; [reflexivity|discriminate].
Defined.
